(** * STM32F0_XPD DMA channel driver (xpd_dma.c): model and properties

    The driver is embedded as state-passing functions over a record of the
    software-visible state: the channel handle, the memory-mapped register
    blocks of the DMA channels and controllers, the driver's static tables
    and the millisecond tick.  Registers are 32-bit words held in [Z]; the
    bit operations of the C code are written with [Z.land], [Z.lor],
    [Z.lnot], [Z.shiftl] and [Z.shiftr].

    XPD_DMA_Start is also written stepwise, over any way of running a
    step, so that the order of its stores can be recorded.

    A second, smaller model is the EXTI line configuration of STM32L4_XPD
    (xpd_exti.c): two functions on the register block of the EXTI, in both
    of their build variants. *)

From Stdlib Require Import ZArith Lia ZifyBool Bool List.
From stdpp Require Import gmap list.
Import ListNotations.

Local Open Scope Z_scope.

(** ** Return codes and enumerations *)

Inductive XPD_ReturnType : Set :=
  | XPD_OK
  | XPD_ERROR
  | XPD_BUSY
  | XPD_TIMEOUT.

Definition XPD_ReturnType_eqb (a b : XPD_ReturnType) : bool :=
  match a, b with
  | XPD_OK, XPD_OK | XPD_ERROR, XPD_ERROR
  | XPD_BUSY, XPD_BUSY | XPD_TIMEOUT, XPD_TIMEOUT => true
  | _, _ => false
  end.

Inductive DMA_OperationType : Set :=
  | DMA_OPERATION_TRANSFER
  | DMA_OPERATION_HALFTRANSFER.

(** The three interrupt flags of a channel (the token pasted into the
    XPD_DMA_GetFlag / XPD_DMA_ClearFlag / XPD_DMA_DisableIT macros). *)
Inductive DMA_FlagName : Set := TC | HT | TE.

(** Modelled from the spec: the error bitmask values of xpd_dma.h, which is
    not among the sources ("bitmask per channel, values NONE and
    TRANSFER_ERROR"). *)
Definition DMA_ERROR_NONE : Z := 0.
Definition DMA_ERROR_TRANSFER : Z := 1.

(** ** Register words and the CMSIS bit macros *)

Definition SET_BIT (reg bit : Z) : Z := Z.lor reg bit.
Definition CLEAR_BIT (reg bit : Z) : Z := Z.land reg (Z.lnot bit).
Definition READ_BIT (reg bit : Z) : Z := Z.land reg bit.

(** Assignment to, and read of, a bit field of [width] bits at bit [pos] of
    a register union ([reg.b.FIELD = v] and [reg.b.FIELD]): the value is
    truncated to the width of the field. *)
Definition write_field (pos width v reg : Z) : Z :=
  Z.lor (Z.land reg (Z.lnot (Z.shiftl (Z.ones width) pos)))
        (Z.shiftl (Z.land v (Z.ones width)) pos).

Definition read_field (pos width reg : Z) : Z :=
  Z.land (Z.shiftr reg pos) (Z.ones width).

(** Modelled from the spec: the bit layout of the channel configuration
    register and of the interrupt status register comes from the device
    header, which is not among the sources ("the fixed memory-mapped
    register layout of the DMA controller"); these are the positions of the
    STM32F0 reference manual. *)
Definition DMA_CCR_EN : Z := 1.
Definition DMA_CCR_TCIE : Z := 2.
Definition DMA_CCR_HTIE : Z := 4.
Definition DMA_CCR_TEIE : Z := 8.

Inductive CCR_Field : Set :=
  | EN | TCIE | HTIE | TEIE | DIR | CIRC | PINC | MINC
  | PSIZE | MSIZE | PL | MEM2MEM.

Definition CCR_pos (f : CCR_Field) : Z :=
  match f with
  | EN => 0 | TCIE => 1 | HTIE => 2 | TEIE => 3 | DIR => 4 | CIRC => 5
  | PINC => 6 | MINC => 7 | PSIZE => 8 | MSIZE => 10 | PL => 12
  | MEM2MEM => 14
  end.

Definition CCR_width (f : CCR_Field) : Z :=
  match f with
  | PSIZE | MSIZE | PL => 2
  | _ => 1
  end.

Definition DMA_ISR_TCIF1 : Z := 2.
Definition DMA_ISR_HTIF1 : Z := 4.
Definition DMA_ISR_TEIF1 : Z := 8.

Definition DMA_ISR_IF1 (f : DMA_FlagName) : Z :=
  match f with
  | TC => DMA_ISR_TCIF1
  | HT => DMA_ISR_HTIF1
  | TE => DMA_ISR_TEIF1
  end.

(** The interrupt-enable bit that belongs to a flag ([IT_NAME##IE]). *)
Definition CCR_IE (f : DMA_FlagName) : CCR_Field :=
  match f with
  | TC => TCIE
  | HT => HTIE
  | TE => TEIE
  end.

(** ** Register blocks, handle and machine state *)

Record DMA_Channel_TypeDef : Set := mkChannel {
  CCR : Z;
  CNDTR : Z;
  CPAR : Z;
  CMAR : Z
}.

(** The controller block: the interrupt status register.  The flag-clear
    register IFCR is write-only; a write clears the selected bits of ISR
    (see [XPD_DMA_ClearFlag]). *)
Record DMA_TypeDef : Set := mkDMA {
  ISR : Z
}.

#[global] Instance DMA_Channel_TypeDef_inhabited : Inhabited DMA_Channel_TypeDef :=
  populate (mkChannel 0 0 0 0).
#[global] Instance DMA_TypeDef_inhabited : Inhabited DMA_TypeDef :=
  populate (mkDMA 0).

(** Callback slots hold function pointers; 0 is the null pointer. *)
Record DMA_CallbacksType : Set := mkCallbacks {
  Complete : Z;
  HalfComplete : Z;
  Error : Z
}.

Record DMA_HandleType : Set := mkHandle {
  Inst : Z;            (* address of the channel register block *)
  Base : Z;            (* address of the controller register block *)
  ChannelOffset : Z;   (* offset of the channel's flag group in ISR/IFCR *)
  Errors : Z;
  Callbacks : DMA_CallbacksType
}.

Record DataStreamType : Set := mkDataStream {
  buffer : Z;
  length : Z
}.

(** The peripherals and the driver's static data. *)
Record World : Type := mkWorld {
  chan_regs : gmap Z DMA_Channel_TypeDef;  (* channel blocks, by address *)
  dma_regs : gmap Z DMA_TypeDef;           (* controller blocks, by address *)
  dma_users : list Z;      (* static uint8_t dma_users[] *)
  dma_clock : list bool;   (* the clock gate driven by dma_clkCtrl[i] *)
  msTick : Z;              (* the tick read by XPD_GetTimer *)
  critical : nat;          (* nesting depth of critical sections *)
  calls : list Z           (* callbacks invoked so far, oldest first *)
}.

(** What a driver function works on: the handle behind [hdma] and the rest
    of the machine. *)
Record Ctx : Type := mkCtx {
  hdma : DMA_HandleType;
  world : World
}.

(** ** A small state monad for the driver functions

    [M A] is a computation that returns an [A] and updates the state; the
    notations [x ← m; k] and [m;; k] are those of stdpp's monad classes. *)

Definition M (A : Type) : Type := Ctx -> A * Ctx.

#[global] Instance M_ret : MRet M := fun A a c => (a, c).

#[global] Instance M_bind : MBind M :=
  fun A B k m c => let (a, c') := m c in k a c'.

(** Read of a location, and in-place update of the state. *)
Definition load {A : Type} (f : Ctx -> A) : M A := fun c => (f c, c).
Definition modify (f : Ctx -> Ctx) : M unit := fun c => (tt, f c).

(** ** Access paths of the C code *)

(** [*hdma->Inst] and [*hdma->Base]; an address nobody wrote reads as the
    reset value 0. *)
Definition Inst_regs (c : Ctx) : DMA_Channel_TypeDef :=
  chan_regs (world c) !!! Inst (hdma c).

Definition Base_regs (c : Ctx) : DMA_TypeDef :=
  dma_regs (world c) !!! Base (hdma c).

Definition set_chan_regs (m : gmap Z DMA_Channel_TypeDef) (w : World) : World :=
  mkWorld m (dma_regs w) (dma_users w) (dma_clock w) (msTick w)
          (critical w) (calls w).

Definition set_dma_regs (m : gmap Z DMA_TypeDef) (w : World) : World :=
  mkWorld (chan_regs w) m (dma_users w) (dma_clock w) (msTick w)
          (critical w) (calls w).

Definition set_dma_users (l : list Z) (w : World) : World :=
  mkWorld (chan_regs w) (dma_regs w) l (dma_clock w) (msTick w)
          (critical w) (calls w).

Definition set_dma_clock (l : list bool) (w : World) : World :=
  mkWorld (chan_regs w) (dma_regs w) (dma_users w) l (msTick w)
          (critical w) (calls w).

Definition set_critical (n : nat) (w : World) : World :=
  mkWorld (chan_regs w) (dma_regs w) (dma_users w) (dma_clock w) (msTick w)
          n (calls w).

Definition set_calls (l : list Z) (w : World) : World :=
  mkWorld (chan_regs w) (dma_regs w) (dma_users w) (dma_clock w) (msTick w)
          (critical w) l.

Definition set_Inst_regs (r : DMA_Channel_TypeDef) (c : Ctx) : Ctx :=
  mkCtx (hdma c)
        (set_chan_regs (<[Inst (hdma c) := r]> (chan_regs (world c))) (world c)).

Definition set_Base_regs (r : DMA_TypeDef) (c : Ctx) : Ctx :=
  mkCtx (hdma c)
        (set_dma_regs (<[Base (hdma c) := r]> (dma_regs (world c))) (world c)).

(** [hdma->Inst->REG = v] for each register of the channel block. *)
Definition store_CCR (v : Z) : M unit :=
  modify (fun c => let r := Inst_regs c in
                   set_Inst_regs (mkChannel v (CNDTR r) (CPAR r) (CMAR r)) c).

Definition store_CNDTR (v : Z) : M unit :=
  modify (fun c => let r := Inst_regs c in
                   set_Inst_regs (mkChannel (CCR r) v (CPAR r) (CMAR r)) c).

Definition store_CPAR (v : Z) : M unit :=
  modify (fun c => let r := Inst_regs c in
                   set_Inst_regs (mkChannel (CCR r) (CNDTR r) v (CMAR r)) c).

Definition store_CMAR (v : Z) : M unit :=
  modify (fun c => let r := Inst_regs c in
                   set_Inst_regs (mkChannel (CCR r) (CNDTR r) (CPAR r) v) c).

Definition load_CCR : M Z := load (fun c => CCR (Inst_regs c)).
Definition load_CNDTR : M Z := load (fun c => CNDTR (Inst_regs c)).
Definition load_CPAR : M Z := load (fun c => CPAR (Inst_regs c)).

(** [hdma->Errors = v], [hdma->Base = v], [hdma->ChannelOffset = v]. *)
Definition store_Errors (v : Z) : M unit :=
  modify (fun c => let h := hdma c in
    mkCtx (mkHandle (Inst h) (Base h) (ChannelOffset h) v (Callbacks h))
          (world c)).

Definition store_Base (v : Z) : M unit :=
  modify (fun c => let h := hdma c in
    mkCtx (mkHandle (Inst h) v (ChannelOffset h) (Errors h) (Callbacks h))
          (world c)).

Definition store_ChannelOffset (v : Z) : M unit :=
  modify (fun c => let h := hdma c in
    mkCtx (mkHandle (Inst h) (Base h) v (Errors h) (Callbacks h))
          (world c)).

Definition load_Errors : M Z := load (fun c => Errors (hdma c)).
Definition load_Inst : M Z := load (fun c => Inst (hdma c)).

(** Modelled from the spec: the DMA_REG_BIT macro of xpd_dma.h, which is
    not among the sources.  The Cortex-M0 has no bit-band region, so the
    macro is the bit field [hdma->Inst->CCR.b.FIELD] ("explicit mask/shift
    accessor functions operating on plain integer register mirrors"); the
    same accessor serves the multi-bit fields PL, PSIZE and MSIZE. *)
Definition DMA_REG_BIT (f : CCR_Field) : M Z :=
  ccr ← load_CCR;
  mret (read_field (CCR_pos f) (CCR_width f) ccr).

Definition DMA_REG_BIT_assign (f : CCR_Field) (v : Z) : M unit :=
  ccr ← load_CCR;
  store_CCR (write_field (CCR_pos f) (CCR_width f) v ccr).

(** Modelled from the spec: the flag and interrupt-source macros of
    xpd_dma.h, which is not among the sources.  A channel's flags sit in
    the controller's shared status register at the offset cached on the
    handle; writing a flag's bit to IFCR clears that flag in ISR ("if
    half-transfer flag is set, clear it"); disabling an interrupt source
    clears its enable bit in CCR.  XPD_DMA_GetFlag yields the masked
    status word, which the driver uses as a condition: true when it is not
    zero. *)
Definition DMA_flag_mask (f : DMA_FlagName) (c : Ctx) : Z :=
  Z.shiftl (DMA_ISR_IF1 f) (ChannelOffset (hdma c)).

Definition XPD_DMA_GetFlag (f : DMA_FlagName) : M bool :=
  load (fun c => negb (READ_BIT (ISR (Base_regs c)) (DMA_flag_mask f c) =? 0)).

Definition XPD_DMA_ClearFlag (f : DMA_FlagName) : M unit :=
  modify (fun c =>
    set_Base_regs (mkDMA (CLEAR_BIT (ISR (Base_regs c)) (DMA_flag_mask f c))) c).

Definition XPD_DMA_DisableIT (f : DMA_FlagName) : M unit :=
  DMA_REG_BIT_assign (CCR_IE f) 0.

(** Modelled from the spec: the critical-section macros of xpd_utils.h,
    which is not among the sources ("Critical-section primitives:
    Enter()/Exit(), nestable or not per platform"): a nesting depth. *)
Definition XPD_ENTER_CRITICAL : M unit :=
  modify (fun c => mkCtx (hdma c) (set_critical (S (critical (world c))) (world c))).

Definition XPD_EXIT_CRITICAL : M unit :=
  modify (fun c => mkCtx (hdma c) (set_critical (Nat.pred (critical (world c))) (world c))).

(** Modelled from the spec: XPD_GetTimer of xpd_utils, which is not among
    the sources ("Monotonic tick source: GetTicks() -> integer"). *)
Definition XPD_GetTimer : M Z := load (fun c => msTick (world c)).

(** The C statement [if (cond) { body }]. *)
Definition when (cond : bool) (body : M unit) : M unit :=
  if cond then body else mret tt.

(** The hardware acts on the peripherals only, never on the handle. *)
Definition env_step (hw : World -> World) (c : Ctx) : Ctx :=
  mkCtx (hdma c) (hw (world c)).

(** ** The driver *)

Definition DMA_ABORT_TIMEOUT : Z := 1000.

Record DMA_EndpointType : Set := mkEndpoint {
  Increment : Z;
  DataAlignment : Z
}.

Record DMA_InitType : Set := mkInit {
  Priority : Z;
  Direction : Z;
  Mode : Z;
  Memory : DMA_EndpointType;
  Peripheral : DMA_EndpointType
}.

Section Driver.

(** Build configuration and collaborators of xpd_dma.c:
    - [DMA2] is the address of the second controller on devices that
      have one ([#ifdef DMA2]);
    - [USE_XPD_DMA_ERROR_DETECT] says whether error detection is
      compiled in;
    - [XPD_NO_TIMEOUT] is the sentinel of xpd_utils.h that asks for an
      unbounded wait;
    - [hw] is what the hardware (DMA engine, tick interrupt) does to the
      peripherals during one round of a busy-wait loop;
    - [user fn] is the effect of calling the application's function at
      address [fn] with the handle. *)
Variable DMA2 : option Z.
Variable USE_XPD_DMA_ERROR_DETECT : bool.
Variable XPD_NO_TIMEOUT : Z.
Variable hw : World -> World.
Variable user : Z -> Ctx -> Ctx.

(** [#define DMA_BASE(CHANNEL)]: the mask [~(uint32_t)0xFF] is the
    32-bit word 0xFFFFFF00. *)
Definition DMA_BASE (CHANNEL : Z) : Z := Z.land CHANNEL 0xFFFFFF00.

Definition DMA_BASE_OFFSET (CHANNEL : Z) : nat :=
  match DMA2 with
  | Some dma2 => if CHANNEL <? dma2 then 0%nat else 1%nat
  | None => 0%nat
  end.

(** [#define DMA_CHANNEL_NUMBER(CHANNEL)]: the subtraction is done on
    [uint32_t] and wraps around. *)
Definition DMA_CHANNEL_NUMBER (CHANNEL : Z) : Z :=
  ((Z.land CHANNEL 0xFF - 8) mod 2 ^ 32) / 20.

(** [static uint8_t dma_users[]] and [dma_clkCtrl[]]: one entry per
    controller.  A value stored into an entry is truncated to its eight
    bits.  An index outside the table leaves it as it is; the index
    computed by [DMA_BASE_OFFSET] is always inside. *)
Definition load_dma_users (bo : nat) : M Z :=
  load (fun c => dma_users (world c) !!! bo).

Definition store_dma_users (bo : nat) (v : Z) : M unit :=
  modify (fun c =>
    mkCtx (hdma c)
          (set_dma_users (<[bo := v mod 2 ^ 8]> (dma_users (world c))) (world c))).

(** Modelled from the spec: the clock control functions
    XPD_DMA1_ClockCtrl and XPD_DMA2_ClockCtrl of xpd_rcc, which is not
    among the sources ("Clock control function: SetEnabled(bool) per
    controller instance, idempotent"). *)
Definition dma_clkCtrl (bo : nat) (NewState : bool) : M unit :=
  modify (fun c =>
    mkCtx (hdma c)
          (set_dma_clock (<[bo := NewState]> (dma_clock (world c))) (world c))).

Definition dma_calcBase : M unit :=
  inst ← load_Inst;
  store_Base (DMA_BASE inst);;
  store_ChannelOffset (DMA_CHANNEL_NUMBER inst * 4).

Definition XPD_DMA_Enable : M unit := DMA_REG_BIT_assign EN 1.

Definition XPD_DMA_Disable : M unit := DMA_REG_BIT_assign EN 0.

Definition XPD_DMA_SetDirection (Direction : Z) : M unit :=
  DMA_REG_BIT_assign DIR Direction.

Definition XPD_DMA_Init (Config : DMA_InitType) : M XPD_ReturnType :=
  (* enable DMA clock *)
  inst ← load_Inst;
  let bo := DMA_BASE_OFFSET inst in
  users ← load_dma_users bo;
  store_dma_users bo (SET_BIT users (Z.shiftl 1 (DMA_CHANNEL_NUMBER inst)));;
  dma_clkCtrl bo true;;
  DMA_REG_BIT_assign PL (Priority Config);;
  DMA_REG_BIT_assign DIR (Direction Config);;
  DMA_REG_BIT_assign CIRC (Mode Config);;
  DMA_REG_BIT_assign MEM2MEM (Z.shiftr (Direction Config) 1);;
  DMA_REG_BIT_assign PINC (Increment (Peripheral Config));;
  DMA_REG_BIT_assign PSIZE (DataAlignment (Peripheral Config));;
  DMA_REG_BIT_assign MINC (Increment (Memory Config));;
  DMA_REG_BIT_assign MSIZE (DataAlignment (Memory Config));;
  store_CNDTR 0;;
  store_CPAR 0;;
  (* calculate DMA steam Base Address *)
  dma_calcBase;;
  mret XPD_OK.

Definition XPD_DMA_Deinit : M XPD_ReturnType :=
  XPD_DMA_Disable;;
  (* configuration reset *)
  store_CCR 0;;
  store_CNDTR 0;;
  store_CPAR 0;;
  store_CMAR 0;;
  (* Clear all interrupt flags at correct offset within the register *)
  XPD_DMA_ClearFlag HT;;
  XPD_DMA_ClearFlag TC;;
  XPD_DMA_ClearFlag TE;;
  (* disable DMA clock *)
  inst ← load_Inst;
  let bo := DMA_BASE_OFFSET inst in
  users ← load_dma_users bo;
  store_dma_users bo (CLEAR_BIT users (Z.shiftl 1 (DMA_CHANNEL_NUMBER inst)));;
  users' ← load_dma_users bo;
  when (users' =? 0) (dma_clkCtrl bo false);;
  mret XPD_OK.

Definition XPD_DMA_GetStatus : M XPD_ReturnType :=
  en ← DMA_REG_BIT EN;
  cndtr ← load_CNDTR;
  mret (if negb (en =? 0) && (cndtr >? 0) then XPD_BUSY else XPD_OK).

Definition XPD_DMA_Start (PeriphAddress : Z) (DataStream : DataStreamType)
  : M XPD_ReturnType :=
  (* Enter critical section to ensure single user of DMA *)
  XPD_ENTER_CRITICAL;;
  (* If previous user was a different peripheral, check busy state first *)
  cpar ← load_CPAR;
  result ← (if negb (PeriphAddress =? cpar) then XPD_DMA_GetStatus
            else mret XPD_OK);
  when (XPD_ReturnType_eqb result XPD_OK)
    (XPD_DMA_Disable;;
     (* DMA Stream peripheral address *)
     store_CPAR PeriphAddress;;
     (* DMA Stream data length *)
     store_CNDTR (length DataStream);;
     (* DMA Stream memory address *)
     store_CMAR (buffer DataStream);;
     (* reset error state *)
     store_Errors DMA_ERROR_NONE;;
     XPD_DMA_Enable);;
  XPD_EXIT_CRITICAL;;
  mret result.

Definition DMA_IT_sources : Z :=
  if USE_XPD_DMA_ERROR_DETECT
  then Z.lor (Z.lor DMA_CCR_TCIE DMA_CCR_HTIE) DMA_CCR_TEIE
  else Z.lor DMA_CCR_TCIE DMA_CCR_HTIE.

Definition XPD_DMA_Start_IT (PeriphAddress : Z) (DataStream : DataStreamType)
  : M XPD_ReturnType :=
  result ← XPD_DMA_Start PeriphAddress DataStream;
  when (XPD_ReturnType_eqb result XPD_OK)
    ((* enable interrupts *)
     ccr ← load_CCR;
     store_CCR (SET_BIT ccr DMA_IT_sources));;
  mret result.

Definition XPD_DMA_Stop_IT : M unit :=
  (* disable the stream *)
  XPD_DMA_Disable;;
  (* disable interrupts *)
  ccr ← load_CCR;
  store_CCR (CLEAR_BIT ccr DMA_IT_sources).

Definition XPD_DMA_GetError : M Z := load_Errors.

(** *** Busy-wait loops

    A busy-wait loop may never end, so the loops take a number of rounds
    [fuel] and return [None] when it runs out.  Between two rounds the
    hardware advances by [hw]; so it does between a write to a control
    bit and the wait for that bit to read back. *)

(** Unsigned 32-bit difference of two tick readings. *)
Definition elapsed (now tickstart : Z) : Z := (now - tickstart) mod 2 ^ 32.

(** Modelled from the spec: XPD_WaitForMatch of xpd_utils, which is not
    among the sources ("WaitForRegisterMatch(registerRef, mask,
    expectedValue, &timeoutBudget) -> success|timeout, decrements/monitors
    the budget and polls the register").  [varAddress] is the register
    behind the pointer.  XPD_DMA_Stop discards the budget that is left,
    so it is not returned. *)
Fixpoint WaitForMatch_poll (fuel : nat) (varAddress : Ctx -> Z)
    (bitSelector matchValue timeout tickstart : Z) (c : Ctx)
  : option (XPD_ReturnType * Ctx) :=
  match fuel with
  | O => None
  | S fuel' =>
      if READ_BIT (varAddress c) bitSelector =? matchValue then
        Some (XPD_OK, c)
      else if negb (timeout =? XPD_NO_TIMEOUT)
              && (elapsed (msTick (world c)) tickstart >? timeout) then
        Some (XPD_TIMEOUT, c)
      else
        WaitForMatch_poll fuel' varAddress bitSelector matchValue timeout
                          tickstart (env_step hw c)
  end.

Definition XPD_WaitForMatch (fuel : nat) (varAddress : Ctx -> Z)
    (bitSelector matchValue timeout : Z) (c : Ctx)
  : option (XPD_ReturnType * Ctx) :=
  let (tickstart, c0) := XPD_GetTimer c in
  WaitForMatch_poll fuel varAddress bitSelector matchValue timeout
                    tickstart c0.

Definition XPD_DMA_Stop (fuel : nat) (c : Ctx)
  : option (XPD_ReturnType * Ctx) :=
  let timeout := DMA_ABORT_TIMEOUT in
  (* disable the stream *)
  let (_, c1) := XPD_DMA_Disable c in
  (* wait until stream is effectively disabled *)
  XPD_WaitForMatch fuel (fun c' => CCR (Inst_regs c')) DMA_CCR_EN 0
                   timeout (env_step hw c1).

(** The flag a poll waits for. *)
Definition PollStatus_flag (Operation : DMA_OperationType) : M bool :=
  match Operation with
  | DMA_OPERATION_TRANSFER => XPD_DMA_GetFlag TC
  | DMA_OPERATION_HALFTRANSFER => XPD_DMA_GetFlag HT
  end.

(** The [for] loop of XPD_DMA_PollStatus.  [Some (Some r, c)] is a
    [return r] from inside the loop, [Some (None, c)] is the loop left
    through its condition. *)
Fixpoint PollStatus_loop (fuel : nat) (Operation : DMA_OperationType)
    (Timeout tickstart : Z) (c : Ctx)
  : option (option XPD_ReturnType * Ctx) :=
  match fuel with
  | O => None
  | S fuel' =>
      let (success, c0) := PollStatus_flag Operation c in
      if success then Some (None, c0)
      else
        let (te, c1) := XPD_DMA_GetFlag TE c0 in
        if te then
          let (_, c2) :=
            ((* Update error code *)
             errors ← load_Errors;
             store_Errors (Z.lor errors DMA_ERROR_TRANSFER);;
             (* Clear the transfer error flag *)
             XPD_DMA_ClearFlag TE) c1 in
          Some (Some XPD_ERROR, c2)
        else
          (* Check for the Timeout *)
          let (now, c2) := XPD_GetTimer c1 in
          if negb (Timeout =? XPD_NO_TIMEOUT)
             && (elapsed now tickstart >? Timeout) then
            Some (Some XPD_TIMEOUT, c2)
          else
            PollStatus_loop fuel' Operation Timeout tickstart
                            (env_step hw c2)
  end.

Definition XPD_DMA_PollStatus (fuel : nat) (Operation : DMA_OperationType)
    (Timeout : Z) (c : Ctx) : option (XPD_ReturnType * Ctx) :=
  (* Get tick *)
  let (tickstart, c0) := XPD_GetTimer c in
  match PollStatus_loop fuel Operation Timeout tickstart c0 with
  | None => None
  | Some (Some result, c1) => Some (result, c1)
  | Some (None, c1) =>
      Some
        (((* Clear the half transfer and transfer complete flags *)
          when (match Operation with
                | DMA_OPERATION_TRANSFER => true
                | DMA_OPERATION_HALFTRANSFER => false
                end)
            (XPD_DMA_ClearFlag TC);;
          XPD_DMA_ClearFlag HT;;
          mret XPD_OK) c1)
  end.

(** *** Interrupt dispatch *)

(** Modelled from the spec: the XPD_SAFE_CALLBACK macro of xpd_utils.h,
    which is not among the sources ("invoking a possibly-unset callback
    slot is a no-op rather than a fault").  A call is entered in the call
    log, which user code cannot reach, and then runs the user's code. *)
Definition XPD_SAFE_CALLBACK (cb : Z) : M unit :=
  when (negb (cb =? 0))
    (modify (fun c =>
       let c' := user cb c in
       mkCtx (hdma c') (set_calls (calls (world c) ++ [cb]) (world c')))).

Definition XPD_DMA_IRQHandler : M unit :=
  (* Half Transfer Complete interrupt management *)
  ht ← XPD_DMA_GetFlag HT;
  when ht
    ((* clear the half transfer complete flag *)
     XPD_DMA_ClearFlag HT;;
     (* DMA mode is not CIRCULAR *)
     circ ← DMA_REG_BIT CIRC;
     when (circ =? 0) (XPD_DMA_DisableIT HT);;
     (* half transfer callback *)
     cb ← load (fun c => HalfComplete (Callbacks (hdma c)));
     XPD_SAFE_CALLBACK cb);;
  (* Transfer Complete interrupt management *)
  tc ← XPD_DMA_GetFlag TC;
  when tc
    ((* clear the transfer complete flag *)
     XPD_DMA_ClearFlag TC;;
     (* DMA mode is not CIRCULAR *)
     circ ← DMA_REG_BIT CIRC;
     when (circ =? 0) (XPD_DMA_DisableIT TC);;
     (* transfer complete callback *)
     cb ← load (fun c => Complete (Callbacks (hdma c)));
     XPD_SAFE_CALLBACK cb);;
  when USE_XPD_DMA_ERROR_DETECT
    ((* Transfer Error interrupt management *)
     te ← XPD_DMA_GetFlag TE;
     when te
       ((* clear the transfer error flag *)
        XPD_DMA_ClearFlag TE;;
        errors ← load_Errors;
        store_Errors (Z.lor errors DMA_ERROR_TRANSFER);;
        (* transfer errors callback *)
        cb ← load (fun c => Error (Callbacks (hdma c)));
        XPD_SAFE_CALLBACK cb)).

End Driver.

(** * Vocabulary of the statements

    Observations of a state, the states the driver functions lead to, and
    the environments the statements range over. *)

(** A register that holds an unsigned 32-bit value. *)
Definition uint32 (z : Z) : Prop := 0 <= z < 2 ^ 32.

(** The enable bit of the channel behind the handle. *)
Definition channel_enabled (c : Ctx) : Prop :=
  Z.testbit (CCR (Inst_regs c)) 0 = true.

(** What a poll of the enable bit through its mask reads. *)
Definition reads_enabled (c : Ctx) : bool :=
  negb (READ_BIT (CCR (Inst_regs c)) DMA_CCR_EN =? 0).

(** A flag of the channel as XPD_DMA_GetFlag reads it. *)
Definition flag_set (f : DMA_FlagName) (c : Ctx) : bool :=
  fst (XPD_DMA_GetFlag f c).

(** The CIRC bit and the interrupt-enable bits of the channel. *)
Definition circular (c : Ctx) : bool :=
  Z.testbit (CCR (Inst_regs c)) (CCR_pos CIRC).

Definition IE_enabled (f : DMA_FlagName) (c : Ctx) : bool :=
  Z.testbit (CCR (Inst_regs c)) (CCR_pos (CCR_IE f)).

(** ** Start *)

(** The state of a channel that has just been armed: enable bit set, the
    three transfer registers loaded, error state reset; nothing else
    differs from [c]. *)
Definition armed (PeriphAddress : Z) (DataStream : DataStreamType) (c : Ctx)
  : Ctx :=
  let h := hdma c in
  mkCtx (mkHandle (Inst h) (Base h) (ChannelOffset h) DMA_ERROR_NONE
                  (Callbacks h))
    (set_chan_regs
       (<[Inst h := mkChannel (SET_BIT (CCR (Inst_regs c)) DMA_CCR_EN)
                     (length DataStream) PeriphAddress (buffer DataStream)]>
          (chan_regs (world c)))
       (world c)).

(** ** Stop *)

(** The state after the enable bit of the channel was cleared. *)
Definition disabled (c : Ctx) : Ctx :=
  set_Inst_regs
    (mkChannel (CLEAR_BIT (CCR (Inst_regs c)) DMA_CCR_EN)
               (CNDTR (Inst_regs c)) (CPAR (Inst_regs c)) (CMAR (Inst_regs c)))
    c.

(** The state in which the wait of XPD_DMA_Stop starts: the enable bit was
    written and the hardware has answered. *)
Definition stopping (hw : World -> World) (c : Ctx) : Ctx :=
  env_step hw (disabled c).

(** ** Busy-wait loops *)

(** The state at the start of round [k] of a busy-wait loop entered in
    state [c]: the hardware has advanced [k] times. *)
Definition round (hw : World -> World) (k : nat) (c : Ctx) : Ctx :=
  Nat.iter k (env_step hw) c.

(** The timeout test of a round. *)
Definition timed_out (XPD_NO_TIMEOUT Timeout tickstart : Z) (c : Ctx) : bool :=
  negb (Timeout =? XPD_NO_TIMEOUT)
  && (elapsed (msTick (world c)) tickstart >? Timeout).

(** A round of XPD_WaitForMatch in which the register does not match and
    the budget is not used up. *)
Definition waiting (XPD_NO_TIMEOUT : Z) (varAddress : Ctx -> Z)
    (bitSelector matchValue timeout tickstart : Z) (c : Ctx) : Prop :=
  (READ_BIT (varAddress c) bitSelector =? matchValue) = false /\
  timed_out XPD_NO_TIMEOUT timeout tickstart c = false.

(** The flag XPD_DMA_PollStatus waits for. *)
Definition awaited (Operation : DMA_OperationType) : DMA_FlagName :=
  match Operation with
  | DMA_OPERATION_TRANSFER => TC
  | DMA_OPERATION_HALFTRANSFER => HT
  end.

(** A round of XPD_DMA_PollStatus in which nothing happens: no awaited
    flag, no error flag, no timeout. *)
Definition quiet (XPD_NO_TIMEOUT : Z) (Operation : DMA_OperationType)
    (Timeout tickstart : Z) (c : Ctx) : Prop :=
  flag_set (awaited Operation) c = false /\
  flag_set TE c = false /\
  timed_out XPD_NO_TIMEOUT Timeout tickstart c = false.

(** The state after a successful poll: the flags of the operation are
    cleared. *)
Definition poll_done (Operation : DMA_OperationType) (c : Ctx) : Ctx :=
  set_Base_regs
    (mkDMA (CLEAR_BIT
              (match Operation with
               | DMA_OPERATION_TRANSFER =>
                   CLEAR_BIT (ISR (Base_regs c)) (DMA_flag_mask TC c)
               | DMA_OPERATION_HALFTRANSFER => ISR (Base_regs c)
               end)
              (DMA_flag_mask HT c))) c.

(** The state after a transfer error was recorded: the error flag is
    cleared and the TRANSFER bit is ORed into the error state. *)
Definition error_recorded (c : Ctx) : Ctx :=
  let h := hdma c in
  mkCtx (mkHandle (Inst h) (Base h) (ChannelOffset h)
                  (Z.lor (Errors h) DMA_ERROR_TRANSFER) (Callbacks h))
        (set_dma_regs
           (<[Base h := mkDMA (CLEAR_BIT (ISR (Base_regs c))
                                         (DMA_flag_mask TE c))]>
              (dma_regs (world c)))
           (world c)).

(** The state [c] with the transfer-error flag of the channel forced to
    [b]; everything else as in [c]. *)
Definition with_TE (b : bool) (c : Ctx) : Ctx :=
  set_Base_regs
    (mkDMA (if b then SET_BIT (ISR (Base_regs c)) (DMA_flag_mask TE c)
            else CLEAR_BIT (ISR (Base_regs c)) (DMA_flag_mask TE c))) c.

(** ** Interrupt dispatch *)

(** User callbacks that leave the handle, the flags of the channel's
    controller and the control register of the channel alone. *)
Definition callback_frame (user : Z -> Ctx -> Ctx) : Prop :=
  forall fn c,
    hdma (user fn c) = hdma c /\
    Base_regs (user fn c) = Base_regs c /\
    CCR (Inst_regs (user fn c)) = CCR (Inst_regs c).

(** User callbacks that leave the error state of the handle alone. *)
Definition callbacks_keep_Errors (user : Z -> Ctx -> Ctx) : Prop :=
  forall fn c, Errors (hdma (user fn c)) = Errors (hdma c).

(** The entry a sub-handler adds to the call log: the callback of its
    slot when its flag was set and the slot is not null. *)
Definition fired (cond : bool) (cb : Z) : list Z :=
  if cond && negb (cb =? 0) then [cb] else [].

(** The two completion sub-handlers of XPD_DMA_IRQHandler have one shape,
    and the error sub-handler another; XPD_DMA_IRQHandler is their
    sequence (lemma [IRQHandler_parts]). *)
Definition sub_handler (user : Z -> Ctx -> Ctx) (f : DMA_FlagName)
    (slot : DMA_CallbacksType -> Z) : M unit :=
  fl ← XPD_DMA_GetFlag f;
  when fl
    (XPD_DMA_ClearFlag f;;
     circ ← DMA_REG_BIT CIRC;
     when (circ =? 0) (XPD_DMA_DisableIT f);;
     cb ← load (fun c => slot (Callbacks (hdma c)));
     XPD_SAFE_CALLBACK user cb).

Definition error_handler (user : Z -> Ctx -> Ctx) : M unit :=
  te ← XPD_DMA_GetFlag TE;
  when te
    (XPD_DMA_ClearFlag TE;;
     errors ← load_Errors;
     store_Errors (Z.lor errors DMA_ERROR_TRANSFER);;
     cb ← load (fun c => Error (Callbacks (hdma c)));
     XPD_SAFE_CALLBACK user cb).

(** The state in which a completion sub-handler calls its callback: the
    flag is cleared and, unless the channel is circular, the interrupt
    source of the flag is disabled. *)
Definition pre_callback (f : DMA_FlagName) (c : Ctx) : Ctx :=
  let c1 :=
    set_Base_regs
      (mkDMA (CLEAR_BIT (ISR (Base_regs c)) (DMA_flag_mask f c))) c in
  if circular c then c1
  else
    set_Inst_regs
      (mkChannel (write_field (CCR_pos (CCR_IE f)) 1 0 (CCR (Inst_regs c)))
                 (CNDTR (Inst_regs c)) (CPAR (Inst_regs c))
                 (CMAR (Inst_regs c))) c1.

(** ** Init, Deinit and the clock gate *)

(** The control register after XPD_DMA_Init has stored the fields of the
    configuration, in the order of the source. *)
Definition configured_CCR (cfg : DMA_InitType) (ccr : Z) : Z :=
  write_field (CCR_pos MSIZE) (CCR_width MSIZE) (DataAlignment (Memory cfg))
  (write_field (CCR_pos MINC) (CCR_width MINC) (Increment (Memory cfg))
  (write_field (CCR_pos PSIZE) (CCR_width PSIZE)
               (DataAlignment (Peripheral cfg))
  (write_field (CCR_pos PINC) (CCR_width PINC) (Increment (Peripheral cfg))
  (write_field (CCR_pos MEM2MEM) (CCR_width MEM2MEM)
               (Z.shiftr (Direction cfg) 1)
  (write_field (CCR_pos CIRC) (CCR_width CIRC) (Mode cfg)
  (write_field (CCR_pos DIR) (CCR_width DIR) (Direction cfg)
  (write_field (CCR_pos PL) (CCR_width PL) (Priority cfg) ccr))))))).

(** The state XPD_DMA_Init leaves: the channel's bit set in the user mask
    of its controller, the controller's clock on, CCR configured, CNDTR
    and CPAR zero, the addressing cached on the handle. *)
Definition initialised (DMA2 : option Z) (cfg : DMA_InitType) (c : Ctx) : Ctx :=
  let h := hdma c in
  let w := world c in
  let bo := DMA_BASE_OFFSET DMA2 (Inst h) in
  mkCtx
    (mkHandle (Inst h) (DMA_BASE (Inst h)) (DMA_CHANNEL_NUMBER (Inst h) * 4)
              (Errors h) (Callbacks h))
    (mkWorld
       (<[Inst h := mkChannel (configured_CCR cfg (CCR (Inst_regs c))) 0 0
                              (CMAR (Inst_regs c))]> (chan_regs w))
       (dma_regs w)
       (<[bo := SET_BIT (dma_users w !!! bo)
                        (Z.shiftl 1 (DMA_CHANNEL_NUMBER (Inst h))) mod 2 ^ 8]>
          (dma_users w))
       (<[bo := true]> (dma_clock w))
       (msTick w) (critical w) (calls w)).

(** The state XPD_DMA_Deinit leaves. *)
Definition deinitialised (DMA2 : option Z) (c : Ctx) : Ctx :=
  let h := hdma c in
  let w := world c in
  let bo := DMA_BASE_OFFSET DMA2 (Inst h) in
  let users' :=
    <[bo := CLEAR_BIT (dma_users w !!! bo)
                      (Z.shiftl 1 (DMA_CHANNEL_NUMBER (Inst h))) mod 2 ^ 8]>
      (dma_users w) in
  mkCtx h
    (mkWorld
       (<[Inst h := mkChannel 0 0 0 0]> (chan_regs w))
       (<[Base h :=
            mkDMA (CLEAR_BIT
                     (CLEAR_BIT
                        (CLEAR_BIT (ISR (Base_regs c)) (DMA_flag_mask HT c))
                        (DMA_flag_mask TC c))
                     (DMA_flag_mask TE c))]> (dma_regs w))
       users'
       (if users' !!! bo =? 0 then <[bo := false]> (dma_clock w)
        else dma_clock w)
       (msTick w) (critical w) (calls w)).

(** A configuration every field of which holds an enumerator of its type
    (priority 0..3, direction 0..2, mode 0..1, increment 0..1, data
    alignment 0..2; the enumerations are those of xpd_dma.h, which is not
    among the sources) and that does not ask for a circular
    memory-to-memory transfer, which the controller does not support. *)
Definition DMA_InitType_valid (cfg : DMA_InitType) : bool :=
  (0 <=? Priority cfg) && (Priority cfg <=? 3)
  && (0 <=? Direction cfg) && (Direction cfg <=? 2)
  && (0 <=? Mode cfg) && (Mode cfg <=? 1)
  && (0 <=? Increment (Memory cfg)) && (Increment (Memory cfg) <=? 1)
  && (0 <=? DataAlignment (Memory cfg)) && (DataAlignment (Memory cfg) <=? 2)
  && (0 <=? Increment (Peripheral cfg)) && (Increment (Peripheral cfg) <=? 1)
  && (0 <=? DataAlignment (Peripheral cfg))
  && (DataAlignment (Peripheral cfg) <=? 2)
  && negb ((Direction cfg =? 2) && (Mode cfg =? 1)).

(** Number of controllers of the build, the length of the two tables. *)
Definition controllers (DMA2 : option Z) : nat :=
  match DMA2 with Some _ => 2%nat | None => 1%nat end.

(** The register block of channel [n + 1] lies 8 + 20 n bytes above the
    256-byte aligned base of its controller ([DMA_CHANNEL_NUMBER] relies on
    it); a controller of the STM32F0 has at most seven channels. *)
Definition is_channel (inst : Z) : Prop :=
  exists n, 0 <= n < 7 /\ Z.land inst 0xFF = 8 + 20 * n.

(** How many channels hold the clock of a controller: the number of bits
    set in its entry of [dma_users]. *)
Definition clock_holders (users : Z) : Z :=
  Z.of_nat
    (List.length
       (List.filter (fun n => Z.testbit users (Z.of_nat n)) (seq 0 8))).

(** The states a sequence of XPD_DMA_Init and XPD_DMA_Deinit calls on
    channels can reach from reset, where nobody holds a clock and the
    clocks are off. *)
Inductive reachable (DMA2 : option Z) : World -> Prop :=
  | reach_reset w :
      dma_users w = repeat 0 (controllers DMA2) ->
      dma_clock w = repeat false (controllers DMA2) ->
      reachable DMA2 w
  | reach_Init w h cfg :
      reachable DMA2 w -> is_channel (Inst h) ->
      reachable DMA2 (world (snd (XPD_DMA_Init DMA2 cfg (mkCtx h w))))
  | reach_Deinit w h :
      reachable DMA2 w -> is_channel (Inst h) ->
      reachable DMA2 (world (snd (XPD_DMA_Deinit DMA2 (mkCtx h w)))).

(** The bookkeeping invariant of the clock gate: both tables have one
    entry per controller, every entry of [dma_users] is a [uint8_t], and
    a clock is on exactly when somebody holds it. *)
Definition clock_inv (DMA2 : option Z) (w : World) : Prop :=
  List.length (dma_users w) = controllers DMA2 /\
  List.length (dma_clock w) = controllers DMA2 /\
  forall bo : nat, (bo < controllers DMA2)%nat ->
    0 <= dma_users w !!! bo < 2 ^ 8 /\
    (dma_clock w !!! bo = true <-> dma_users w !!! bo <> 0).

(** ** The interface as a whole *)

(** The calls of the driver's interface, with their arguments. *)
Inductive DMA_Call : Type :=
  | Call_Init (Config : DMA_InitType)
  | Call_Deinit
  | Call_Enable
  | Call_Disable
  | Call_SetDirection (Direction : Z)
  | Call_Start (PeriphAddress : Z) (DataStream : DataStreamType)
  | Call_Start_IT (PeriphAddress : Z) (DataStream : DataStreamType)
  | Call_Stop
  | Call_Stop_IT
  | Call_GetStatus
  | Call_PollStatus (Operation : DMA_OperationType) (Timeout : Z)
  | Call_GetError
  | Call_IRQHandler.

(** What a call returns: nothing, a return code, or an error bitmask. *)
Inductive DMA_Return : Type :=
  | Ret_void
  | Ret_status (r : XPD_ReturnType)
  | Ret_error (e : Z).

(** A call that armed a transfer: Start or Start_IT that returned OK. *)
Definition arms (k : DMA_Call) (r : DMA_Return) : bool :=
  match k, r with
  | Call_Start _ _, Ret_status XPD_OK => true
  | Call_Start_IT _ _, Ret_status XPD_OK => true
  | _, _ => false
  end.

(** A poll that failed: XPD_DMA_PollStatus that returned ERROR. *)
Definition poll_failed (k : DMA_Call) (r : DMA_Return) : bool :=
  match k, r with
  | Call_PollStatus _ _, Ret_status XPD_ERROR => true
  | _, _ => false
  end.

Definition void (m : M unit) (c : Ctx) : option (DMA_Return * Ctx) :=
  Some (Ret_void, snd (m c)).

Definition status (m : M XPD_ReturnType) (c : Ctx)
  : option (DMA_Return * Ctx) :=
  Some (Ret_status (fst (m c)), snd (m c)).

Definition status_opt (r : option (XPD_ReturnType * Ctx))
  : option (DMA_Return * Ctx) :=
  match r with
  | Some (s, c') => Some (Ret_status s, c')
  | None => None
  end.

(** One call of the driver; [None] when a busy-wait loop needs more than
    [fuel] rounds. *)
Definition call (DMA2 : option Z) (USE_XPD_DMA_ERROR_DETECT : bool)
    (XPD_NO_TIMEOUT : Z) (hw : World -> World) (user : Z -> Ctx -> Ctx)
    (fuel : nat) (k : DMA_Call) (c : Ctx) : option (DMA_Return * Ctx) :=
  match k with
  | Call_Init Config => status (XPD_DMA_Init DMA2 Config) c
  | Call_Deinit => status (XPD_DMA_Deinit DMA2) c
  | Call_Enable => void XPD_DMA_Enable c
  | Call_Disable => void XPD_DMA_Disable c
  | Call_SetDirection Direction => void (XPD_DMA_SetDirection Direction) c
  | Call_Start P D => status (XPD_DMA_Start P D) c
  | Call_Start_IT P D =>
      status (XPD_DMA_Start_IT USE_XPD_DMA_ERROR_DETECT P D) c
  | Call_Stop => status_opt (XPD_DMA_Stop XPD_NO_TIMEOUT hw fuel c)
  | Call_Stop_IT => void (XPD_DMA_Stop_IT USE_XPD_DMA_ERROR_DETECT) c
  | Call_GetStatus => status XPD_DMA_GetStatus c
  | Call_PollStatus Operation Timeout =>
      status_opt
        (XPD_DMA_PollStatus XPD_NO_TIMEOUT hw fuel Operation Timeout c)
  | Call_GetError =>
      Some (Ret_error (fst (XPD_DMA_GetError c)), snd (XPD_DMA_GetError c))
  | Call_IRQHandler =>
      void (XPD_DMA_IRQHandler USE_XPD_DMA_ERROR_DETECT user) c
  end.

(** ** Example inputs

    Channel 1 of the first controller of an STM32F0 with two controllers,
    and a few environments. *)

Definition DMA1_BASE : Z := 0x40020000.
Definition DMA2_BASE : Z := 0x40020400.
Definition DMA1_Channel1 : Z := DMA1_BASE + 0x08.
Definition DMA1_Channel2 : Z := DMA1_BASE + 0x1C.

(** A handle of channel 1 after initialisation, with a complete and a
    half-complete callback and no error callback. *)
Definition example_handle : DMA_HandleType :=
  mkHandle DMA1_Channel1 DMA1_BASE 0 DMA_ERROR_NONE
           (mkCallbacks 0x08000101 0x08000201 0).

(** A handle of channel 2 that was not initialised yet. *)
Definition second_handle : DMA_HandleType :=
  mkHandle DMA1_Channel2 0 0 DMA_ERROR_NONE (mkCallbacks 0 0 0).

(** A configuration for a one-shot transfer of bytes from a peripheral to
    memory. *)
Definition byte_transfer : DMA_InitType :=
  mkInit 1 0 0 (mkEndpoint 1 0) (mkEndpoint 0 0).

(** A state of channel 1 with the given CCR, CNDTR, CPAR and ISR. *)
Definition example_state (ccr cndtr cpar isr : Z) : Ctx :=
  mkCtx example_handle
        (mkWorld {[DMA1_Channel1 := mkChannel ccr cndtr cpar 0]}
                 {[DMA1_BASE := mkDMA isr]}
                 [0; 0] [false; false] 0 0 []).

(** The state out of reset: nobody holds a clock, the clocks are off. *)
Definition reset_world : World :=
  mkWorld ∅ ∅ [0; 0] [false; false] 0 0 [].

(** Hardware during a round of which [ticks] milliseconds pass and nothing
    else happens. *)
Definition ticking (ticks : Z) (w : World) : World :=
  mkWorld (chan_regs w) (dma_regs w) (dma_users w) (dma_clock w)
          (msTick w + ticks) (critical w) (calls w).

(** Hardware that holds channel 1 enabled while 600 milliseconds pass. *)
Definition stuck (w : World) : World :=
  mkWorld (<[DMA1_Channel1 :=
               mkChannel (SET_BIT (CCR (chan_regs w !!! DMA1_Channel1))
                                  DMA_CCR_EN)
                         (CNDTR (chan_regs w !!! DMA1_Channel1))
                         (CPAR (chan_regs w !!! DMA1_Channel1))
                         (CMAR (chan_regs w !!! DMA1_Channel1))]>
             (chan_regs w))
          (dma_regs w) (dma_users w) (dma_clock w) (msTick w + 600)
          (critical w) (calls w).

(** Hardware that reports a transfer error on channel 1 while one
    millisecond passes. *)
Definition faulting (w : World) : World :=
  mkWorld (chan_regs w)
          (<[DMA1_BASE :=
               mkDMA (SET_BIT (ISR (dma_regs w !!! DMA1_BASE)) DMA_ISR_TEIF1)]>
             (dma_regs w))
          (dma_users w) (dma_clock w) (msTick w + 1) (critical w) (calls w).

(** User callbacks that do nothing. *)
Definition idle_callbacks (fn : Z) (c : Ctx) : Ctx := c.

(** Channel 1 enabled and not circular, its half-transfer and
    transfer-complete interrupts enabled and both flags pending. *)
Definition both_pending : Ctx := example_state 7 0 0x40013804 6.

(** User code whose half-complete callback (the one of [example_handle])
    acknowledges the transfer-complete flag as well. *)
Definition acknowledging (fn : Z) (c : Ctx) : Ctx :=
  if fn =? 0x08000201 then snd (XPD_DMA_ClearFlag TC c) else c.

(** User code whose complete callback (the one of [example_handle]) starts
    the next transfer of the same peripheral, with interrupts. *)
Definition restarting (fn : Z) (c : Ctx) : Ctx :=
  if fn =? 0x08000101
  then snd (XPD_DMA_Start_IT true 0x40013804 (mkDataStream 0x20000000 16) c)
  else c.

(** Channel 1 with an error callback, busy, with a transfer error recorded
    earlier and the transfer-error flag pending again. *)
Definition error_pending : Ctx :=
  mkCtx (mkHandle DMA1_Channel1 DMA1_BASE 0 DMA_ERROR_TRANSFER
                  (mkCallbacks 0x08000101 0x08000201 0x08000301))
        (mkWorld {[DMA1_Channel1 := mkChannel 1 5 0x40013804 0]}
                 {[DMA1_BASE := mkDMA 8]}
                 [0; 0] [false; false] 0 0 []).

(** User code whose error callback (the one of [error_pending]) takes note
    of the error and resets the error state of the handle. *)
Definition dismissing (fn : Z) (c : Ctx) : Ctx :=
  if fn =? 0x08000301 then snd (store_Errors DMA_ERROR_NONE c) else c.

(** A circular memory-to-memory transfer: every field is an enumerator of
    its type (direction 2 is memory to memory, mode 1 is circular), and the
    combination is one the controller does not support. *)
Definition circular_memory_to_memory : DMA_InitType :=
  mkInit 0 2 1 (mkEndpoint 1 2) (mkEndpoint 1 2).

(** * Further observations of the DMA driver *)

(** The state [c] with the control register of the channel replaced. *)
Definition with_CCR (ccr : Z) (c : Ctx) : Ctx :=
  set_Inst_regs
    (mkChannel ccr (CNDTR (Inst_regs c)) (CPAR (Inst_regs c))
               (CMAR (Inst_regs c))) c.

(** A configuration every field of which holds an enumerator of its type
    (priority 0..3, direction 0..2, mode 0..1, increment 0..1, data
    alignment 0..2), whatever the combination of the fields. *)
Definition DMA_InitType_enumerators (cfg : DMA_InitType) : bool :=
  (0 <=? Priority cfg) && (Priority cfg <=? 3)
  && (0 <=? Direction cfg) && (Direction cfg <=? 2)
  && (0 <=? Mode cfg) && (Mode cfg <=? 1)
  && (0 <=? Increment (Memory cfg)) && (Increment (Memory cfg) <=? 1)
  && (0 <=? DataAlignment (Memory cfg)) && (DataAlignment (Memory cfg) <=? 2)
  && (0 <=? Increment (Peripheral cfg)) && (Increment (Peripheral cfg) <=? 1)
  && (0 <=? DataAlignment (Peripheral cfg))
  && (DataAlignment (Peripheral cfg) <=? 2).

(** The position of a flag inside the group of four status bits of a
    channel. *)
Definition DMA_flag_pos (f : DMA_FlagName) : Z :=
  match f with TC => 1 | HT => 2 | TE => 3 end.

(** The three flags of the channel behind the handle, as one mask of the
    status register. *)
Definition DMA_flags_mask (c : Ctx) : Z :=
  Z.shiftl (Z.lor (Z.lor DMA_ISR_HTIF1 DMA_ISR_TCIF1) DMA_ISR_TEIF1)
           (ChannelOffset (hdma c)).

(** Hardware whose tick counter, read as a 32-bit unsigned value, advances
    by at least one and at most [D] between two rounds of a loop. *)
Definition tick_runs (hw : World -> World) (D : Z) : Prop :=
  forall w, 1 <= (msTick (hw w) - msTick w) mod 2 ^ 32 <= D.

(** The calls that only read and write registers and tables: they neither
    wait for the hardware nor call the user back. *)
Definition register_call (k : DMA_Call) : bool :=
  match k with
  | Call_Stop | Call_PollStatus _ _ | Call_IRQHandler => false
  | _ => true
  end.

(** The two calls that acquire and release the clock. *)
Definition clock_call (k : DMA_Call) : bool :=
  match k with
  | Call_Init _ | Call_Deinit => true
  | _ => false
  end.

(** The one call that computes the addressing cached on the handle, the
    controller address and the flag offset (through dma_calcBase). *)
Definition addressing_call (k : DMA_Call) : bool :=
  match k with
  | Call_Init _ => true
  | _ => false
  end.

(** Everything outside the channel behind the handle of [c] is in [c'] as
    it is in [c]: the register blocks of the other channels and of the
    other controllers, the tick, the critical-section depth and the call
    log. *)
Definition elsewhere_unchanged (c c' : Ctx) : Prop :=
  (forall a, a <> Inst (hdma c) ->
     chan_regs (world c') !! a = chan_regs (world c) !! a) /\
  (forall b, b <> Base (hdma c) ->
     dma_regs (world c') !! b = dma_regs (world c) !! b) /\
  msTick (world c') = msTick (world c) /\
  critical (world c') = critical (world c) /\
  calls (world c') = calls (world c).

(** * The steps of a call, as they are seen from outside

    The state-passing functions give the state in which a call ends.  The
    order of the steps inside a call shows in the steps that reach the
    outside: the stores to the registers of the channel and to the error
    state of the handle, and the calls of XPD_DMA_GetStatus.  The
    functions of this part are XPD_DMA_Start and the functions it calls,
    written once for every way of running a step: run without a recorder
    they are the functions of the driver above, run with a recorder they
    also yield the list of their effects, oldest first. *)

Inductive DMA_Location : Set := L_CCR | L_CNDTR | L_CPAR | L_CMAR | L_Errors.

Inductive DMA_Effect : Set :=
  | Store (l : DMA_Location) (v : Z)
  | Status_check.

Definition store_at (l : DMA_Location) (v : Z) : M unit :=
  match l with
  | L_CCR => store_CCR v
  | L_CNDTR => store_CNDTR v
  | L_CPAR => store_CPAR v
  | L_CMAR => store_CMAR v
  | L_Errors => store_Errors v
  end.

Section Steps.

(** [hidden a] runs a step that nobody outside sees (a read, the critical
    section); [shown e a] runs the step [a], which is seen outside as the
    effect [e]. *)
Context {m : Type -> Type} {m_ret : MRet m} {m_bind : MBind m}.
Variable hidden : forall A : Type, M A -> m A.
Variable shown : forall A : Type, DMA_Effect -> M A -> m A.

Definition store_steps (l : DMA_Location) (v : Z) : m unit :=
  shown unit (Store l v) (store_at l v).

Definition DMA_REG_BIT_assign_steps (f : CCR_Field) (v : Z) : m unit :=
  ccr ← hidden Z load_CCR;
  store_steps L_CCR (write_field (CCR_pos f) (CCR_width f) v ccr).

Definition XPD_DMA_Enable_steps : m unit := DMA_REG_BIT_assign_steps EN 1.

Definition XPD_DMA_Disable_steps : m unit := DMA_REG_BIT_assign_steps EN 0.

Definition XPD_DMA_Start_steps (PeriphAddress : Z)
    (DataStream : DataStreamType) : m XPD_ReturnType :=
  (* Enter critical section to ensure single user of DMA *)
  hidden unit XPD_ENTER_CRITICAL;;
  (* If previous user was a different peripheral, check busy state first *)
  cpar ← hidden Z load_CPAR;
  result ← (if negb (PeriphAddress =? cpar)
            then shown XPD_ReturnType Status_check XPD_DMA_GetStatus
            else mret XPD_OK);
  (if XPD_ReturnType_eqb result XPD_OK then
     XPD_DMA_Disable_steps;;
     (* DMA Stream peripheral address *)
     store_steps L_CPAR PeriphAddress;;
     (* DMA Stream data length *)
     store_steps L_CNDTR (length DataStream);;
     (* DMA Stream memory address *)
     store_steps L_CMAR (buffer DataStream);;
     (* reset error state *)
     store_steps L_Errors DMA_ERROR_NONE;;
     XPD_DMA_Enable_steps
   else mret tt);;
  hidden unit XPD_EXIT_CRITICAL;;
  mret result.

End Steps.

(** Run without a recorder: a step is the step of the driver. *)
Definition unrecorded (A : Type) (a : M A) : M A := a.
Definition unrecorded_effect (A : Type) (e : DMA_Effect) (a : M A) : M A := a.

(** Run with a recorder: the state and the effects so far. *)
Definition Recorded (A : Type) : Type :=
  Ctx * list DMA_Effect -> A * (Ctx * list DMA_Effect).

#[global] Instance Recorded_ret : MRet Recorded := fun A a s => (a, s).

#[global] Instance Recorded_bind : MBind Recorded :=
  fun A B k a s => let (x, s') := a s in k x s'.

Definition unseen (A : Type) (a : M A) : Recorded A :=
  fun s => let (x, c') := a (fst s) in (x, (c', snd s)).

Definition seen (A : Type) (e : DMA_Effect) (a : M A) : Recorded A :=
  fun s => let (x, c') := a (fst s) in (x, (c', snd s ++ [e])).

(** * EXTI line configuration (STM32L4_XPD, xpd_exti.c): model *)

(** Modelled from the spec: the setup structure of xpd_exti.h and the
    register block of the device header, which are not among the sources
    ("EXTI line configuration (simple register field mapping)").  The
    driver reads the fields [Reaction] and [Edge] and writes the mask and
    the edge-selection registers of the two banks of lines. *)
Record EXTI_InitType : Set := mkEXTI_Init {
  Reaction : Z;
  Edge : Z
}.

Record EXTI_TypeDef : Set := mkEXTI {
  IMR1 : Z; EMR1 : Z; RTSR1 : Z; FTSR1 : Z;
  IMR2 : Z; EMR2 : Z; RTSR2 : Z; FTSR2 : Z
}.

(** The EXTI block and the gate of its clock. *)
Record EXTI_State : Set := mkEXTI_State {
  EXTI : EXTI_TypeDef;
  EXTI_clock : bool
}.

(** Modelled from the spec: RCC_vClockEnable of xpd_rcc, which is not
    among the sources ("Clock control function: SetEnabled(bool) per
    controller instance, idempotent"). *)
Definition RCC_vClockEnable_EXTI (s : EXTI_State) : EXTI_State :=
  mkEXTI_State (EXTI s) true.

(** Modelled from the spec: the bit-band alias [EXTI_BB] of the device
    header, which is not among the sources.  Word [n] of an aliased
    register is bit [n] of the register; a store to it writes the lowest
    bit of the stored value. *)
Definition BB_store (n v reg : Z) : Z := write_field n 1 v reg.

Section EXTI_Driver.

(** Build configuration of xpd_exti.c: whether the EXTI block has a clock
    gate ([#ifdef RCC_APB2ENR_EXTITEN]) and a bit-band alias
    ([#ifdef EXTI_BB]), and the enumerators of xpd_common.h, which is not
    among the sources. *)
Variable RCC_APB2ENR_EXTITEN : bool.
Variable EXTI_BB : bool.
Variable REACTION_IT REACTION_EVENT : Z.
Variable EDGE_RISING EDGE_FALLING : Z.

(** [uint32_t ulLineBit = 1 << n].  The shift is undefined in C for a
    count of 32 or more, that is for lines 64 and above, where the shifter
    of the processor yields 0; the statements about the driver are about
    the lines below 64. *)
Definition ulLineBit (n : Z) : Z := Z.shiftl 1 n mod 2 ^ 32.

(** The branch [#ifdef EXTI_BB] of EXTI_vInit.  [ucLine -= 32] is done on
    a [uint8_t]. *)
Definition EXTI_vInit_BB (ucLine : Z) (pxConfig : EXTI_InitType)
    (e : EXTI_TypeDef) : EXTI_TypeDef :=
  if ucLine <? 32 then
    mkEXTI (BB_store ucLine (Reaction pxConfig) (IMR1 e))
           (BB_store ucLine (Z.shiftr (Reaction pxConfig) 1) (EMR1 e))
           (BB_store ucLine (Edge pxConfig) (RTSR1 e))
           (BB_store ucLine (Z.shiftr (Edge pxConfig) 1) (FTSR1 e))
           (IMR2 e) (EMR2 e) (RTSR2 e) (FTSR2 e)
  else
    let ucLine := (ucLine - 32) mod 2 ^ 8 in
    mkEXTI (IMR1 e) (EMR1 e) (RTSR1 e) (FTSR1 e)
           (BB_store ucLine (Reaction pxConfig) (IMR2 e))
           (BB_store ucLine (Z.shiftr (Reaction pxConfig) 1) (EMR2 e))
           (BB_store ucLine (Edge pxConfig) (RTSR2 e))
           (BB_store ucLine (Z.shiftr (Edge pxConfig) 1) (FTSR2 e)).

(** The branch [#else] of EXTI_vInit. *)
Definition EXTI_vInit_mask (ucLine : Z) (pxConfig : EXTI_InitType)
    (e : EXTI_TypeDef) : EXTI_TypeDef :=
  if ucLine <? 32 then
    let ulLineBit := ulLineBit ucLine in
    mkEXTI
      ((* set EXTI line configuration *)
       if negb (Z.land (Reaction pxConfig) REACTION_IT =? 0)
       then SET_BIT (IMR1 e) ulLineBit else CLEAR_BIT (IMR1 e) ulLineBit)
      (if negb (Z.land (Reaction pxConfig) REACTION_EVENT =? 0)
       then SET_BIT (EMR1 e) ulLineBit else CLEAR_BIT (EMR1 e) ulLineBit)
      ((* set rising and falling edge configuration *)
       if negb (Z.land (Edge pxConfig) EDGE_RISING =? 0)
       then SET_BIT (RTSR1 e) ulLineBit else CLEAR_BIT (RTSR1 e) ulLineBit)
      (if negb (Z.land (Edge pxConfig) EDGE_FALLING =? 0)
       then SET_BIT (FTSR1 e) ulLineBit else CLEAR_BIT (FTSR1 e) ulLineBit)
      (IMR2 e) (EMR2 e) (RTSR2 e) (FTSR2 e)
  else
    let ulLineBit := ulLineBit (ucLine - 32) in
    mkEXTI
      (IMR1 e) (EMR1 e) (RTSR1 e) (FTSR1 e)
      ((* set EXTI line configuration *)
       if negb (Z.land (Reaction pxConfig) REACTION_IT =? 0)
       then SET_BIT (IMR2 e) ulLineBit else CLEAR_BIT (IMR2 e) ulLineBit)
      (if negb (Z.land (Reaction pxConfig) REACTION_EVENT =? 0)
       then SET_BIT (EMR2 e) ulLineBit else CLEAR_BIT (EMR2 e) ulLineBit)
      ((* set rising and falling edge configuration *)
       if negb (Z.land (Edge pxConfig) EDGE_RISING =? 0)
       then SET_BIT (RTSR2 e) ulLineBit else CLEAR_BIT (RTSR2 e) ulLineBit)
      (if negb (Z.land (Edge pxConfig) EDGE_FALLING =? 0)
       then SET_BIT (FTSR2 e) ulLineBit else CLEAR_BIT (FTSR2 e) ulLineBit).

Definition EXTI_vInit (ucLine : Z) (pxConfig : EXTI_InitType)
    (s : EXTI_State) : EXTI_State :=
  let s := if RCC_APB2ENR_EXTITEN then RCC_vClockEnable_EXTI s else s in
  mkEXTI_State
    (if EXTI_BB then EXTI_vInit_BB ucLine pxConfig (EXTI s)
     else EXTI_vInit_mask ucLine pxConfig (EXTI s))
    (EXTI_clock s).

(** The branch [#ifdef EXTI_BB] of EXTI_vDeinit. *)
Definition EXTI_vDeinit_BB (ucLine : Z) (e : EXTI_TypeDef) : EXTI_TypeDef :=
  if ucLine <? 32 then
    mkEXTI ((* Clear EXTI line configuration *)
            BB_store ucLine 0 (IMR1 e))
           (BB_store ucLine 0 (EMR1 e))
           ((* Clear Rising Falling edge configuration *)
            BB_store ucLine 0 (RTSR1 e))
           (BB_store ucLine 0 (FTSR1 e))
           (IMR2 e) (EMR2 e) (RTSR2 e) (FTSR2 e)
  else
    let ucLine := (ucLine - 32) mod 2 ^ 8 in
    mkEXTI (IMR1 e) (EMR1 e) (RTSR1 e) (FTSR1 e)
           (BB_store ucLine 0 (IMR2 e))
           (BB_store ucLine 0 (EMR2 e))
           (BB_store ucLine 0 (RTSR2 e))
           (BB_store ucLine 0 (FTSR2 e)).

(** The branch [#else] of EXTI_vDeinit. *)
Definition EXTI_vDeinit_mask (ucLine : Z) (e : EXTI_TypeDef) : EXTI_TypeDef :=
  if ucLine <? 32 then
    let ulLineBit := ulLineBit ucLine in
    mkEXTI ((* Clear EXTI line configuration *)
            CLEAR_BIT (IMR1 e) ulLineBit)
           (CLEAR_BIT (EMR1 e) ulLineBit)
           ((* Clear Rising Falling edge configuration *)
            CLEAR_BIT (RTSR1 e) ulLineBit)
           (CLEAR_BIT (FTSR1 e) ulLineBit)
           (IMR2 e) (EMR2 e) (RTSR2 e) (FTSR2 e)
  else
    let ulLineBit := ulLineBit (ucLine - 32) in
    mkEXTI (IMR1 e) (EMR1 e) (RTSR1 e) (FTSR1 e)
           (CLEAR_BIT (IMR2 e) ulLineBit)
           (CLEAR_BIT (EMR2 e) ulLineBit)
           (CLEAR_BIT (RTSR2 e) ulLineBit)
           (CLEAR_BIT (FTSR2 e) ulLineBit).

Definition EXTI_vDeinit (ucLine : Z) (s : EXTI_State) : EXTI_State :=
  mkEXTI_State
    (if EXTI_BB then EXTI_vDeinit_BB ucLine (EXTI s)
     else EXTI_vDeinit_mask ucLine (EXTI s))
    (EXTI_clock s).

End EXTI_Driver.

(** ** Vocabulary for the EXTI lines *)

(** What the block holds for a line below 64: whether the line raises an
    interrupt, raises an event, and triggers on the rising and on the
    falling edge. *)
Record EXTI_LineConfig : Set := mkLine {
  line_IT : bool;
  line_EVENT : bool;
  line_RISING : bool;
  line_FALLING : bool
}.

Definition EXTI_line (ucLine : Z) (e : EXTI_TypeDef) : EXTI_LineConfig :=
  if ucLine <? 32 then
    mkLine (Z.testbit (IMR1 e) ucLine) (Z.testbit (EMR1 e) ucLine)
           (Z.testbit (RTSR1 e) ucLine) (Z.testbit (FTSR1 e) ucLine)
  else
    mkLine (Z.testbit (IMR2 e) (ucLine - 32))
           (Z.testbit (EMR2 e) (ucLine - 32))
           (Z.testbit (RTSR2 e) (ucLine - 32))
           (Z.testbit (FTSR2 e) (ucLine - 32)).

(** What a setup structure asks for, given the enumerators: each field is
    tested against the mask of an enumerator. *)
Definition EXTI_requested (REACTION_IT REACTION_EVENT EDGE_RISING
    EDGE_FALLING : Z) (pxConfig : EXTI_InitType) : EXTI_LineConfig :=
  mkLine (negb (Z.land (Reaction pxConfig) REACTION_IT =? 0))
         (negb (Z.land (Reaction pxConfig) REACTION_EVENT =? 0))
         (negb (Z.land (Edge pxConfig) EDGE_RISING =? 0))
         (negb (Z.land (Edge pxConfig) EDGE_FALLING =? 0)).

(** What EXTI_vInit stores for a setup structure: the bit-band build
    stores bit 0 and bit 1 of each field, whatever the enumerators are; the
    other build tests the fields against the enumerators. *)
Definition EXTI_stored (EXTI_BB : bool) (REACTION_IT REACTION_EVENT
    EDGE_RISING EDGE_FALLING : Z) (pxConfig : EXTI_InitType)
  : EXTI_LineConfig :=
  if EXTI_BB then EXTI_requested 1 2 1 2 pxConfig
  else EXTI_requested REACTION_IT REACTION_EVENT EDGE_RISING EDGE_FALLING
                      pxConfig.

(** A line that is not configured. *)
Definition EXTI_line_off : EXTI_LineConfig := mkLine false false false false.

(** The four registers of a bank of lines. *)
Inductive EXTI_Reg : Set := R_IMR | R_EMR | R_RTSR | R_FTSR.

Definition EXTI_reg (bank2 : bool) (r : EXTI_Reg) (e : EXTI_TypeDef) : Z :=
  match bank2, r with
  | false, R_IMR => IMR1 e | false, R_EMR => EMR1 e
  | false, R_RTSR => RTSR1 e | false, R_FTSR => FTSR1 e
  | true, R_IMR => IMR2 e | true, R_EMR => EMR2 e
  | true, R_RTSR => RTSR2 e | true, R_FTSR => FTSR2 e
  end.

(** The bit of a line configuration that a register holds. *)
Definition EXTI_line_bit (r : EXTI_Reg) (l : EXTI_LineConfig) : bool :=
  match r with
  | R_IMR => line_IT l | R_EMR => line_EVENT l
  | R_RTSR => line_RISING l | R_FTSR => line_FALLING l
  end.

(** In [e'] bit [n] of the four registers of a bank holds the line
    configuration [l], and every other bit of the block is as in [e]. *)
Definition EXTI_assigned (bank2 : bool) (n : Z) (l : EXTI_LineConfig)
    (e e' : EXTI_TypeDef) : Prop :=
  forall b r i,
    Z.testbit (EXTI_reg b r e') i =
      if Bool.eqb b bank2 && (i =? n) then EXTI_line_bit r l
      else Z.testbit (EXTI_reg b r e) i.

(** ** Example inputs *)

(** The EXTI block out of reset, its clock off. *)
Definition EXTI_reset : EXTI_State :=
  mkEXTI_State (mkEXTI 0 0 0 0 0 0 0 0) false.

(** An interrupt on both edges, when the enumerators are interrupt 1,
    event 2, rising 1 and falling 2, the values the bit-band branch relies
    on. *)
Definition interrupt_on_both_edges : EXTI_InitType := mkEXTI_Init 1 3.

(** A one-shot transfer of words from memory to a peripheral, at high
    priority. *)
Definition word_transfer : DMA_InitType :=
  mkInit 2 1 0 (mkEndpoint 1 2) (mkEndpoint 0 2).

(** * Properties *)

(** ** Bit-level facts about the register macros *)

Lemma testbit_write_field pos width v reg i :
  0 <= pos -> 0 <= width -> 0 <= i ->
  Z.testbit (write_field pos width v reg) i =
    if (pos <=? i) && (i <? pos + width)
    then Z.testbit v (i - pos) else Z.testbit reg i.
Proof.
  intros Hp Hw Hi. unfold write_field.
  rewrite Z.lor_spec, Z.land_spec, Z.lnot_spec by lia.
  rewrite !Z.shiftl_spec by lia. rewrite Z.land_spec.
  rewrite !Z.testbit_ones by lia.
  destruct (pos <=? i) eqn:E1; destruct (i <? pos + width) eqn:E2; cbn [andb].
  - replace (0 <=? i - pos) with true by lia.
    replace (i - pos <? width) with true by lia.
    cbn. now rewrite andb_false_r, andb_true_r.
  - replace (i - pos <? width) with false by lia.
    now rewrite !andb_false_r, orb_false_r, andb_true_r.
  - replace (0 <=? i - pos) with false by lia.
    cbn. now rewrite andb_false_r, orb_false_r, andb_true_r.
  - replace (0 <=? i - pos) with false by lia.
    cbn. now rewrite andb_false_r, orb_false_r, andb_true_r.
Qed.

Lemma testbit_read_field pos width reg i :
  0 <= pos -> 0 <= width -> 0 <= i ->
  Z.testbit (read_field pos width reg) i =
    Z.testbit reg (i + pos) && (i <? width).
Proof.
  intros Hp Hw Hi. unfold read_field.
  rewrite Z.land_spec, Z.shiftr_spec, Z.testbit_ones by lia.
  now replace (0 <=? i) with true by lia.
Qed.

Lemma read_write_field_same pos width v reg :
  0 <= pos -> 0 <= width ->
  read_field pos width (write_field pos width v reg) = Z.land v (Z.ones width).
Proof.
  intros Hp Hw. apply Z.bits_inj'; intros i Hi.
  rewrite testbit_read_field, testbit_write_field by lia.
  rewrite Z.land_spec, Z.testbit_ones by lia.
  replace (0 <=? i) with true by lia.
  replace (pos <=? i + pos) with true by lia.
  replace (i + pos - pos) with i by lia.
  destruct (i <? width) eqn:E.
  - now replace (i + pos <? pos + width) with true by lia.
  - now rewrite !andb_false_r.
Qed.

Lemma read_write_field_other pos width pos' width' v reg :
  0 <= pos -> 0 <= width -> 0 <= pos' -> 0 <= width' ->
  pos + width <= pos' \/ pos' + width' <= pos ->
  read_field pos width (write_field pos' width' v reg) = read_field pos width reg.
Proof.
  intros Hp Hw Hp' Hw' Hd. apply Z.bits_inj'; intros i Hi.
  rewrite !testbit_read_field, testbit_write_field by lia.
  destruct (i <? width) eqn:E; [ | now rewrite !andb_false_r ].
  replace ((pos' <=? i + pos) && (i + pos <? pos' + width')) with false by lia.
  reflexivity.
Qed.

Lemma write_field_same pos width v v' reg :
  0 <= pos -> 0 <= width ->
  write_field pos width v' (write_field pos width v reg) =
    write_field pos width v' reg.
Proof.
  intros Hp Hw. apply Z.bits_inj'; intros i Hi.
  rewrite !testbit_write_field by lia.
  now destruct ((pos <=? i) && (i <? pos + width)).
Qed.

(** Setting and clearing the enable bit through the bit field is the
    CMSIS macro on the mask of the bit. *)
Lemma write_EN_0 reg : write_field 0 1 0 reg = CLEAR_BIT reg DMA_CCR_EN.
Proof.
  unfold write_field, CLEAR_BIT, DMA_CCR_EN. cbn. now rewrite Z.lor_0_r.
Qed.

Lemma write_EN_1 reg : write_field 0 1 1 reg = SET_BIT reg DMA_CCR_EN.
Proof.
  unfold SET_BIT, DMA_CCR_EN. apply Z.bits_inj'; intros i Hi.
  rewrite testbit_write_field, Z.lor_spec by lia.
  destruct (Z.eq_dec i 0) as [-> | Hne].
  - cbn. now rewrite orb_true_r.
  - replace ((0 <=? i) && (i <? 0 + 1)) with false by lia.
    replace (Z.testbit 1 i) with false; [ now rewrite orb_false_r | ].
    symmetry. apply (Z.bits_above_log2 1 i); cbn; lia.
Qed.

Lemma read_field_bit pos reg :
  0 <= pos -> read_field pos 1 reg = Z.b2z (Z.testbit reg pos).
Proof.
  intros Hp. apply Z.bits_inj'; intros i Hi.
  rewrite testbit_read_field by lia.
  destruct (Z.eq_dec i 0) as [-> | Hne].
  - rewrite Z.add_0_l. change (0 <? 1) with true. rewrite andb_true_r.
    now destruct (Z.testbit reg pos).
  - replace (i <? 1) with false by lia. rewrite andb_false_r.
    destruct (Z.testbit reg pos); cbn [Z.b2z].
    + symmetry. apply (Z.bits_above_log2 1 i); cbn; lia.
    + now rewrite Z.bits_0.
Qed.

Lemma READ_CLEAR_BIT_same reg m : READ_BIT (CLEAR_BIT reg m) m = 0.
Proof.
  unfold READ_BIT, CLEAR_BIT. apply Z.bits_inj'; intros i Hi.
  rewrite !Z.land_spec, Z.lnot_spec, Z.bits_0 by lia.
  now destruct (Z.testbit reg i), (Z.testbit m i).
Qed.

Lemma READ_CLEAR_BIT_other reg m m' :
  Z.land m m' = 0 -> READ_BIT (CLEAR_BIT reg m) m' = READ_BIT reg m'.
Proof.
  intros Hd. unfold READ_BIT, CLEAR_BIT. apply Z.bits_inj'; intros i Hi.
  rewrite !Z.land_spec, Z.lnot_spec by lia.
  assert (Hb : Z.testbit (Z.land m m') i = false) by (rewrite Hd; apply Z.bits_0).
  rewrite Z.land_spec in Hb.
  destruct (Z.testbit reg i), (Z.testbit m i), (Z.testbit m' i);
    cbn in *; congruence.
Qed.

Lemma CLEAR_BIT_comm reg m m' :
  CLEAR_BIT (CLEAR_BIT reg m) m' = CLEAR_BIT (CLEAR_BIT reg m') m.
Proof.
  unfold CLEAR_BIT. apply Z.bits_inj'; intros i Hi.
  rewrite !Z.land_spec, !Z.lnot_spec by lia.
  now destruct (Z.testbit reg i), (Z.testbit m i), (Z.testbit m' i).
Qed.

Lemma CLEAR_BIT_clear reg m : READ_BIT reg m = 0 -> CLEAR_BIT reg m = reg.
Proof.
  intros H. unfold READ_BIT, CLEAR_BIT in *. apply Z.bits_inj'; intros i Hi.
  rewrite Z.land_spec, Z.lnot_spec by lia.
  assert (Hb : Z.testbit (Z.land reg m) i = false) by (rewrite H; apply Z.bits_0).
  rewrite Z.land_spec in Hb.
  destruct (Z.testbit reg i), (Z.testbit m i); cbn in *; congruence.
Qed.

(** ** State bookkeeping *)

Lemma Inst_regs_set_Inst_regs r c : Inst_regs (set_Inst_regs r c) = r.
Proof. unfold Inst_regs, set_Inst_regs. cbn. apply lookup_total_insert_eq. Qed.

Lemma Base_regs_set_Base_regs r c : Base_regs (set_Base_regs r c) = r.
Proof. unfold Base_regs, set_Base_regs. cbn. apply lookup_total_insert_eq. Qed.

Lemma set_Inst_regs_twice r r' c :
  set_Inst_regs r' (set_Inst_regs r c) = set_Inst_regs r' c.
Proof. unfold set_Inst_regs. cbn. now rewrite insert_insert_eq. Qed.

Lemma set_Base_regs_twice r r' c :
  set_Base_regs r' (set_Base_regs r c) = set_Base_regs r' c.
Proof. unfold set_Base_regs. cbn. now rewrite insert_insert_eq. Qed.

Lemma GetStatus_unfold c :
  XPD_DMA_GetStatus c =
    (if negb (read_field 0 1 (CCR (Inst_regs c)) =? 0)
        && (CNDTR (Inst_regs c) >? 0)
     then XPD_BUSY else XPD_OK, c).
Proof. reflexivity. Qed.

(** C8. XPD_DMA_GetStatus returns BUSY exactly when the enable bit of the
    channel is set and the remaining-length register CNDTR is nonzero, and
    OK in every other case; it leaves the whole state as it was. *)
Theorem XPD_DMA_GetStatus_spec (c : Ctx) :
  uint32 (CNDTR (Inst_regs c)) ->
  snd (XPD_DMA_GetStatus c) = c /\
  (fst (XPD_DMA_GetStatus c) = XPD_BUSY <->
     channel_enabled c /\ CNDTR (Inst_regs c) <> 0) /\
  (fst (XPD_DMA_GetStatus c) = XPD_OK <->
     ~ (channel_enabled c /\ CNDTR (Inst_regs c) <> 0)).
Proof.
  intros [Hlo _]. rewrite GetStatus_unfold. cbn [fst snd].
  unfold channel_enabled. rewrite read_field_bit by lia.
  split; [ reflexivity | ].
  set (busy := negb (Z.b2z (Z.testbit (CCR (Inst_regs c)) 0) =? 0)
               && (CNDTR (Inst_regs c) >? 0)).
  assert (Hbusy : busy = true <->
            Z.testbit (CCR (Inst_regs c)) 0 = true /\ CNDTR (Inst_regs c) <> 0).
  { subst busy. destruct (Z.testbit (CCR (Inst_regs c)) 0); cbn [Z.b2z].
    - change (negb (1 =? 0)) with true. cbn [andb]. split.
      + intros H. split; [ reflexivity | lia ].
      + intros [_ H]. lia.
    - change (negb (0 =? 0)) with false. cbn [andb]. split.
      + discriminate.
      + intros [H _]. discriminate. }
  destruct busy.
  - split; split; intros H; try reflexivity; try discriminate.
    + now apply Hbusy.
    + exfalso. apply H. now apply Hbusy.
  - split; split; intros H; try reflexivity; try discriminate.
    + apply Hbusy in H. discriminate.
    + intros H'. apply Hbusy in H'. discriminate.
Qed.

(** ** Running the monad one statement at a time

    A proof runs a driver function statement by statement and brings the
    state back to a normal form after each one, so that terms stay small. *)

Lemma bind_mret {A B : Type} (a : A) (k : A -> M B) c :
  (mret a ≫= k) c = k a c.
Proof. reflexivity. Qed.

Lemma bind_load {A B : Type} (f : Ctx -> A) (k : A -> M B) c :
  (load f ≫= k) c = k (f c) c.
Proof. reflexivity. Qed.

Lemma bind_modify {B : Type} (f : Ctx -> Ctx) (k : unit -> M B) c :
  (modify f ≫= k) c = k tt (f c).
Proof. reflexivity. Qed.

Lemma bind_assoc {A B C : Type} (m : M A) (k : A -> M B) (k' : B -> M C) c :
  ((m ≫= k) ≫= k') c = (m ≫= (fun a => k a ≫= k')) c.
Proof. unfold mbind, M_bind. now destruct (m c). Qed.

Lemma bind_when {B : Type} (b : bool) (body : M unit) (k : unit -> M B) c :
  (when b body ≫= k) c = if b then (body ≫= k) c else k tt c.
Proof. now destruct b. Qed.

Lemma bind_run {A B : Type} (m : M A) (k : A -> M B) c a c' :
  m c = (a, c') -> (m ≫= k) c = k a c'.
Proof. intros H. unfold mbind, M_bind. now rewrite H. Qed.

Lemma run_mret {A : Type} (a : A) c : (mret a : M A) c = (a, c).
Proof. reflexivity. Qed.

Lemma run_load {A : Type} (f : Ctx -> A) c : load f c = (f c, c).
Proof. reflexivity. Qed.

Lemma run_modify (f : Ctx -> Ctx) c : modify f c = (tt, f c).
Proof. reflexivity. Qed.

Lemma run_when (b : bool) (body : M unit) c :
  when b body c = if b then body c else (tt, c).
Proof. now destruct b. Qed.

Ltac unfold_ops :=
  unfold XPD_DMA_Enable, XPD_DMA_Disable, XPD_DMA_DisableIT,
    DMA_REG_BIT_assign, DMA_REG_BIT,
    store_CCR, store_CNDTR, store_CPAR, store_CMAR, store_Errors,
    store_Base, store_ChannelOffset,
    load_CCR, load_CNDTR, load_CPAR, load_Errors, load_Inst,
    XPD_DMA_ClearFlag, XPD_DMA_GetFlag, XPD_GetTimer,
    XPD_ENTER_CRITICAL, XPD_EXIT_CRITICAL.

(** Brings the state to an explicit record and simplifies reads of what
    was just written. *)
Ltac simpl_state :=
  unfold set_Inst_regs, set_Base_regs, Inst_regs, Base_regs, set_chan_regs,
    set_dma_regs, set_dma_users, set_dma_clock, set_critical, set_calls,
    DMA_flag_mask;
  cbn beta zeta iota
    delta [hdma world Inst Base ChannelOffset Errors Callbacks chan_regs
           dma_regs dma_users dma_clock msTick critical calls CCR CNDTR CPAR
           CMAR ISR];
  rewrite ?lookup_total_insert_eq, ?insert_insert_eq;
  cbn beta iota delta [CCR CNDTR CPAR CMAR ISR].

(** One statement of a sequence. *)
Ltac step :=
  unfold_ops;
  first [ rewrite bind_assoc
        | rewrite bind_mret
        | rewrite bind_load
        | rewrite bind_modify
        | rewrite bind_when
        | rewrite run_mret
        | rewrite run_load
        | rewrite run_modify
        | rewrite run_when ];
  simpl_state.

Ltac steps := repeat step.

(** ** Start *)

Lemma Start_arm_sequence P D c :
  (XPD_DMA_Disable;;
   store_CPAR P;;
   store_CNDTR (length D);;
   store_CMAR (buffer D);;
   store_Errors DMA_ERROR_NONE;;
   XPD_DMA_Enable) c = (tt, armed P D c).
Proof.
  steps.
  change (CCR_pos EN) with 0. change (CCR_width EN) with 1.
  rewrite write_field_same, write_EN_1 by lia.
  unfold armed. simpl_state. reflexivity.
Qed.

(** What XPD_DMA_Start does, by cases on its two tests. *)
Lemma XPD_DMA_Start_cases P D c :
  XPD_DMA_Start P D c =
    if negb (P =? CPAR (Inst_regs c))
       && XPD_ReturnType_eqb (fst (XPD_DMA_GetStatus c)) XPD_BUSY
    then (XPD_BUSY, c) else (XPD_OK, armed P D c).
Proof.
  assert (Harm : forall c1,
    c1 = mkCtx (hdma c) (set_critical (S (critical (world c))) (world c)) ->
    (when (XPD_ReturnType_eqb XPD_OK XPD_OK)
       (XPD_DMA_Disable;; store_CPAR P;; store_CNDTR (length D);;
        store_CMAR (buffer D);; store_Errors DMA_ERROR_NONE;;
        XPD_DMA_Enable);;
     XPD_EXIT_CRITICAL;; mret XPD_OK) c1 = (XPD_OK, armed P D c)).
  { intros c1 ->. rewrite bind_when. cbn [XPD_ReturnType_eqb].
    rewrite (bind_run _ _ _ _ _ (Start_arm_sequence P D _)).
    steps. unfold armed. simpl_state. destruct c as [h w]. now destruct w. }
  rewrite GetStatus_unfold. cbn [fst].
  unfold XPD_DMA_Start. unfold XPD_ENTER_CRITICAL at 1. rewrite bind_modify.
  unfold load_CPAR at 1. rewrite bind_load.
  set (c1 := mkCtx (hdma c) (set_critical (S (critical (world c))) (world c))).
  change (Inst_regs c1) with (Inst_regs c).
  destruct (P =? CPAR (Inst_regs c)); cbn [negb andb].
  - rewrite bind_mret. now apply Harm.
  - rewrite (bind_run _ _ _ _ _ (GetStatus_unfold c1)).
    change (Inst_regs c1) with (Inst_regs c).
    destruct (negb (read_field 0 1 (CCR (Inst_regs c)) =? 0)
              && (CNDTR (Inst_regs c) >? 0)).
    + cbn [XPD_ReturnType_eqb]. steps. subst c1. cbn [hdma world critical].
      destruct c as [h w]. now destruct w.
    + cbn [XPD_ReturnType_eqb]. now apply Harm.
Qed.

(** C1. When the requested peripheral address differs from the one latched
    in CPAR and XPD_DMA_GetStatus reports the channel busy, XPD_DMA_Start
    returns BUSY and the state after the call is the state before it: no
    register of the channel and no field of the handle has changed. *)
Theorem XPD_DMA_Start_busy (c : Ctx) (PeriphAddress : Z)
    (DataStream : DataStreamType) :
  PeriphAddress <> CPAR (Inst_regs c) ->
  fst (XPD_DMA_GetStatus c) = XPD_BUSY ->
  XPD_DMA_Start PeriphAddress DataStream c = (XPD_BUSY, c).
Proof.
  intros Hne Hbusy. rewrite XPD_DMA_Start_cases, Hbusy.
  now replace (PeriphAddress =? CPAR (Inst_regs c)) with false by lia.
Qed.

(** *** The steps of Start, recorded *)

Lemma unseen_run {A : Type} (a : M A) c l :
  unseen A a (c, l) = (fst (a c), (snd (a c), l)).
Proof. unfold unseen. cbn [fst snd]. now destruct (a c). Qed.

Lemma seen_run {A : Type} e (a : M A) c l :
  seen A e a (c, l) = (fst (a c), (snd (a c), l ++ [e])).
Proof. unfold seen. cbn [fst snd]. now destruct (a c). Qed.

Lemma Recorded_bind_run {A B : Type} (a : Recorded A) (k : A -> Recorded B)
    s x s' :
  a s = (x, s') -> (a ≫= k) s = k x s'.
Proof. intros H. unfold mbind, Recorded_bind. now rewrite H. Qed.

Lemma store_steps_run l v c log :
  store_steps seen l v (c, log) =
    (tt, (snd (store_at l v c), log ++ [Store l v])).
Proof. unfold store_steps. rewrite seen_run. now destruct l. Qed.

Lemma DMA_REG_BIT_assign_steps_run f v c log :
  DMA_REG_BIT_assign_steps unseen seen f v (c, log) =
    (tt, (with_CCR (write_field (CCR_pos f) (CCR_width f) v (CCR (Inst_regs c))) c,
          log ++ [Store L_CCR (write_field (CCR_pos f) (CCR_width f) v
                                 (CCR (Inst_regs c)))])).
Proof.
  unfold DMA_REG_BIT_assign_steps.
  rewrite (Recorded_bind_run _ _ _ _ _ (unseen_run load_CCR c log)).
  cbn [fst snd load_CCR load]. rewrite store_steps_run. reflexivity.
Qed.

Lemma Recorded_bind_mret {A B : Type} (x : A) (k : A -> Recorded B) s :
  (mret x ≫= k) s = k x s.
Proof. reflexivity. Qed.

Lemma store_steps_bind {B : Type} l v (k : unit -> Recorded B) c log :
  (store_steps seen l v ≫= k) (c, log) =
    k tt (snd (store_at l v c), log ++ [Store l v]).
Proof. apply Recorded_bind_run, store_steps_run. Qed.

Lemma DMA_REG_BIT_assign_steps_bind {B : Type} f v (k : unit -> Recorded B)
    c log :
  (DMA_REG_BIT_assign_steps unseen seen f v ≫= k) (c, log) =
    k tt (with_CCR (write_field (CCR_pos f) (CCR_width f) v
                      (CCR (Inst_regs c))) c,
          log ++ [Store L_CCR (write_field (CCR_pos f) (CCR_width f) v
                                 (CCR (Inst_regs c)))]).
Proof. apply Recorded_bind_run, DMA_REG_BIT_assign_steps_run. Qed.

Lemma Start_arm_sequence_steps P D c log :
  (XPD_DMA_Disable_steps unseen seen;;
   store_steps seen L_CPAR P;;
   store_steps seen L_CNDTR (length D);;
   store_steps seen L_CMAR (buffer D);;
   store_steps seen L_Errors DMA_ERROR_NONE;;
   XPD_DMA_Enable_steps unseen seen) (c, log) =
  (tt, (armed P D c,
        log ++
        [Store L_CCR (CLEAR_BIT (CCR (Inst_regs c)) DMA_CCR_EN);
         Store L_CPAR P; Store L_CNDTR (length D); Store L_CMAR (buffer D);
         Store L_Errors DMA_ERROR_NONE;
         Store L_CCR (SET_BIT (CCR (Inst_regs c)) DMA_CCR_EN)])).
Proof.
  unfold XPD_DMA_Disable_steps, XPD_DMA_Enable_steps.
  rewrite DMA_REG_BIT_assign_steps_bind.
  change (CCR_pos EN) with 0. change (CCR_width EN) with 1.
  rewrite write_EN_0.
  set (ccr := CCR (Inst_regs c)).
  unfold with_CCR. fold ccr. simpl_state.
  rewrite store_steps_bind. cbn [store_at]. unfold store_CPAR.
  rewrite run_modify. cbn [snd]. simpl_state.
  rewrite store_steps_bind. cbn [store_at]. unfold store_CNDTR.
  rewrite run_modify. cbn [snd]. simpl_state.
  rewrite store_steps_bind. cbn [store_at]. unfold store_CMAR.
  rewrite run_modify. cbn [snd]. simpl_state.
  rewrite store_steps_bind. cbn [store_at]. unfold store_Errors.
  rewrite run_modify. cbn [snd]. simpl_state.
  rewrite DMA_REG_BIT_assign_steps_run.
  change (CCR_pos EN) with 0. change (CCR_width EN) with 1.
  unfold with_CCR. simpl_state.
  rewrite write_EN_1.
  replace (SET_BIT (CLEAR_BIT ccr DMA_CCR_EN) DMA_CCR_EN)
    with (SET_BIT ccr DMA_CCR_EN).
  2:{ unfold SET_BIT, CLEAR_BIT. apply Z.bits_inj'; intros i Hi.
      rewrite !Z.lor_spec, Z.land_spec, Z.lnot_spec by lia.
      now destruct (Z.testbit ccr i), (Z.testbit DMA_CCR_EN i). }
  rewrite <- !app_assoc. cbn [app].
  unfold armed. simpl_state. reflexivity.
Qed.

Lemma XPD_DMA_Start_steps_same_address P D c :
  P = CPAR (Inst_regs c) ->
  XPD_DMA_Start_steps unseen seen P D (c, []) =
  (XPD_OK, (armed P D c,
    [Store L_CCR (CLEAR_BIT (CCR (Inst_regs c)) DMA_CCR_EN);
     Store L_CPAR P; Store L_CNDTR (length D); Store L_CMAR (buffer D);
     Store L_Errors DMA_ERROR_NONE;
     Store L_CCR (SET_BIT (CCR (Inst_regs c)) DMA_CCR_EN)])).
Proof.
  intros HP.
  unfold XPD_DMA_Start_steps.
  rewrite (Recorded_bind_run _ _ _ _ _ (unseen_run XPD_ENTER_CRITICAL c [])).
  cbn [fst snd XPD_ENTER_CRITICAL modify].
  set (c1 := mkCtx (hdma c) (set_critical (S (critical (world c))) (world c))).
  rewrite (Recorded_bind_run _ _ _ _ _ (unseen_run load_CPAR c1 [])).
  cbn [fst snd load_CPAR load].
  change (Inst_regs c1) with (Inst_regs c).
  replace (P =? CPAR (Inst_regs c)) with true by lia. cbn [negb].
  rewrite Recorded_bind_mret. cbn [XPD_ReturnType_eqb].
  rewrite (Recorded_bind_run _ _ _ _ _ (Start_arm_sequence_steps P D c1 [])).
  rewrite (Recorded_bind_run _ _ _ _ _ (unseen_run XPD_EXIT_CRITICAL _ _)).
  cbn [fst snd XPD_EXIT_CRITICAL modify app].
  change (Inst_regs c1) with (Inst_regs c).
  unfold mret, Recorded_ret. subst c1. f_equal.
Qed.

(** The recorded run of Start, for every input: it returns what
    XPD_DMA_Start returns and ends in the state in which XPD_DMA_Start
    ends; a busy check is recorded exactly when the address differs from
    the latched one, and the six stores exactly when the result is OK. *)
Lemma XPD_DMA_Start_steps_run P D c :
  XPD_DMA_Start_steps unseen seen P D (c, []) =
  (fst (XPD_DMA_Start P D c),
   (snd (XPD_DMA_Start P D c),
    (if negb (P =? CPAR (Inst_regs c)) then [Status_check] else [])
    ++ (if XPD_ReturnType_eqb (fst (XPD_DMA_Start P D c)) XPD_OK
        then [Store L_CCR (CLEAR_BIT (CCR (Inst_regs c)) DMA_CCR_EN);
              Store L_CPAR P; Store L_CNDTR (length D);
              Store L_CMAR (buffer D); Store L_Errors DMA_ERROR_NONE;
              Store L_CCR (SET_BIT (CCR (Inst_regs c)) DMA_CCR_EN)]
        else []))).
Proof.
  rewrite XPD_DMA_Start_cases.
  destruct (Z.eqb_spec P (CPAR (Inst_regs c))) as [HP | HP]; cbn [negb andb].
  { cbn [fst snd XPD_ReturnType_eqb app].
    now apply XPD_DMA_Start_steps_same_address. }
  unfold XPD_DMA_Start_steps.
  rewrite (Recorded_bind_run _ _ _ _ _ (unseen_run XPD_ENTER_CRITICAL c [])).
  cbn [fst snd XPD_ENTER_CRITICAL modify].
  set (c1 := mkCtx (hdma c) (set_critical (S (critical (world c))) (world c))).
  rewrite (Recorded_bind_run _ _ _ _ _ (unseen_run load_CPAR c1 [])).
  cbn [fst snd load_CPAR load].
  change (Inst_regs c1) with (Inst_regs c).
  replace (P =? CPAR (Inst_regs c)) with false by lia. cbn [negb].
  rewrite (Recorded_bind_run _ _ _ _ _ (seen_run Status_check XPD_DMA_GetStatus c1 [])).
  rewrite (GetStatus_unfold c1), (GetStatus_unfold c). cbn [fst snd app].
  change (Inst_regs c1) with (Inst_regs c).
  destruct (negb (read_field 0 1 (CCR (Inst_regs c)) =? 0)
            && (CNDTR (Inst_regs c) >? 0)); cbn [XPD_ReturnType_eqb fst snd].
  - rewrite Recorded_bind_mret.
    rewrite (Recorded_bind_run _ _ _ _ _ (unseen_run XPD_EXIT_CRITICAL _ _)).
    cbn [fst snd XPD_EXIT_CRITICAL modify app].
    unfold mret, Recorded_ret. subst c1. f_equal. f_equal.
    cbn [hdma world critical]. unfold set_critical.
    cbn [chan_regs dma_regs dma_users dma_clock msTick critical calls Nat.pred].
    destruct c as [h w]. now destruct w.
  - rewrite (Recorded_bind_run _ _ _ _ _
               (Start_arm_sequence_steps P D c1 [Status_check])).
    rewrite (Recorded_bind_run _ _ _ _ _ (unseen_run XPD_EXIT_CRITICAL _ _)).
    cbn [fst snd XPD_EXIT_CRITICAL modify app].
    change (Inst_regs c1) with (Inst_regs c).
    unfold mret, Recorded_ret. subst c1. f_equal.
Qed.

(** C2. With the peripheral address that is already latched in CPAR,
    XPD_DMA_Start returns OK whatever the state of the channel, busy or
    not: the result state has the enable bit set, CPAR, CNDTR and CMAR
    loaded from the arguments and the error state reset to NONE, and is
    otherwise the state before the call.  The steps of the call, in their
    order: the channel is disabled (the first store writes CCR with the
    enable bit cleared), then CPAR, CNDTR and CMAR are stored, the error
    state is reset, and the last store writes CCR with the enable bit set;
    XPD_DMA_GetStatus is not called.  XPD_DMA_Start is the stepwise
    function run without a recorder. *)
Theorem XPD_DMA_Start_same_address (c : Ctx) (PeriphAddress : Z)
    (DataStream : DataStreamType) :
  PeriphAddress = CPAR (Inst_regs c) ->
  let r := XPD_DMA_Start PeriphAddress DataStream c in
  let ccr := CCR (Inst_regs c) in
  fst r = XPD_OK /\
  snd r = armed PeriphAddress DataStream c /\
  channel_enabled (snd r) /\
  CPAR (Inst_regs (snd r)) = PeriphAddress /\
  CNDTR (Inst_regs (snd r)) = length DataStream /\
  CMAR (Inst_regs (snd r)) = buffer DataStream /\
  Errors (hdma (snd r)) = DMA_ERROR_NONE /\
  XPD_DMA_Start_steps unrecorded unrecorded_effect = XPD_DMA_Start /\
  XPD_DMA_Start_steps unseen seen PeriphAddress DataStream (c, []) =
    (XPD_OK,
     (snd r,
      [Store L_CCR (CLEAR_BIT ccr DMA_CCR_EN);
       Store L_CPAR PeriphAddress;
       Store L_CNDTR (length DataStream);
       Store L_CMAR (buffer DataStream);
       Store L_Errors DMA_ERROR_NONE;
       Store L_CCR (SET_BIT ccr DMA_CCR_EN)])) /\
  Z.testbit (CLEAR_BIT ccr DMA_CCR_EN) 0 = false /\
  Z.testbit (SET_BIT ccr DMA_CCR_EN) 0 = true.
Proof.
  intros Heq r ccr. subst r ccr.
  rewrite (XPD_DMA_Start_steps_same_address _ DataStream _ Heq).
  rewrite XPD_DMA_Start_cases.
  replace (PeriphAddress =? CPAR (Inst_regs c)) with true by lia.
  cbn [negb andb fst snd].
  split; [ reflexivity | ]. split; [ reflexivity | ].
  assert (Hset : Z.testbit (SET_BIT (CCR (Inst_regs c)) DMA_CCR_EN) 0 = true).
  { unfold SET_BIT, DMA_CCR_EN. rewrite Z.lor_spec.
    change (Z.testbit 1 0) with true. apply orb_true_r. }
  assert (Hclear :
    Z.testbit (CLEAR_BIT (CCR (Inst_regs c)) DMA_CCR_EN) 0 = false).
  { unfold CLEAR_BIT, DMA_CCR_EN. rewrite Z.land_spec, Z.lnot_spec by lia.
    change (Z.testbit 1 0) with true. apply andb_false_r. }
  split.
  { unfold channel_enabled, armed. simpl_state. exact Hset. }
  unfold armed at 1 2 3 4. simpl_state.
  repeat (split; [ reflexivity | ]).
  split; [ exact Hclear | exact Hset ].
Qed.

Section Dispatch.

Variable USE_XPD_DMA_ERROR_DETECT : bool.
Variable user : Z -> Ctx -> Ctx.
Hypothesis user_frame : callback_frame user.

Lemma XPD_SAFE_CALLBACK_obs cb c :
  let c' := snd (XPD_SAFE_CALLBACK user cb c) in
  hdma c' = hdma c /\
  Base_regs c' = Base_regs c /\
  CCR (Inst_regs c') = CCR (Inst_regs c) /\
  calls (world c') = calls (world c) ++ fired true cb.
Proof.
  unfold XPD_SAFE_CALLBACK, fired. rewrite run_when. cbn [andb].
  destruct (cb =? 0); cbn [negb snd].
  - rewrite app_nil_r. auto.
  - rewrite run_modify. cbn [snd].
    destruct (user_frame cb c) as (Hh & Hb & Hc).
    unfold Base_regs, Inst_regs in *.
    cbn [hdma world chan_regs dma_regs calls set_calls]. rewrite Hh in *. auto.
Qed.

Lemma sub_handler_run f slot c :
  sub_handler user f slot c =
    if flag_set f c
    then XPD_SAFE_CALLBACK user (slot (Callbacks (hdma c))) (pre_callback f c)
    else (tt, c).
Proof.
  unfold sub_handler, flag_set, pre_callback, circular.
  unfold XPD_DMA_GetFlag. rewrite bind_load, run_load. cbn [fst].
  destruct (negb (READ_BIT (ISR (Base_regs c)) (DMA_flag_mask f c) =? 0));
    rewrite run_when; [ | reflexivity ].
  do 4 step.
  change (CCR_pos CIRC) with 5. change (CCR_width CIRC) with 1.
  rewrite read_field_bit by lia.
  destruct (Z.testbit (CCR (chan_regs (world c) !!! Inst (hdma c))) 5);
    cbn [Z.b2z]; [ change (1 =? 0) with false | change (0 =? 0) with true ];
    cbn iota.
  - step. reflexivity.
  - do 4 step. 
    replace (CCR_width (CCR_IE f)) with 1 by now destruct f.
    reflexivity.
Qed.

Lemma pre_callback_obs f c :
  hdma (pre_callback f c) = hdma c /\
  Base_regs (pre_callback f c) =
    mkDMA (CLEAR_BIT (ISR (Base_regs c)) (DMA_flag_mask f c)) /\
  CCR (Inst_regs (pre_callback f c)) =
    (if circular c then CCR (Inst_regs c)
     else write_field (CCR_pos (CCR_IE f)) 1 0 (CCR (Inst_regs c))) /\
  calls (world (pre_callback f c)) = calls (world c).
Proof.
  unfold pre_callback. destruct (circular c); simpl_state; auto.
Qed.

Lemma sub_handler_obs f slot c :
  let c' := snd (sub_handler user f slot c) in
  hdma c' = hdma c /\
  ISR (Base_regs c') =
    (if flag_set f c
     then CLEAR_BIT (ISR (Base_regs c)) (DMA_flag_mask f c)
     else ISR (Base_regs c)) /\
  CCR (Inst_regs c') =
    (if flag_set f c && negb (circular c)
     then write_field (CCR_pos (CCR_IE f)) 1 0 (CCR (Inst_regs c))
     else CCR (Inst_regs c)) /\
  calls (world c') =
    calls (world c) ++ fired (flag_set f c) (slot (Callbacks (hdma c))).
Proof.
  intros c'. subst c'. rewrite sub_handler_run. unfold fired.
  destruct (flag_set f c); cbn [andb snd].
  - destruct (XPD_SAFE_CALLBACK_obs (slot (Callbacks (hdma c)))
                (pre_callback f c)) as (Hh & Hb & Hc & Hl).
    destruct (pre_callback_obs f c) as (Hh' & Hb' & Hc' & Hl').
    rewrite Hh, Hb, Hc, Hl, Hh', Hb', Hc', Hl'. unfold fired. cbn [andb ISR].
    repeat split. now destruct (circular c).
  - rewrite app_nil_r. auto.
Qed.

Lemma error_handler_run c :
  (error_handler user) c =
    if flag_set TE c
    then XPD_SAFE_CALLBACK user (Error (Callbacks (hdma c))) (error_recorded c)
    else (tt, c).
Proof.
  unfold error_handler, flag_set, error_recorded.
  unfold XPD_DMA_GetFlag. rewrite bind_load, run_load. cbn [fst].
  destruct (negb (READ_BIT (ISR (Base_regs c)) (DMA_flag_mask TE c) =? 0));
    rewrite run_when; [ | reflexivity ].
  do 4 step. reflexivity.
Qed.

Lemma IRQHandler_parts c :
  XPD_DMA_IRQHandler USE_XPD_DMA_ERROR_DETECT user c =
    (sub_handler user HT HalfComplete;;
     sub_handler user TC Complete;;
     when USE_XPD_DMA_ERROR_DETECT (error_handler user)) c.
Proof.
  unfold XPD_DMA_IRQHandler, sub_handler, error_handler.
  now rewrite !bind_assoc.
Qed.

Lemma flag_set_eq f c :
  flag_set f c = negb (READ_BIT (ISR (Base_regs c)) (DMA_flag_mask f c) =? 0).
Proof. reflexivity. Qed.

Lemma DMA_flag_mask_disjoint f g c :
  f <> g -> Z.land (DMA_flag_mask f c) (DMA_flag_mask g c) = 0.
Proof.
  intros Hne. unfold DMA_flag_mask. rewrite <- Z.shiftl_land.
  replace (Z.land (DMA_ISR_IF1 f) (DMA_ISR_IF1 g)) with 0
    by (destruct f, g; try congruence; reflexivity).
  apply Z.shiftl_0_l.
Qed.

Lemma DMA_flag_mask_hdma f c c' :
  hdma c' = hdma c -> DMA_flag_mask f c' = DMA_flag_mask f c.
Proof. intros H. unfold DMA_flag_mask. now rewrite H. Qed.

(** A flag test sees through the clearing of another flag. *)
Lemma flag_after_clear (b : bool) isr f g c :
  f <> g ->
  negb (READ_BIT (if b then CLEAR_BIT isr (DMA_flag_mask g c) else isr)
                 (DMA_flag_mask f c) =? 0)
  = negb (READ_BIT isr (DMA_flag_mask f c) =? 0).
Proof.
  intros Hne. destruct b; [ | reflexivity ].
  rewrite READ_CLEAR_BIT_other; [ reflexivity | ].
  apply DMA_flag_mask_disjoint. congruence.
Qed.

Lemma testbit_after_disable (b : bool) f ccr i :
  0 <= i ->
  Z.testbit (if b then write_field (CCR_pos (CCR_IE f)) 1 0 ccr else ccr) i
  = Z.testbit ccr i && negb (b && (i =? CCR_pos (CCR_IE f))).
Proof.
  intros Hi. destruct b; cbn [andb negb]; [ | now rewrite andb_true_r ].
  assert (0 <= CCR_pos (CCR_IE f)) by (destruct f; cbn; lia).
  rewrite testbit_write_field by lia.
  destruct (Z.eqb_spec i (CCR_pos (CCR_IE f))) as [-> | Hne]; cbn [negb].
  - replace ((CCR_pos (CCR_IE f) <=? CCR_pos (CCR_IE f)) &&
             (CCR_pos (CCR_IE f) <? CCR_pos (CCR_IE f) + 1)) with true by lia.
    rewrite Z.sub_diag, andb_false_r. reflexivity.
  - replace ((CCR_pos (CCR_IE f) <=? i) && (i <? CCR_pos (CCR_IE f) + 1))
      with false by lia.
    now rewrite andb_true_r.
Qed.

Lemma error_recorded_obs c :
  ChannelOffset (hdma (error_recorded c)) = ChannelOffset (hdma c) /\
  Errors (hdma (error_recorded c)) = Z.lor (Errors (hdma c)) DMA_ERROR_TRANSFER /\
  Base_regs (error_recorded c) =
    mkDMA (CLEAR_BIT (ISR (Base_regs c)) (DMA_flag_mask TE c)) /\
  CCR (Inst_regs (error_recorded c)) = CCR (Inst_regs c) /\
  calls (world (error_recorded c)) = calls (world c).
Proof. unfold error_recorded. simpl_state. auto. Qed.

Lemma error_part_obs c :
  let c' := snd (when USE_XPD_DMA_ERROR_DETECT (error_handler user) c) in
  let te := USE_XPD_DMA_ERROR_DETECT && flag_set TE c in
  ChannelOffset (hdma c') = ChannelOffset (hdma c) /\
  Errors (hdma c') =
    (if te then Z.lor (Errors (hdma c)) DMA_ERROR_TRANSFER
     else Errors (hdma c)) /\
  ISR (Base_regs c') =
    (if te then CLEAR_BIT (ISR (Base_regs c)) (DMA_flag_mask TE c)
     else ISR (Base_regs c)) /\
  CCR (Inst_regs c') = CCR (Inst_regs c) /\
  calls (world c') = calls (world c) ++ fired te (Error (Callbacks (hdma c))).
Proof.
  intros c' te. subst c' te. rewrite run_when, error_handler_run.
  unfold fired.
  destruct USE_XPD_DMA_ERROR_DETECT, (flag_set TE c); cbn [andb snd];
    try (rewrite app_nil_r; auto).
  destruct (XPD_SAFE_CALLBACK_obs (Error (Callbacks (hdma c)))
              (error_recorded c)) as (Hh & Hb & Hc & Hl).
  destruct (error_recorded_obs c) as (Ho' & He' & Hb' & Hc' & Hl').
  rewrite Hh, Hb, Hc, Hl, Ho', He', Hb', Hc', Hl'. unfold fired.
  cbn [andb ISR]. auto.
Qed.

Lemma XPD_DMA_IRQHandler_obs (c : Ctx) :
  let c' := snd (XPD_DMA_IRQHandler USE_XPD_DMA_ERROR_DETECT user c) in
  let cbs := Callbacks (hdma c) in
  flag_set HT c' = false /\
  flag_set TC c' = false /\
  IE_enabled HT c' =
    IE_enabled HT c && negb (flag_set HT c && negb (circular c)) /\
  IE_enabled TC c' =
    IE_enabled TC c && negb (flag_set TC c && negb (circular c)) /\
  (circular c = true -> CCR (Inst_regs c') = CCR (Inst_regs c)) /\
  calls (world c') =
    calls (world c)
    ++ fired (flag_set HT c) (HalfComplete cbs)
    ++ fired (flag_set TC c) (Complete cbs)
    ++ fired (USE_XPD_DMA_ERROR_DETECT && flag_set TE c) (Error cbs).
Proof.
  intros c' cbs. subst c' cbs. rewrite IRQHandler_parts.
  rewrite (bind_run _ _ c tt (snd (sub_handler user HT HalfComplete c)))
    by (destruct (sub_handler user HT HalfComplete c) as [[] ?]; reflexivity).
  destruct (sub_handler_obs HT HalfComplete c) as (Hh1 & Hi1 & Hc1 & Hl1).
  set (c1 := snd (sub_handler user HT HalfComplete c)) in *. clearbody c1.
  rewrite (bind_run _ _ c1 tt (snd (sub_handler user TC Complete c1)))
    by (destruct (sub_handler user TC Complete c1) as [[] ?]; reflexivity).
  destruct (sub_handler_obs TC Complete c1) as (Hh2 & Hi2 & Hc2 & Hl2).
  set (c2 := snd (sub_handler user TC Complete c1)) in *. clearbody c2.
  assert (Htc1 : flag_set TC c1 = flag_set TC c).
  { rewrite !flag_set_eq, Hi1, (DMA_flag_mask_hdma TC c c1 Hh1).
    now apply flag_after_clear. }
  assert (Hcirc1 : circular c1 = circular c).
  { unfold circular. rewrite Hc1, testbit_after_disable by (cbn; lia).
    change (CCR_pos CIRC =? CCR_pos (CCR_IE HT)) with false.
    now rewrite andb_false_r, andb_true_r. }
  rewrite Htc1, Hcirc1, (DMA_flag_mask_hdma TC c c1 Hh1) in *.
  rewrite Hh1 in Hh2, Hl2.
  destruct (error_part_obs c2) as (Ho3 & _ & Hi3 & Hc3 & Hl3).
  set (c3 := snd (when USE_XPD_DMA_ERROR_DETECT (error_handler user) c2)) in *.
  clearbody c3.
  assert (Hmask3 : forall f, DMA_flag_mask f c3 = DMA_flag_mask f c).
  { intros f. unfold DMA_flag_mask. now rewrite Ho3, Hh2. }
  assert (Hmask2 : forall f, DMA_flag_mask f c2 = DMA_flag_mask f c).
  { intros f. now apply DMA_flag_mask_hdma. }
  assert (Hte2 : flag_set TE c2 = flag_set TE c).
  { rewrite !flag_set_eq, Hi2, Hi1, Hmask2.
    rewrite flag_after_clear by congruence.
    now apply flag_after_clear. }
  rewrite Hte2, Hmask2, Hh2 in *.
  assert (Hflag3 : forall f, f <> TE ->
    flag_set f c3 = negb (READ_BIT (ISR (Base_regs c2)) (DMA_flag_mask f c) =? 0)).
  { intros f Hf. rewrite flag_set_eq, Hi3, Hmask3.
    now apply flag_after_clear. }
  repeat split.
  - rewrite Hflag3, Hi2 by congruence.
    rewrite flag_after_clear by congruence. rewrite Hi1.
    destruct (flag_set HT c) eqn:E.
    + now rewrite READ_CLEAR_BIT_same.
    + exact E.
  - rewrite Hflag3, Hi2 by congruence.
    destruct (flag_set TC c) eqn:E.
    + now rewrite READ_CLEAR_BIT_same.
    + rewrite Hi1. rewrite flag_after_clear by congruence. exact E.
  - unfold IE_enabled. rewrite Hc3, Hc2, Hc1.
    rewrite !testbit_after_disable by (cbn; lia).
    change (CCR_pos (CCR_IE HT) =? CCR_pos (CCR_IE TC)) with false.
    rewrite Z.eqb_refl. now rewrite !andb_false_r, !andb_true_r.
  - unfold IE_enabled. rewrite Hc3, Hc2, Hc1.
    rewrite !testbit_after_disable by (cbn; lia).
    change (CCR_pos (CCR_IE TC) =? CCR_pos (CCR_IE HT)) with false.
    rewrite Z.eqb_refl. now rewrite !andb_false_r, !andb_true_r.
  - intros Hcirc. rewrite Hc3, Hc2, Hc1, Hcirc.
    now rewrite !andb_false_r.
  - rewrite Hl3, Hl2, Hl1. now rewrite <- !app_assoc.
Qed.

(** With user callbacks that leave the handle, the flags and the control
    register of the channel alone: after the handler the half-transfer and
    the transfer-complete flag are clear; the interrupt source of a flag is
    disabled exactly when that flag was set and the channel is not
    circular, and a circular channel keeps its control register; the call
    log grows by the half-complete callback, then the complete callback,
    then, with error detection, the error callback. *)
Lemma XPD_DMA_IRQHandler_passive (c : Ctx) :
  let c' := snd (XPD_DMA_IRQHandler USE_XPD_DMA_ERROR_DETECT user c) in
  let cbs := Callbacks (hdma c) in
  flag_set HT c' = false /\
  flag_set TC c' = false /\
  IE_enabled HT c' =
    IE_enabled HT c && negb (flag_set HT c && negb (circular c)) /\
  IE_enabled TC c' =
    IE_enabled TC c && negb (flag_set TC c && negb (circular c)) /\
  (circular c = true -> CCR (Inst_regs c') = CCR (Inst_regs c)) /\
  calls (world c') =
    calls (world c)
    ++ fired (flag_set HT c) (HalfComplete cbs)
    ++ fired (flag_set TC c) (Complete cbs)
    ++ fired (USE_XPD_DMA_ERROR_DETECT && flag_set TE c) (Error cbs) /\
  (flag_set HT c = true -> flag_set TC c = true -> circular c = false ->
     IE_enabled HT c' = false /\
     IE_enabled TC c' = false /\
     (HalfComplete cbs <> 0 -> Complete cbs <> 0 ->
        exists rest,
          calls (world c') =
            calls (world c) ++ [HalfComplete cbs; Complete cbs] ++ rest)).
Proof.
  intros c' cbs.
  destruct (XPD_DMA_IRQHandler_obs c) as (Hht & Htc & Hie1 & Hie2 & Hcirc & Hl).
  fold c' in Hht, Htc, Hie1, Hie2, Hcirc, Hl. fold cbs in Hl.
  repeat (split; [ assumption | ]).
  intros Eht Etc Ecirc.
  rewrite Hie1, Hie2, Eht, Etc, Ecirc. cbn [negb andb].
  rewrite !andb_false_r. repeat split.
  intros Hh Hc. rewrite Hl, Eht, Etc. unfold fired. cbn [andb].
  replace (HalfComplete cbs =? 0) with false by lia.
  replace (Complete cbs =? 0) with false by lia.
  cbn [negb]. eexists. reflexivity.
Qed.

(** With such callbacks the error state after the handler is the one
    before it, with the TRANSFER bit when the error sub-handler ran. *)
Lemma XPD_DMA_IRQHandler_Errors (c : Ctx) :
  Errors (hdma (snd (XPD_DMA_IRQHandler USE_XPD_DMA_ERROR_DETECT user c))) =
    if USE_XPD_DMA_ERROR_DETECT && flag_set TE c
    then Z.lor (Errors (hdma c)) DMA_ERROR_TRANSFER
    else Errors (hdma c).
Proof.
  rewrite IRQHandler_parts.
  rewrite (bind_run _ _ c tt (snd (sub_handler user HT HalfComplete c)))
    by (destruct (sub_handler user HT HalfComplete c) as [[] ?]; reflexivity).
  destruct (sub_handler_obs HT HalfComplete c) as (Hh1 & Hi1 & _ & _).
  set (c1 := snd (sub_handler user HT HalfComplete c)) in *. clearbody c1.
  rewrite (bind_run _ _ c1 tt (snd (sub_handler user TC Complete c1)))
    by (destruct (sub_handler user TC Complete c1) as [[] ?]; reflexivity).
  destruct (sub_handler_obs TC Complete c1) as (Hh2 & Hi2 & _ & _).
  set (c2 := snd (sub_handler user TC Complete c1)) in *. clearbody c2.
  assert (Hte2 : flag_set TE c2 = flag_set TE c).
  { rewrite !flag_set_eq, Hi2, Hi1.
    rewrite (DMA_flag_mask_hdma TE c1 c2 Hh2).
    rewrite flag_after_clear by congruence.
    rewrite !(DMA_flag_mask_hdma _ c c1 Hh1).
    now apply flag_after_clear. }
  destruct (error_part_obs c2) as (_ & He3 & _).
  rewrite He3, Hte2, Hh2, Hh1. reflexivity.
Qed.

End Dispatch.

(** The state in which a completion sub-handler calls its callback. *)
Lemma pre_callback_spec f s :
  flag_set f (pre_callback f s) = false /\
  (forall g, g <> f -> flag_set g (pre_callback f s) = flag_set g s) /\
  IE_enabled f (pre_callback f s) = IE_enabled f s && circular s /\
  (forall i, i <> CCR_pos (CCR_IE f) ->
     Z.testbit (CCR (Inst_regs (pre_callback f s))) i =
       Z.testbit (CCR (Inst_regs s)) i) /\
  (circular s = true ->
     CCR (Inst_regs (pre_callback f s)) = CCR (Inst_regs s)) /\
  hdma (pre_callback f s) = hdma s /\
  calls (world (pre_callback f s)) = calls (world s).
Proof.
  destruct (pre_callback_obs f s) as (Hh & Hb & Hc & Hl).
  assert (Hmask : forall g, DMA_flag_mask g (pre_callback f s)
                            = DMA_flag_mask g s)
    by (intros g; now apply DMA_flag_mask_hdma).
  split.
  { rewrite flag_set_eq, Hb, Hmask. cbn [ISR].
    now rewrite READ_CLEAR_BIT_same. }
  split.
  { intros g Hg. rewrite !flag_set_eq, Hb, Hmask. cbn [ISR].
    rewrite READ_CLEAR_BIT_other; [ reflexivity | ].
    apply DMA_flag_mask_disjoint. congruence. }
  assert (Hbit : forall i, 0 <= i ->
    Z.testbit (CCR (Inst_regs (pre_callback f s))) i =
      Z.testbit (CCR (Inst_regs s)) i
      && negb (negb (circular s) && (i =? CCR_pos (CCR_IE f)))).
  { intros i Hi. rewrite Hc. rewrite <- testbit_after_disable by lia.
    now destruct (circular s). }
  split.
  { unfold IE_enabled. rewrite Hbit by (destruct f; cbn; lia).
    rewrite Z.eqb_refl, andb_true_r, negb_involutive. reflexivity. }
  split.
  { intros i Hi. destruct (Z.ltb_spec i 0) as [Hneg | Hnn].
    - now rewrite !Z.testbit_neg_r by lia.
    - rewrite Hbit by lia.
      replace (i =? CCR_pos (CCR_IE f)) with false by lia.
      now rewrite andb_false_r, andb_true_r. }
  split.
  { intros Hcirc. now rewrite Hc, Hcirc. }
  split; assumption.
Qed.

Lemma XPD_SAFE_CALLBACK_run user cb s :
  XPD_SAFE_CALLBACK user cb s =
    (tt, if cb =? 0 then s
         else mkCtx (hdma (user cb s))
                    (set_calls (calls (world s) ++ [cb]) (world (user cb s)))).
Proof.
  unfold XPD_SAFE_CALLBACK. rewrite run_when.
  now destruct (cb =? 0).
Qed.

(** The handler is its three sub-handlers, each working on the state the
    one before it (and its callback) left. *)
Lemma XPD_DMA_IRQHandler_run USE_XPD_DMA_ERROR_DETECT user c :
  let callback cb s := snd (XPD_SAFE_CALLBACK user cb s) in
  let c1 :=
    if flag_set HT c
    then callback (HalfComplete (Callbacks (hdma c))) (pre_callback HT c)
    else c in
  let c2 :=
    if flag_set TC c1
    then callback (Complete (Callbacks (hdma c1))) (pre_callback TC c1)
    else c1 in
  XPD_DMA_IRQHandler USE_XPD_DMA_ERROR_DETECT user c =
    (tt, if USE_XPD_DMA_ERROR_DETECT && flag_set TE c2
         then callback (Error (Callbacks (hdma c2))) (error_recorded c2)
         else c2).
Proof.
  intros callback c1 c2. rewrite IRQHandler_parts.
  assert (Hsub : forall f slot s,
    sub_handler user f slot s =
      (tt, if flag_set f s
           then callback (slot (Callbacks (hdma s))) (pre_callback f s)
           else s)).
  { intros f slot s. rewrite sub_handler_run. subst callback.
    destruct (flag_set f s); [ | reflexivity ].
    now destruct (XPD_SAFE_CALLBACK user (slot (Callbacks (hdma s)))
                    (pre_callback f s)) as [[] ?]. }
  rewrite (bind_run _ _ _ _ _ (Hsub HT HalfComplete c)). fold c1.
  rewrite (bind_run _ _ _ _ _ (Hsub TC Complete c1)). fold c2.
  rewrite run_when. destruct USE_XPD_DMA_ERROR_DETECT; cbn [andb];
    [ | reflexivity ].
  rewrite error_handler_run. subst callback.
  destruct (flag_set TE c2); [ | reflexivity ].
  now destruct (XPD_SAFE_CALLBACK user (Error (Callbacks (hdma c2)))
                  (error_recorded c2)) as [[] ?].
Qed.

(** C3. One call of XPD_DMA_IRQHandler runs its sub-handlers in the order
    half transfer, transfer complete, transfer error, each on the state
    that the one before it and its callback left.  A completion
    sub-handler whose flag is set clears that flag, disables the interrupt
    source of the flag exactly when the channel is not circular (a
    circular channel keeps its control register), and then calls the
    callback of its slot, which does nothing when the slot is null and
    otherwise enters the call in the call log and runs the user's code.
    This holds whatever the callbacks do.  For callbacks that leave the
    handle, the flags and the control register of the channel alone, the
    state after the call is determined by the state before it: both
    completion flags are clear, the interrupt source of a flag is disabled
    exactly when that flag was set and the channel is not circular, the
    callbacks are called in the order half-complete, complete, error; with
    both flags set on a channel that is not circular both interrupt
    sources end disabled and the half-complete callback is called before
    the complete callback. *)
Theorem XPD_DMA_IRQHandler_dispatch (USE_XPD_DMA_ERROR_DETECT : bool)
    (user : Z -> Ctx -> Ctx) (c : Ctx) :
  let callback cb s := snd (XPD_SAFE_CALLBACK user cb s) in
  let cbs := Callbacks (hdma c) in
  let c1 :=
    if flag_set HT c then callback (HalfComplete cbs) (pre_callback HT c)
    else c in
  let c2 :=
    if flag_set TC c1
    then callback (Complete (Callbacks (hdma c1))) (pre_callback TC c1)
    else c1 in
  let c3 :=
    if USE_XPD_DMA_ERROR_DETECT && flag_set TE c2
    then callback (Error (Callbacks (hdma c2))) (error_recorded c2)
    else c2 in
  let c' := snd (XPD_DMA_IRQHandler USE_XPD_DMA_ERROR_DETECT user c) in
  c' = c3 /\
  (forall f s,
     flag_set f (pre_callback f s) = false /\
     (forall g, g <> f -> flag_set g (pre_callback f s) = flag_set g s) /\
     IE_enabled f (pre_callback f s) = IE_enabled f s && circular s /\
     (forall i, i <> CCR_pos (CCR_IE f) ->
        Z.testbit (CCR (Inst_regs (pre_callback f s))) i =
          Z.testbit (CCR (Inst_regs s)) i) /\
     (circular s = true ->
        CCR (Inst_regs (pre_callback f s)) = CCR (Inst_regs s)) /\
     hdma (pre_callback f s) = hdma s /\
     calls (world (pre_callback f s)) = calls (world s)) /\
  (forall cb s,
     callback cb s =
       if cb =? 0 then s
       else mkCtx (hdma (user cb s))
                  (set_calls (calls (world s) ++ [cb]) (world (user cb s)))) /\
  (callback_frame user ->
     flag_set HT c' = false /\
     flag_set TC c' = false /\
     IE_enabled HT c' =
       IE_enabled HT c && negb (flag_set HT c && negb (circular c)) /\
     IE_enabled TC c' =
       IE_enabled TC c && negb (flag_set TC c && negb (circular c)) /\
     (circular c = true -> CCR (Inst_regs c') = CCR (Inst_regs c)) /\
     calls (world c') =
       calls (world c)
       ++ fired (flag_set HT c) (HalfComplete cbs)
       ++ fired (flag_set TC c) (Complete cbs)
       ++ fired (USE_XPD_DMA_ERROR_DETECT && flag_set TE c) (Error cbs) /\
     (flag_set HT c = true -> flag_set TC c = true -> circular c = false ->
        IE_enabled HT c' = false /\
        IE_enabled TC c' = false /\
        (HalfComplete cbs <> 0 -> Complete cbs <> 0 ->
           exists rest,
             calls (world c') =
               calls (world c) ++ [HalfComplete cbs; Complete cbs] ++ rest))).
Proof.
  intros callback cbs c1 c2 c3 c'.
  split.
  { subst c' c3 c2 c1 cbs callback.
    now rewrite XPD_DMA_IRQHandler_run. }
  split; [ apply pre_callback_spec | ].
  split.
  { intros cb s. subst callback. cbv beta.
    now rewrite XPD_SAFE_CALLBACK_run. }
  intros Hframe.
  exact (XPD_DMA_IRQHandler_passive USE_XPD_DMA_ERROR_DETECT user Hframe c).
Qed.

(** ** Init and Deinit *)

Ltac unfold_tables :=
  unfold load_dma_users, store_dma_users, dma_clkCtrl, dma_calcBase.

Lemma XPD_DMA_Init_run DMA2 cfg c :
  XPD_DMA_Init DMA2 cfg c = (XPD_OK, initialised DMA2 cfg c).
Proof.
  unfold XPD_DMA_Init. unfold_tables. steps.
  unfold initialised, configured_CCR. simpl_state. reflexivity.
Qed.

(** C9. XPD_DMA_Init checks nothing: for every configuration it returns OK
    and leaves the initialised state (clock acquired, control fields
    stored, CNDTR and CPAR zero, addressing cached).  So no well-formed
    configuration is refused, and no malformed one either: the circular
    memory-to-memory configuration, which is not valid, is accepted with
    OK, although the function is documented to return ERROR when the input
    is incorrect. *)
Theorem XPD_DMA_Init_never_fails (DMA2 : option Z) (c : Ctx) :
  (forall cfg, XPD_DMA_Init DMA2 cfg c = (XPD_OK, initialised DMA2 cfg c)) /\
  DMA_InitType_valid circular_memory_to_memory = false /\
  fst (XPD_DMA_Init DMA2 circular_memory_to_memory c) = XPD_OK.
Proof.
  split; [ intros cfg; apply XPD_DMA_Init_run | ].
  split; [ reflexivity | ].
  now rewrite XPD_DMA_Init_run.
Qed.

Lemma XPD_DMA_Deinit_run DMA2 c :
  XPD_DMA_Deinit DMA2 c = (XPD_OK, deinitialised DMA2 c).
Proof.
  unfold XPD_DMA_Deinit. unfold_tables. steps.
  unfold deinitialised. simpl_state.
  match goal with |- context [if ?b then _ else _] => destruct b end;
    reflexivity.
Qed.

(** *** The clock gate *)

Lemma DMA_BASE_OFFSET_lt DMA2 inst :
  (DMA_BASE_OFFSET DMA2 inst < controllers DMA2)%nat.
Proof.
  unfold DMA_BASE_OFFSET, controllers. destruct DMA2 as [dma2|]; [ | lia ].
  destruct (inst <? dma2); lia.
Qed.

Lemma DMA_CHANNEL_NUMBER_channel inst :
  is_channel inst -> 0 <= DMA_CHANNEL_NUMBER inst < 7.
Proof.
  intros (n & Hn & Hinst). unfold DMA_CHANNEL_NUMBER. rewrite Hinst.
  replace (8 + 20 * n - 8) with (n * 20) by lia.
  rewrite Z.mod_small by lia. rewrite Z.div_mul by lia. lia.
Qed.

Lemma testbit_uint8 x i :
  0 <= i < 8 -> Z.testbit (x mod 2 ^ 8) i = Z.testbit x i.
Proof. intros Hi. apply Z.mod_pow2_bits_low. lia. Qed.

Lemma testbit_shiftl_1 n i :
  0 <= n -> 0 <= i -> Z.testbit (Z.shiftl 1 n) i = (n =? i).
Proof.
  intros Hn Hi. rewrite Z.shiftl_1_l. now apply Z.pow2_bits_eqb.
Qed.

Lemma testbit_nonzero x i : Z.testbit x i = true -> x <> 0.
Proof. intros H ->. now rewrite Z.bits_0 in H. Qed.

Lemma clock_holders_nonneg users : 0 <= clock_holders users.
Proof. unfold clock_holders. lia. Qed.

Lemma clock_holders_pos users :
  0 <= users < 2 ^ 8 -> (0 < clock_holders users <-> users <> 0).
Proof.
  intros Hu. unfold clock_holders. split.
  - intros Hpos.
    destruct (List.filter (fun n => Z.testbit users (Z.of_nat n)) (seq 0 8))
      as [|n l] eqn:E; [ cbn in Hpos; lia | ].
    assert (Hin : In n (List.filter (fun n => Z.testbit users (Z.of_nat n))
                          (seq 0 8))) by (rewrite E; now left).
    apply filter_In in Hin. destruct Hin as [_ Hbit].
    now apply testbit_nonzero in Hbit.
  - intros Hne.
    destruct (List.filter (fun n => Z.testbit users (Z.of_nat n)) (seq 0 8))
      as [|n l] eqn:E; [ | cbn; lia ].
    exfalso. apply Hne. apply Z.bits_inj'. intros i Hi. rewrite Z.bits_0.
    destruct (Z_lt_le_dec i 8) as [Hlt | Hge].
    + destruct (Z.testbit users i) eqn:Hbit; [ | reflexivity ].
      assert (Hin : In (Z.to_nat i)
                (List.filter (fun n => Z.testbit users (Z.of_nat n)) (seq 0 8))).
      { apply filter_In. split.
        - apply in_seq. lia.
        - now rewrite Z2Nat.id by lia. }
      rewrite E in Hin. destruct Hin.
    + destruct (Z.eq_dec users 0) as [-> | Hnz]; [ apply Z.bits_0 | ].
      apply Z.bits_above_log2; [ lia | ].
      apply Z.log2_lt_pow2; [ lia | ].
      apply Z.lt_le_trans with (2 ^ 8); [ lia | ].
      apply Z.pow_le_mono_r; lia.
Qed.

Lemma clock_inv_reset DMA2 w :
  dma_users w = repeat 0 (controllers DMA2) ->
  dma_clock w = repeat false (controllers DMA2) ->
  clock_inv DMA2 w.
Proof.
  intros Hu Hc. unfold clock_inv. rewrite Hu, Hc, !repeat_length.
  split; [ reflexivity | ]. split; [ reflexivity | ].
  intros bo Hbo. unfold controllers in *.
  destruct DMA2; destruct bo as [|[|bo]]; try lia; cbn; (split; [ lia | ]);
    split; intros; congruence.
Qed.

Lemma clock_inv_Init DMA2 cfg h w :
  clock_inv DMA2 w -> is_channel (Inst h) ->
  clock_inv DMA2 (world (snd (XPD_DMA_Init DMA2 cfg (mkCtx h w)))).
Proof.
  intros (Hlu & Hlc & Hinv) Hch. rewrite XPD_DMA_Init_run.
  unfold initialised, clock_inv.
  cbn [snd world hdma Inst dma_users dma_clock].
  pose proof (DMA_BASE_OFFSET_lt DMA2 (Inst h)) as Hbo.
  pose proof (DMA_CHANNEL_NUMBER_channel _ Hch) as Hn.
  set (bo := DMA_BASE_OFFSET DMA2 (Inst h)) in *.
  set (n := DMA_CHANNEL_NUMBER (Inst h)) in *.
  rewrite !length_insert. split; [ exact Hlu | ]. split; [ exact Hlc | ].
  intros bo' Hbo'. destruct (Nat.eq_dec bo bo') as [<- | Hne].
  - rewrite !list_lookup_total_insert_eq by lia. split.
    + apply Z.mod_pos_bound. lia.
    + split; [ intros _ | reflexivity ].
      apply (testbit_nonzero _ n). rewrite testbit_uint8 by lia.
      unfold SET_BIT. rewrite Z.lor_spec, testbit_shiftl_1 by lia.
      rewrite Z.eqb_refl. apply orb_true_r.
  - rewrite !list_lookup_total_insert_ne by lia. now apply Hinv.
Qed.

Lemma CLEAR_BIT_uint8_zero m : CLEAR_BIT 0 m mod 2 ^ 8 = 0.
Proof. unfold CLEAR_BIT. now rewrite Z.land_0_l. Qed.

Lemma clock_inv_Deinit DMA2 h w :
  clock_inv DMA2 w -> is_channel (Inst h) ->
  clock_inv DMA2 (world (snd (XPD_DMA_Deinit DMA2 (mkCtx h w)))).
Proof.
  intros (Hlu & Hlc & Hinv) Hch. rewrite XPD_DMA_Deinit_run.
  unfold deinitialised, clock_inv.
  cbn beta zeta iota delta [snd world hdma Inst dma_users dma_clock].
  pose proof (DMA_BASE_OFFSET_lt DMA2 (Inst h)) as Hbo.
  set (bo := DMA_BASE_OFFSET DMA2 (Inst h)) in *.
  set (n := DMA_CHANNEL_NUMBER (Inst h)) in *.
  rewrite list_lookup_total_insert_eq by lia.
  set (v := CLEAR_BIT (dma_users w !!! bo) (Z.shiftl 1 n) mod 2 ^ 8).
  assert (Hv : 0 <= v < 2 ^ 8) by (apply Z.mod_pos_bound; lia).
  assert (Hclk : List.length (if v =? 0 then <[bo:=false]> (dma_clock w)
                              else dma_clock w) = controllers DMA2).
  { destruct (v =? 0); [ now rewrite length_insert | exact Hlc ]. }
  rewrite length_insert. split; [ exact Hlu | ]. split; [ exact Hclk | ].
  intros bo' Hbo'. destruct (Nat.eq_dec bo bo') as [<- | Hne].
  - rewrite list_lookup_total_insert_eq by lia. split; [ exact Hv | ].
    destruct (Z.eqb_spec v 0) as [Hz | Hnz].
    + rewrite list_lookup_total_insert_eq by lia. split; congruence.
    + split; [ intros _; exact Hnz | intros _ ].
      apply (Hinv bo Hbo). intros Hu. apply Hnz. subst v.
      rewrite Hu. apply CLEAR_BIT_uint8_zero.
  - rewrite list_lookup_total_insert_ne by lia.
    replace ((if v =? 0 then <[bo:=false]> (dma_clock w) else dma_clock w)
             !!! bo') with (dma_clock w !!! bo').
    + now apply Hinv.
    + destruct (v =? 0); [ | reflexivity ].
      now rewrite list_lookup_total_insert_ne by lia.
Qed.

Lemma reachable_clock_inv DMA2 w : reachable DMA2 w -> clock_inv DMA2 w.
Proof.
  induction 1 as [w Hu Hc | w h cfg _ IH Hch | w h _ IH Hch].
  - now apply clock_inv_reset.
  - now apply clock_inv_Init.
  - now apply clock_inv_Deinit.
Qed.

Lemma testbit_mod8 x i :
  0 <= i -> Z.testbit (x mod 2 ^ 8) i = (i <? 8) && Z.testbit x i.
Proof.
  intros Hi. destruct (Z.ltb_spec i 8).
  - now rewrite Z.mod_pow2_bits_low by lia.
  - now rewrite Z.mod_pow2_bits_high by lia.
Qed.

(** Two channels of one controller: acquire both, release the first, then
    release the second. *)
Lemma two_channels_scenario DMA2 w h1 h2 cfg1 cfg2 :
  clock_inv DMA2 w ->
  is_channel (Inst h1) -> is_channel (Inst h2) ->
  DMA_BASE_OFFSET DMA2 (Inst h1) = DMA_BASE_OFFSET DMA2 (Inst h2) ->
  DMA_CHANNEL_NUMBER (Inst h1) <> DMA_CHANNEL_NUMBER (Inst h2) ->
  let bo := DMA_BASE_OFFSET DMA2 (Inst h1) in
  let c1 := snd (XPD_DMA_Init DMA2 cfg1 (mkCtx h1 w)) in
  let c2 := snd (XPD_DMA_Init DMA2 cfg2 (mkCtx h2 (world c1))) in
  let c3 := snd (XPD_DMA_Deinit DMA2 (mkCtx (hdma c1) (world c2))) in
  let c4 := snd (XPD_DMA_Deinit DMA2 (mkCtx (hdma c2) (world c3))) in
  dma_clock (world c3) !!! bo = true /\
  (dma_users w !!! bo = 0 -> dma_clock (world c4) !!! bo = false).
Proof.
  intros (Hlu & Hlc & Hinv) Hch1 Hch2 Hbo Hne bo c1 c2 c3 c4.
  subst c4 c3 c2 c1.
  rewrite !XPD_DMA_Init_run, !XPD_DMA_Deinit_run.
  unfold initialised, deinitialised.
  cbn beta zeta iota delta [snd world hdma Inst dma_users dma_clock].
  rewrite <- Hbo. fold bo.
  pose proof (DMA_BASE_OFFSET_lt DMA2 (Inst h1)) as Hlt. fold bo in Hlt.
  pose proof (DMA_CHANNEL_NUMBER_channel _ Hch1) as Hn1.
  pose proof (DMA_CHANNEL_NUMBER_channel _ Hch2) as Hn2.
  set (n1 := DMA_CHANNEL_NUMBER (Inst h1)) in *.
  set (n2 := DMA_CHANNEL_NUMBER (Inst h2)) in *.
  set (u := dma_users w !!! bo).
  rewrite !list_insert_insert_eq.
  rewrite !list_lookup_total_insert_eq by (rewrite ?length_insert; lia).
  set (u3 := CLEAR_BIT
               (SET_BIT (SET_BIT u (Z.shiftl 1 n1) mod 2 ^ 8) (Z.shiftl 1 n2)
                mod 2 ^ 8) (Z.shiftl 1 n1) mod 2 ^ 8).
  assert (Hbits : forall i, 0 <= i ->
            Z.testbit u3 i =
              (i <? 8) && ((Z.testbit u i || (n2 =? i)) && negb (n1 =? i))).
  { intros i Hi. subst u3. unfold CLEAR_BIT, SET_BIT.
    rewrite testbit_mod8, Z.land_spec, Z.lnot_spec by lia.
    rewrite testbit_mod8, Z.lor_spec by lia.
    rewrite testbit_mod8, Z.lor_spec by lia.
    rewrite !testbit_shiftl_1 by lia.
    destruct (i <? 8), (Z.testbit u i), (n1 =? i), (n2 =? i); reflexivity. }
  assert (Hu3 : u3 <> 0).
  { apply (testbit_nonzero _ n2). rewrite Hbits by lia.
    rewrite Z.eqb_refl.
    replace (n2 <? 8) with true by lia.
    replace (n1 =? n2) with false by lia.
    now rewrite orb_true_r. }
  replace (u3 =? 0) with false by lia.
  split.
  - now rewrite list_lookup_total_insert_eq by lia.
  - intros Hu0.
    set (u4 := CLEAR_BIT u3 (Z.shiftl 1 n2) mod 2 ^ 8).
    assert (Hu4 : u4 = 0).
    { apply Z.bits_inj'. intros i Hi. subst u4. unfold CLEAR_BIT.
      rewrite testbit_mod8, Z.land_spec, Z.lnot_spec, Hbits by lia.
      rewrite testbit_shiftl_1, Hu0, !Z.bits_0 by lia.
      destruct (i <? 8), (n1 =? i), (n2 =? i); reflexivity. }
    rewrite Hu4. change (0 =? 0) with true. cbn iota.
    now rewrite list_lookup_total_insert_eq by (rewrite ?length_insert; lia).
Qed.

(** Deinit of a channel that does not hold the clock leaves the user mask
    of its controller as it is: nothing underflows. *)
Lemma release_without_acquire DMA2 w :
  clock_inv DMA2 w ->
  forall h,
    is_channel (Inst h) ->
    let bo := DMA_BASE_OFFSET DMA2 (Inst h) in
    Z.testbit (dma_users w !!! bo) (DMA_CHANNEL_NUMBER (Inst h)) = false ->
    dma_users (world (snd (XPD_DMA_Deinit DMA2 (mkCtx h w)))) !!! bo
    = dma_users w !!! bo.
Proof.
  intros (Hlu & _ & Hinv) h Hch bo Hbit.
  rewrite XPD_DMA_Deinit_run. unfold deinitialised.
  cbn beta zeta iota delta [snd world hdma Inst dma_users].
  fold bo.
  pose proof (DMA_BASE_OFFSET_lt DMA2 (Inst h)) as Hlt. fold bo in Hlt.
  pose proof (DMA_CHANNEL_NUMBER_channel _ Hch) as Hn.
  destruct (Hinv bo Hlt) as [Hrange _].
  rewrite list_lookup_total_insert_eq by lia.
  rewrite CLEAR_BIT_clear; [ now apply Z.mod_small | ].
  unfold READ_BIT. apply Z.bits_inj'; intros i Hi.
  rewrite Z.land_spec, testbit_shiftl_1, Z.bits_0 by lia.
  destruct (Z.eqb_spec (DMA_CHANNEL_NUMBER (Inst h)) i) as [<- | Hne].
  - now rewrite Hbit.
  - apply andb_false_r.
Qed.

(** C4. In every state reachable from reset by XPD_DMA_Init and
    XPD_DMA_Deinit calls on channels, the number of channels that hold the
    clock of a controller is not negative, and the clock of the controller
    is on exactly when that number is positive.  In particular, after two
    channels of one controller were initialised and the first one
    deinitialised the clock is still on, and when nobody else held the
    clock it is off once the second one is deinitialised too; and
    deinitialising a channel that does not hold the clock leaves the user
    mask, and so the number of holders, as it is. *)
Theorem clock_gate_invariant (DMA2 : option Z) (w : World) :
  reachable DMA2 w ->
  (forall bo : nat, (bo < controllers DMA2)%nat ->
     0 <= clock_holders (dma_users w !!! bo) /\
     (dma_clock w !!! bo = true <->
        0 < clock_holders (dma_users w !!! bo))) /\
  (forall h1 h2 cfg1 cfg2,
     is_channel (Inst h1) -> is_channel (Inst h2) ->
     DMA_BASE_OFFSET DMA2 (Inst h1) = DMA_BASE_OFFSET DMA2 (Inst h2) ->
     DMA_CHANNEL_NUMBER (Inst h1) <> DMA_CHANNEL_NUMBER (Inst h2) ->
     let bo := DMA_BASE_OFFSET DMA2 (Inst h1) in
     let c1 := snd (XPD_DMA_Init DMA2 cfg1 (mkCtx h1 w)) in
     let c2 := snd (XPD_DMA_Init DMA2 cfg2 (mkCtx h2 (world c1))) in
     let c3 := snd (XPD_DMA_Deinit DMA2 (mkCtx (hdma c1) (world c2))) in
     let c4 := snd (XPD_DMA_Deinit DMA2 (mkCtx (hdma c2) (world c3))) in
     dma_clock (world c3) !!! bo = true /\
     (clock_holders (dma_users w !!! bo) = 0 ->
        dma_clock (world c4) !!! bo = false)) /\
  (forall h,
     is_channel (Inst h) ->
     let bo := DMA_BASE_OFFSET DMA2 (Inst h) in
     Z.testbit (dma_users w !!! bo) (DMA_CHANNEL_NUMBER (Inst h)) = false ->
     dma_users (world (snd (XPD_DMA_Deinit DMA2 (mkCtx h w)))) !!! bo
     = dma_users w !!! bo).
Proof.
  intros Hreach. apply reachable_clock_inv in Hreach.
  split; [ | split ]; [ | | apply (release_without_acquire _ _ Hreach) ].
  - intros bo Hbo. destruct Hreach as (_ & _ & Hinv).
    destruct (Hinv bo Hbo) as [Hrange Hclk].
    split; [ apply clock_holders_nonneg | ].
    rewrite Hclk. symmetry. now apply clock_holders_pos.
  - intros h1 h2 cfg1 cfg2 Hch1 Hch2 Hbo Hne bo c1 c2 c3 c4.
    destruct (two_channels_scenario DMA2 w h1 h2 cfg1 cfg2 Hreach Hch1 Hch2
                Hbo Hne) as [H3 H4].
    split; [ exact H3 | ]. intros Hzero. apply H4.
    destruct Hreach as (_ & _ & Hinv).
    destruct (Hinv bo (DMA_BASE_OFFSET_lt DMA2 (Inst h1))) as [Hrange _].
    destruct (Z.eq_dec (dma_users w !!! bo) 0) as [Hz | Hnz]; [ exact Hz | ].
    apply clock_holders_pos in Hnz; [ | exact Hrange ]. fold bo in Hnz. lia.
Qed.

(** ** Polling *)

Lemma READ_SET_BIT_other reg m m' :
  Z.land m m' = 0 -> READ_BIT (SET_BIT reg m) m' = READ_BIT reg m'.
Proof.
  intros Hd. unfold READ_BIT, SET_BIT. apply Z.bits_inj'; intros i Hi.
  rewrite !Z.land_spec, Z.lor_spec.
  assert (Hb : Z.testbit (Z.land m m') i = false) by (rewrite Hd; apply Z.bits_0).
  rewrite Z.land_spec in Hb.
  destruct (Z.testbit reg i), (Z.testbit m i), (Z.testbit m' i);
    cbn in *; congruence.
Qed.

Lemma CLEAR_SET_BIT_comm reg m m' :
  Z.land m m' = 0 ->
  CLEAR_BIT (SET_BIT reg m) m' = SET_BIT (CLEAR_BIT reg m') m.
Proof.
  intros Hd. unfold CLEAR_BIT, SET_BIT. apply Z.bits_inj'; intros i Hi.
  rewrite !Z.land_spec, !Z.lor_spec, !Z.land_spec, !Z.lnot_spec by lia.
  assert (Hb : Z.testbit (Z.land m m') i = false) by (rewrite Hd; apply Z.bits_0).
  rewrite Z.land_spec in Hb.
  destruct (Z.testbit reg i), (Z.testbit m i), (Z.testbit m' i);
    cbn in *; congruence.
Qed.

Section Polling.

Variable XPD_NO_TIMEOUT : Z.
Variable hw : World -> World.

Lemma record_error_run c :
  (errors ← load_Errors;
   store_Errors (Z.lor errors DMA_ERROR_TRANSFER);;
   XPD_DMA_ClearFlag TE) c = (tt, error_recorded c).
Proof. steps. unfold error_recorded. simpl_state. reflexivity. Qed.

Lemma PollStatus_flag_eq Operation c :
  PollStatus_flag Operation c = (flag_set (awaited Operation) c, c).
Proof. now destruct Operation. Qed.

Lemma PollStatus_loop_S fuel Operation Timeout tickstart c :
  PollStatus_loop XPD_NO_TIMEOUT hw (S fuel) Operation Timeout tickstart c =
    if flag_set (awaited Operation) c then Some (None, c)
    else if flag_set TE c then Some (Some XPD_ERROR, error_recorded c)
    else if timed_out XPD_NO_TIMEOUT Timeout tickstart c
         then Some (Some XPD_TIMEOUT, c)
    else PollStatus_loop XPD_NO_TIMEOUT hw fuel Operation Timeout tickstart
                         (env_step hw c).
Proof.
  cbn [PollStatus_loop]. rewrite PollStatus_flag_eq.
  destruct (flag_set (awaited Operation) c); [ reflexivity | ].
  change (XPD_DMA_GetFlag TE c) with (flag_set TE c, c).
  destruct (flag_set TE c).
  - now rewrite record_error_run.
  - reflexivity.
Qed.

Lemma round_S k c : round hw (S k) c = round hw k (env_step hw c).
Proof. unfold round. apply Nat.iter_succ_r. Qed.

Lemma hdma_round k c : hdma (round hw k c) = hdma c.
Proof.
  unfold round. induction k as [|k IH]; [ reflexivity | ].
  cbn [Nat.iter]. unfold env_step at 1. exact IH.
Qed.

(** Quiet rounds are skipped. *)
Lemma PollStatus_loop_skip n : forall fuel Operation Timeout tickstart c,
  (forall k, (k < n)%nat -> quiet XPD_NO_TIMEOUT Operation Timeout tickstart (round hw k c)) ->
  PollStatus_loop XPD_NO_TIMEOUT hw (n + fuel) Operation Timeout tickstart c =
  PollStatus_loop XPD_NO_TIMEOUT hw fuel Operation Timeout tickstart
                  (round hw n c).
Proof.
  induction n as [|n IH]; intros fuel Operation Timeout tickstart c Hquiet.
  - reflexivity.
  - destruct (Hquiet 0%nat ltac:(lia)) as (Ha & He & Ht).
    change (round hw 0 c) with c in Ha, He, Ht.
    change (S n + fuel)%nat with (S (n + fuel)).
    rewrite PollStatus_loop_S, Ha, He, Ht, round_S.
    apply IH. intros k Hk. rewrite <- round_S. apply Hquiet. lia.
Qed.

Lemma XPD_DMA_PollStatus_decisive n fuel Operation Timeout c :
  (n < fuel)%nat ->
  (forall k, (k < n)%nat ->
     quiet XPD_NO_TIMEOUT Operation Timeout (msTick (world c)) (round hw k c)) ->
  XPD_DMA_PollStatus XPD_NO_TIMEOUT hw fuel Operation Timeout c =
    match
      PollStatus_loop XPD_NO_TIMEOUT hw (S (fuel - S n)) Operation Timeout
                      (msTick (world c)) (round hw n c)
    with
    | None => None
    | Some (Some result, c1) => Some (result, c1)
    | Some (None, c1) => Some (XPD_OK, poll_done Operation c1)
    end.
Proof.
  intros Hfuel Hquiet. unfold XPD_DMA_PollStatus.
  unfold XPD_GetTimer. rewrite run_load.
  replace fuel with (n + S (fuel - S n))%nat at 1 by lia.
  rewrite PollStatus_loop_skip by exact Hquiet.
  destruct (PollStatus_loop XPD_NO_TIMEOUT hw (S (fuel - S n)) Operation
              Timeout (msTick (world c)) (round hw n c))
    as [[[result|] c1]|]; try reflexivity.
  f_equal. destruct Operation; steps; unfold poll_done; simpl_state;
    reflexivity.
Qed.

Lemma flag_set_error_recorded c : flag_set TE (error_recorded c) = false.
Proof.
  rewrite flag_set_eq. unfold error_recorded at 1, Base_regs.
  cbn [hdma world dma_regs set_dma_regs Base].
  rewrite lookup_total_insert_eq. cbn [ISR].
  unfold DMA_flag_mask at 2, error_recorded. cbn [hdma ChannelOffset].
  fold (DMA_flag_mask TE c). now rewrite READ_CLEAR_BIT_same.
Qed.

Lemma poll_done_obs Operation c :
  hdma (poll_done Operation c) = hdma c /\
  flag_set (awaited Operation) (poll_done Operation c) = false /\
  flag_set HT (poll_done Operation c) = false /\
  flag_set TE (poll_done Operation c) = flag_set TE c /\
  (Operation = DMA_OPERATION_HALFTRANSFER ->
     flag_set TC (poll_done Operation c) = flag_set TC c).
Proof.
  assert (Hmask : forall f, DMA_flag_mask f (poll_done Operation c)
                            = DMA_flag_mask f c) by reflexivity.
  assert (Hisr : ISR (Base_regs (poll_done Operation c)) =
            CLEAR_BIT
              (match Operation with
               | DMA_OPERATION_TRANSFER =>
                   CLEAR_BIT (ISR (Base_regs c)) (DMA_flag_mask TC c)
               | DMA_OPERATION_HALFTRANSFER => ISR (Base_regs c)
               end) (DMA_flag_mask HT c)).
  { unfold poll_done. now rewrite Base_regs_set_Base_regs. }
  split; [ reflexivity | ].
  rewrite !flag_set_eq, !Hmask, Hisr.
  assert (Hd : forall f g, f <> g ->
            Z.land (DMA_flag_mask f c) (DMA_flag_mask g c) = 0)
    by (intros; now apply DMA_flag_mask_disjoint).
  destruct Operation; cbn [awaited]; repeat split.
  - rewrite CLEAR_BIT_comm. now rewrite READ_CLEAR_BIT_same.
  - now rewrite READ_CLEAR_BIT_same.
  - rewrite !READ_CLEAR_BIT_other; [ reflexivity | | ]; apply Hd; congruence.
  - discriminate.
  - now rewrite READ_CLEAR_BIT_same.
  - now rewrite READ_CLEAR_BIT_same.
  - rewrite READ_CLEAR_BIT_other; [ reflexivity | ]. apply Hd; congruence.
  - intros _. rewrite READ_CLEAR_BIT_other; [ reflexivity | ].
    apply Hd; congruence.
Qed.

(** C5. XPD_DMA_PollStatus, entered in state [c], reaches after [n] quiet
    rounds a round that decides the call (given fuel for more than [n]
    rounds).  If that round finds the transfer-error flag set and the
    awaited flag clear, the call returns ERROR at once, with the TRANSFER
    bit ORed into the error state and the error flag cleared.  If it finds
    the awaited flag set, the call returns OK with that flag cleared, and
    the half-transfer flag cleared too when it waited for
    transfer-complete; waiting for half-transfer leaves the
    transfer-complete flag alone.  If it finds neither flag and more than
    a finite [Timeout] ticks elapsed, the call returns TIMEOUT and changes
    nothing. *)
Theorem XPD_DMA_PollStatus_outcomes (n fuel : nat)
    (Operation : DMA_OperationType) (Timeout : Z) (c : Ctx) :
  (n < fuel)%nat ->
  (forall k, (k < n)%nat ->
     quiet XPD_NO_TIMEOUT Operation Timeout (msTick (world c)) (round hw k c)) ->
  let cn := round hw n c in
  let poll := XPD_DMA_PollStatus XPD_NO_TIMEOUT hw fuel Operation Timeout c in
  (flag_set (awaited Operation) cn = false -> flag_set TE cn = true ->
     exists c',
       poll = Some (XPD_ERROR, c') /\
       Errors (hdma c') = Z.lor (Errors (hdma c)) DMA_ERROR_TRANSFER /\
       flag_set TE c' = false) /\
  (flag_set (awaited Operation) cn = true ->
     exists c',
       poll = Some (XPD_OK, c') /\
       flag_set (awaited Operation) c' = false /\
       flag_set HT c' = false /\
       (Operation = DMA_OPERATION_HALFTRANSFER ->
          flag_set TC c' = flag_set TC cn) /\
       hdma c' = hdma c) /\
  (flag_set (awaited Operation) cn = false -> flag_set TE cn = false ->
   Timeout <> XPD_NO_TIMEOUT ->
   Timeout < elapsed (msTick (world cn)) (msTick (world c)) ->
     poll = Some (XPD_TIMEOUT, cn)).
Proof.
  intros Hfuel Hquiet cn poll. subst poll.
  rewrite (XPD_DMA_PollStatus_decisive n) by assumption.
  rewrite PollStatus_loop_S. fold cn.
  split; [ | split ].
  - intros Ha He. rewrite Ha, He. exists (error_recorded cn).
    split; [ reflexivity | ]. split.
    + unfold error_recorded. cbn [hdma Errors]. subst cn.
      now rewrite hdma_round.
    + apply flag_set_error_recorded.
  - intros Ha. rewrite Ha. exists (poll_done Operation cn).
    destruct (poll_done_obs Operation cn) as (Hh & Hf & Hht & _ & Htc).
    repeat split; try assumption.
    rewrite Hh. subst cn. apply hdma_round.
  - intros Ha He Hfin Hlate. rewrite Ha, He.
    unfold timed_out.
    replace (Timeout =? XPD_NO_TIMEOUT) with false by lia.
    now replace (elapsed (msTick (world cn)) (msTick (world c)) >? Timeout)
      with true by lia.
Qed.

Lemma flag_set_with_TE b f c :
  f <> TE -> flag_set f (with_TE b c) = flag_set f c.
Proof.
  intros Hf. rewrite !flag_set_eq. unfold with_TE.
  rewrite Base_regs_set_Base_regs. cbn [ISR].
  change (DMA_flag_mask f (set_Base_regs _ c)) with (DMA_flag_mask f c).
  assert (Hd : Z.land (DMA_flag_mask TE c) (DMA_flag_mask f c) = 0)
    by (apply DMA_flag_mask_disjoint; congruence).
  destruct b.
  - now rewrite READ_SET_BIT_other.
  - now rewrite READ_CLEAR_BIT_other.
Qed.

Lemma poll_done_with_TE b Operation c :
  poll_done Operation (with_TE b c) = with_TE b (poll_done Operation c).
Proof.
  assert (Hd : forall f, f <> TE ->
            Z.land (DMA_flag_mask TE c) (DMA_flag_mask f c) = 0)
    by (intros; apply DMA_flag_mask_disjoint; congruence).
  unfold poll_done, with_TE.
  rewrite !Base_regs_set_Base_regs, !set_Base_regs_twice. cbn [ISR].
  change (DMA_flag_mask ?f (set_Base_regs _ c)) with (DMA_flag_mask f c).
  f_equal. f_equal.
  destruct b, Operation;
    rewrite ?CLEAR_SET_BIT_comm by (apply Hd; congruence);
    try reflexivity.
  - rewrite (CLEAR_BIT_comm _ (DMA_flag_mask TE c) (DMA_flag_mask TC c)).
    now rewrite (CLEAR_BIT_comm _ (DMA_flag_mask TE c) (DMA_flag_mask HT c)).
  - now rewrite (CLEAR_BIT_comm _ (DMA_flag_mask TE c) (DMA_flag_mask HT c)).
Qed.

(** C10. When the awaited flag is set on entry, XPD_DMA_PollStatus returns
    OK in its first round: the handle, and with it the error state, is
    unchanged, and the transfer-error flag reads after the call as it did
    before.  The call does not depend on that flag: with the flag forced
    to either value the result is the same and the final states differ in
    that flag only. *)
Theorem XPD_DMA_PollStatus_flag_first (fuel : nat)
    (Operation : DMA_OperationType) (Timeout : Z) (c : Ctx) :
  flag_set (awaited Operation) c = true ->
  XPD_DMA_PollStatus XPD_NO_TIMEOUT hw (S fuel) Operation Timeout c =
    Some (XPD_OK, poll_done Operation c) /\
  hdma (poll_done Operation c) = hdma c /\
  flag_set TE (poll_done Operation c) = flag_set TE c /\
  (forall b : bool,
     XPD_DMA_PollStatus XPD_NO_TIMEOUT hw (S fuel) Operation Timeout
                        (with_TE b c) =
       Some (XPD_OK, with_TE b (poll_done Operation c))).
Proof.
  intros Ha.
  assert (Hrun : forall c0, flag_set (awaited Operation) c0 = true ->
    XPD_DMA_PollStatus XPD_NO_TIMEOUT hw (S fuel) Operation Timeout c0 =
      Some (XPD_OK, poll_done Operation c0)).
  { intros c0 H0.
    rewrite (XPD_DMA_PollStatus_decisive 0) by (intros; lia).
    rewrite PollStatus_loop_S. change (round hw 0 c0) with c0.
    now rewrite H0. }
  destruct (poll_done_obs Operation c) as (Hh & _ & _ & Hte & _).
  repeat split; auto.
  intros b. rewrite Hrun.
  - now rewrite poll_done_with_TE.
  - rewrite flag_set_with_TE; [ exact Ha | now destruct Operation ].
Qed.

End Polling.

(** ** Stop *)

Section Stopping.

Variable XPD_NO_TIMEOUT : Z.
Variable hw : World -> World.

Lemma XPD_DMA_Disable_run c : XPD_DMA_Disable c = (tt, disabled c).
Proof.
  steps. change (CCR_pos EN) with 0. change (CCR_width EN) with 1.
  rewrite write_EN_0. unfold disabled. simpl_state. reflexivity.
Qed.

Lemma reads_enabled_disabled c : reads_enabled (disabled c) = false.
Proof.
  unfold reads_enabled, disabled. rewrite Inst_regs_set_Inst_regs.
  cbn [CCR]. now rewrite READ_CLEAR_BIT_same.
Qed.

Lemma WaitForMatch_poll_S fuel varAddress bitSelector matchValue timeout
    tickstart c :
  WaitForMatch_poll XPD_NO_TIMEOUT hw (S fuel) varAddress bitSelector
                    matchValue timeout tickstart c =
    if READ_BIT (varAddress c) bitSelector =? matchValue
    then Some (XPD_OK, c)
    else if timed_out XPD_NO_TIMEOUT timeout tickstart c
         then Some (XPD_TIMEOUT, c)
    else WaitForMatch_poll XPD_NO_TIMEOUT hw fuel varAddress bitSelector
                           matchValue timeout tickstart (env_step hw c).
Proof. reflexivity. Qed.

Lemma WaitForMatch_poll_skip n :
  forall fuel varAddress bitSelector matchValue timeout tickstart c,
  (forall k, (k < n)%nat ->
     waiting XPD_NO_TIMEOUT varAddress bitSelector matchValue timeout tickstart
             (round hw k c)) ->
  WaitForMatch_poll XPD_NO_TIMEOUT hw (n + fuel) varAddress bitSelector
                    matchValue timeout tickstart c =
  WaitForMatch_poll XPD_NO_TIMEOUT hw fuel varAddress bitSelector
                    matchValue timeout tickstart (round hw n c).
Proof.
  induction n as [|n IH];
    intros fuel varAddress bitSelector matchValue timeout tickstart c Hw.
  - reflexivity.
  - destruct (Hw 0%nat ltac:(lia)) as (Hm & Ht).
    change (round hw 0 c) with c in Hm, Ht.
    change (S n + fuel)%nat with (S (n + fuel)).
    rewrite WaitForMatch_poll_S, Hm, Ht, round_S.
    apply IH. intros k Hk. rewrite <- round_S. apply Hw. lia.
Qed.

(** Whatever the wait returns, it returns it for the state it polled
    last. *)
Lemma WaitForMatch_poll_sound fuel :
  forall varAddress bitSelector matchValue timeout tickstart c r c',
  WaitForMatch_poll XPD_NO_TIMEOUT hw fuel varAddress bitSelector
                    matchValue timeout tickstart c = Some (r, c') ->
  (r = XPD_OK /\
   (READ_BIT (varAddress c') bitSelector =? matchValue) = true) \/
  (r = XPD_TIMEOUT /\
   (READ_BIT (varAddress c') bitSelector =? matchValue) = false /\
   timed_out XPD_NO_TIMEOUT timeout tickstart c' = true).
Proof.
  induction fuel as [|fuel IH];
    intros varAddress bitSelector matchValue timeout tickstart c r c' H.
  - discriminate.
  - rewrite WaitForMatch_poll_S in H.
    destruct (READ_BIT (varAddress c) bitSelector =? matchValue) eqn:Hm.
    + injection H as <- <-. now left.
    + destruct (timed_out XPD_NO_TIMEOUT timeout tickstart c) eqn:Ht.
      * injection H as <- <-. now right.
      * now apply IH in H.
Qed.

(** The wait ends in a state the hardware reached from the one it was
    entered in. *)
Lemma WaitForMatch_poll_round fuel :
  forall varAddress bitSelector matchValue timeout tickstart c r c',
  WaitForMatch_poll XPD_NO_TIMEOUT hw fuel varAddress bitSelector
                    matchValue timeout tickstart c = Some (r, c') ->
  exists n, (n < fuel)%nat /\ c' = round hw n c.
Proof.
  induction fuel as [|fuel IH];
    intros varAddress bitSelector matchValue timeout tickstart c r c' H.
  - discriminate.
  - rewrite WaitForMatch_poll_S in H.
    destruct (READ_BIT (varAddress c) bitSelector =? matchValue).
    + injection H as <- <-. exists 0%nat. split; [ lia | reflexivity ].
    + destruct (timed_out XPD_NO_TIMEOUT timeout tickstart c).
      * injection H as <- <-. exists 0%nat. split; [ lia | reflexivity ].
      * apply IH in H. destruct H as (n & Hn & ->).
        exists (S n). split; [ lia | ]. now rewrite round_S.
Qed.

Lemma XPD_DMA_Stop_run fuel c :
  XPD_DMA_Stop XPD_NO_TIMEOUT hw fuel c =
  WaitForMatch_poll XPD_NO_TIMEOUT hw fuel (fun c' => CCR (Inst_regs c'))
                    DMA_CCR_EN 0 DMA_ABORT_TIMEOUT
                    (msTick (world (stopping hw c))) (stopping hw c).
Proof.
  unfold XPD_DMA_Stop. rewrite XPD_DMA_Disable_run.
  unfold XPD_WaitForMatch, XPD_GetTimer. now rewrite run_load.
Qed.

Lemma hdma_XPD_DMA_Stop fuel c r c' :
  XPD_DMA_Stop XPD_NO_TIMEOUT hw fuel c = Some (r, c') -> hdma c' = hdma c.
Proof.
  rewrite XPD_DMA_Stop_run. intros H.
  apply WaitForMatch_poll_round in H. destruct H as (n & _ & ->).
  now rewrite hdma_round.
Qed.

(** C7. XPD_DMA_Stop clears the enable bit and then waits, with the
    budget DMA_ABORT_TIMEOUT = 1000, until the bit reads back cleared.
    The write clears the bit in the register and, on a channel that was
    already disabled, changes no register.  The call returns OK at the
    first round in which the bit reads cleared, and TIMEOUT at the first
    round in which it still reads set with more than 1000 ticks elapsed
    since the wait began; whenever it returns, it returns TIMEOUT exactly
    when the bit reads set and the budget is exceeded, OK exactly when the
    bit reads cleared, and the state it returns is one the hardware
    reached from the write, with the handle untouched.  When the bit reads
    cleared at the first poll, the call returns OK there, no time having
    passed in the wait. *)
Theorem XPD_DMA_Stop_spec (c : Ctx) :
  reads_enabled (disabled c) = false /\
  (reads_enabled c = false -> Inst_regs (disabled c) = Inst_regs c) /\
  (forall (n fuel : nat),
     (n < fuel)%nat ->
     (forall k, (k < n)%nat ->
        waiting XPD_NO_TIMEOUT (fun c' => CCR (Inst_regs c')) DMA_CCR_EN 0
                DMA_ABORT_TIMEOUT (msTick (world (stopping hw c)))
                (round hw k (stopping hw c))) ->
     let cn := round hw n (stopping hw c) in
     (reads_enabled cn = false ->
      XPD_DMA_Stop XPD_NO_TIMEOUT hw fuel c = Some (XPD_OK, cn)) /\
     (reads_enabled cn = true ->
      XPD_NO_TIMEOUT <> DMA_ABORT_TIMEOUT ->
      DMA_ABORT_TIMEOUT <
        elapsed (msTick (world cn)) (msTick (world (stopping hw c))) ->
      XPD_DMA_Stop XPD_NO_TIMEOUT hw fuel c = Some (XPD_TIMEOUT, cn))) /\
  (forall fuel r c',
     XPD_DMA_Stop XPD_NO_TIMEOUT hw fuel c = Some (r, c') ->
     (r = XPD_TIMEOUT <->
        reads_enabled c' = true /\
        DMA_ABORT_TIMEOUT <
          elapsed (msTick (world c')) (msTick (world (stopping hw c)))) /\
     (r = XPD_OK <-> reads_enabled c' = false) /\
     (exists n, (n < fuel)%nat /\ c' = round hw n (stopping hw c)) /\
     hdma c' = hdma c) /\
  (forall fuel,
     reads_enabled (stopping hw c) = false ->
     XPD_DMA_Stop XPD_NO_TIMEOUT hw (S fuel) c
     = Some (XPD_OK, stopping hw c) /\
     elapsed (msTick (world (stopping hw c)))
             (msTick (world (stopping hw c))) = 0).
Proof.
  split; [ | split; [ | split; [ | split ] ] ].
  - apply reads_enabled_disabled.
  - unfold reads_enabled, disabled. intros Hr. apply negb_false_iff in Hr.
    rewrite Inst_regs_set_Inst_regs, CLEAR_BIT_clear by lia.
    now destruct (Inst_regs c).
  - intros n fuel Hfuel Hw cn. rewrite XPD_DMA_Stop_run.
    replace fuel with (n + S (fuel - S n))%nat by lia.
    rewrite WaitForMatch_poll_skip by exact Hw.
    rewrite WaitForMatch_poll_S. fold cn. unfold reads_enabled.
    split.
    + intros Hr. apply negb_false_iff in Hr. now rewrite Hr.
    + intros Hr Hfin Hlate. apply negb_true_iff in Hr. rewrite Hr.
      unfold timed_out.
      replace (DMA_ABORT_TIMEOUT =? XPD_NO_TIMEOUT) with false by lia.
      now replace (elapsed (msTick (world cn))
                           (msTick (world (stopping hw c)))
                   >? DMA_ABORT_TIMEOUT) with true by lia.
  - intros fuel r c' H.
    pose proof (hdma_XPD_DMA_Stop _ _ _ _ H) as Hh.
    rewrite XPD_DMA_Stop_run in H.
    pose proof (WaitForMatch_poll_round _ _ _ _ _ _ _ _ _ H) as Hn.
    apply WaitForMatch_poll_sound in H.
    unfold reads_enabled, timed_out in *.
    destruct H as [[-> Hm] | (-> & Hm & Ht)]; rewrite Hm; cbn [negb].
    + repeat split; try discriminate; try assumption.
      intros [H _]. discriminate.
    + apply andb_true_iff in Ht. destruct Ht as [_ Ht].
      repeat split; try discriminate; try assumption.
      lia.
  - intros fuel Hr. split.
    + rewrite XPD_DMA_Stop_run, WaitForMatch_poll_S.
      unfold reads_enabled in Hr. apply negb_false_iff in Hr.
      now rewrite Hr.
    + unfold elapsed. now rewrite Z.sub_diag.
Qed.

End Stopping.

(** ** The error state *)

Section ErrorState.

Variable USE_XPD_DMA_ERROR_DETECT : bool.
Variable XPD_NO_TIMEOUT : Z.
Variable hw : World -> World.

Lemma hdma_modify_CCR (f : Z -> Z) c :
  hdma (snd ((ccr ← load_CCR; store_CCR (f ccr)) c)) = hdma c.
Proof. steps. reflexivity. Qed.

Lemma XPD_DMA_Start_IT_outcome P D c :
  let p := XPD_DMA_Start_IT USE_XPD_DMA_ERROR_DETECT P D c in
  (fst p = XPD_OK /\ Errors (hdma (snd p)) = DMA_ERROR_NONE) \/
  (fst p = XPD_BUSY /\ snd p = c).
Proof.
  cbn zeta. unfold XPD_DMA_Start_IT.
  pose proof (XPD_DMA_Start_cases P D c) as Hs.
  destruct (negb (P =? CPAR (Inst_regs c))
            && XPD_ReturnType_eqb (fst (XPD_DMA_GetStatus c)) XPD_BUSY);
    rewrite (bind_run _ _ c _ _ Hs); cbn [XPD_ReturnType_eqb].
  - right. steps. auto.
  - left. steps. unfold armed. now simpl_state.
Qed.

(** What a round of polling does to the error state, by its outcome. *)
Lemma Errors_PollStatus_loop_exact fuel :
  forall Operation Timeout tickstart c ro c',
  PollStatus_loop XPD_NO_TIMEOUT hw fuel Operation Timeout tickstart c
    = Some (ro, c') ->
  Errors (hdma c') =
    match ro with
    | Some XPD_ERROR => Z.lor (Errors (hdma c)) DMA_ERROR_TRANSFER
    | _ => Errors (hdma c)
    end.
Proof.
  induction fuel as [|fuel IH]; intros Operation Timeout tickstart c ro c' H.
  - discriminate.
  - rewrite PollStatus_loop_S in H.
    destruct (flag_set (awaited Operation) c).
    + now injection H as <- <-.
    + destruct (flag_set TE c).
      * now injection H as <- <-.
      * destruct (timed_out XPD_NO_TIMEOUT Timeout tickstart c).
        -- now injection H as <- <-.
        -- apply IH in H. exact H.
Qed.

Lemma Errors_PollStatus_exact fuel Operation Timeout c r c' :
  XPD_DMA_PollStatus XPD_NO_TIMEOUT hw fuel Operation Timeout c
    = Some (r, c') ->
  Errors (hdma c') =
    if XPD_ReturnType_eqb r XPD_ERROR
    then Z.lor (Errors (hdma c)) DMA_ERROR_TRANSFER
    else Errors (hdma c).
Proof.
  intros H. destruct fuel as [|fuel].
  { unfold XPD_DMA_PollStatus, XPD_GetTimer in H. rewrite run_load in H.
    discriminate. }
  rewrite (XPD_DMA_PollStatus_decisive _ _ 0) in H by (intros; lia).
  change (round hw 0 c) with c in H.
  destruct (PollStatus_loop XPD_NO_TIMEOUT hw (S (S fuel - 1)) Operation
              Timeout (msTick (world c)) c) as [[[result|] c1]|] eqn:E;
    try discriminate.
  - injection H as <- <-. apply Errors_PollStatus_loop_exact in E.
    rewrite E. now destruct result.
  - injection H as <- <-. apply Errors_PollStatus_loop_exact in E.
    cbn [XPD_ReturnType_eqb].
    now destruct (poll_done_obs Operation c1) as (-> & _).
Qed.

End ErrorState.

(** A callback either leaves the error state of the handle alone or is
    user code that writes it. *)
Lemma Errors_SAFE_CALLBACK_cases user cb s :
  Errors (hdma (snd (XPD_SAFE_CALLBACK user cb s))) = Errors (hdma s) \/
  exists fn s', Errors (hdma (user fn s')) <> Errors (hdma s').
Proof.
  rewrite XPD_SAFE_CALLBACK_run. cbn [snd].
  destruct (cb =? 0); [ now left | ]. cbn [hdma].
  destruct (Z.eq_dec (Errors (hdma (user cb s))) (Errors (hdma s)))
    as [E | E]; [ now left | right; eauto ].
Qed.

Lemma Errors_pre_callback f s :
  Errors (hdma (pre_callback f s)) = Errors (hdma s).
Proof. now destruct (pre_callback_obs f s) as (-> & _). Qed.

Lemma Errors_error_recorded s :
  Errors (hdma (error_recorded s)) = Z.lor (Errors (hdma s)) DMA_ERROR_TRANSFER.
Proof. reflexivity. Qed.

(** The error state after the interrupt handler, whatever the callbacks
    do. *)
Lemma Errors_IRQHandler_cases USE_XPD_DMA_ERROR_DETECT user c :
  let callback cb s := snd (XPD_SAFE_CALLBACK user cb s) in
  let c1 :=
    if flag_set HT c
    then callback (HalfComplete (Callbacks (hdma c))) (pre_callback HT c)
    else c in
  let c2 :=
    if flag_set TC c1
    then callback (Complete (Callbacks (hdma c1))) (pre_callback TC c1)
    else c1 in
  Errors (hdma (snd (XPD_DMA_IRQHandler USE_XPD_DMA_ERROR_DETECT user c))) =
    (if USE_XPD_DMA_ERROR_DETECT && flag_set TE c2
     then Z.lor (Errors (hdma c)) DMA_ERROR_TRANSFER
     else Errors (hdma c)) \/
  exists fn s, Errors (hdma (user fn s)) <> Errors (hdma s).
Proof.
  intros callback c1 c2.
  pose proof (XPD_DMA_IRQHandler_run USE_XPD_DMA_ERROR_DETECT user c) as Hrun.
  cbv zeta in Hrun. fold callback in Hrun. fold c1 in Hrun. fold c2 in Hrun.
  rewrite Hrun. cbn [snd].
  assert (H1 : Errors (hdma c1) = Errors (hdma c) \/
               exists fn s, Errors (hdma (user fn s)) <> Errors (hdma s)).
  { subst c1. destruct (flag_set HT c); [ | now left ].
    destruct (Errors_SAFE_CALLBACK_cases user
                (HalfComplete (Callbacks (hdma c))) (pre_callback HT c))
      as [E | E]; [ left | now right ].
    subst callback. cbv beta. now rewrite E, Errors_pre_callback. }
  destruct H1 as [H1 | H1]; [ | now right ].
  assert (H2 : Errors (hdma c2) = Errors (hdma c) \/
               exists fn s, Errors (hdma (user fn s)) <> Errors (hdma s)).
  { subst c2. destruct (flag_set TC c1); [ | now left ].
    destruct (Errors_SAFE_CALLBACK_cases user
                (Complete (Callbacks (hdma c1))) (pre_callback TC c1))
      as [E | E]; [ left | now right ].
    subst callback. cbv beta. now rewrite E, Errors_pre_callback. }
  clearbody c1. destruct H2 as [H2 | H2]; [ | now right ].
  clearbody c2.
  destruct (USE_XPD_DMA_ERROR_DETECT && flag_set TE c2); [ | now left ].
  destruct (Errors_SAFE_CALLBACK_cases user
              (Error (Callbacks (hdma c2))) (error_recorded c2))
    as [E | E]; [ left | now right ].
  subst callback. cbv beta. now rewrite E, Errors_error_recorded, H2.
Qed.

(** C6. The error bitmask of a handle only grows, by the TRANSFER error
    bit that XPD_DMA_PollStatus or the interrupt dispatch ORs into it,
    and it is reset to NONE by the call of Start (or Start_IT) that arms a
    transfer and by nothing else, as long as no user callback writes the
    error state itself; XPD_DMA_GetError returns the bitmask and leaves
    the whole state as it was.  Call by call: after every call but the
    interrupt dispatch the bitmask is NONE when the call armed a transfer,
    the bitmask before with the TRANSFER bit when the call is a poll that
    returned ERROR, and the bitmask before otherwise.  The interrupt
    dispatch, whatever the callbacks do: when error detection is compiled
    in and the transfer-error flag is set where it is tested, it ORs the
    TRANSFER bit into the bitmask it finds and then calls the error
    callback; its steps before the completion callbacks leave the bitmask
    alone.  With callbacks that do not write the bitmask, the bitmask after
    a dispatch is the bitmask before, with the TRANSFER bit when the error
    was seen. *)
Theorem Errors_accumulate (DMA2 : option Z) (USE_XPD_DMA_ERROR_DETECT : bool)
    (XPD_NO_TIMEOUT : Z) (hw : World -> World) (user : Z -> Ctx -> Ctx)
    (fuel : nat) (k : DMA_Call) (c : Ctx) (r : DMA_Return) (c' : Ctx) :
  call DMA2 USE_XPD_DMA_ERROR_DETECT XPD_NO_TIMEOUT hw user fuel k c
  = Some (r, c') ->
  let errors := Errors (hdma c) in
  let grown := Z.lor errors DMA_ERROR_TRANSFER in
  (k <> Call_IRQHandler ->
     Errors (hdma c') =
       if arms k r then DMA_ERROR_NONE
       else if poll_failed k r then grown else errors) /\
  (k = Call_IRQHandler ->
     let callback cb s := snd (XPD_SAFE_CALLBACK user cb s) in
     let c1 :=
       if flag_set HT c
       then callback (HalfComplete (Callbacks (hdma c))) (pre_callback HT c)
       else c in
     let c2 :=
       if flag_set TC c1
       then callback (Complete (Callbacks (hdma c1))) (pre_callback TC c1)
       else c1 in
     let error_seen := USE_XPD_DMA_ERROR_DETECT && flag_set TE c2 in
     c' = (if error_seen
           then callback (Error (Callbacks (hdma c2))) (error_recorded c2)
           else c2) /\
     (forall f s, Errors (hdma (pre_callback f s)) = Errors (hdma s)) /\
     Errors (hdma (error_recorded c2)) =
       Z.lor (Errors (hdma c2)) DMA_ERROR_TRANSFER /\
     (callbacks_keep_Errors user ->
        Errors (hdma c') = if error_seen then grown else errors) /\
     (callback_frame user ->
        Errors (hdma c') =
          if USE_XPD_DMA_ERROR_DETECT && flag_set TE c
          then grown else errors)) /\
  (callbacks_keep_Errors user -> arms k r = false ->
     Z.lor errors (Errors (hdma c')) = Errors (hdma c')) /\
  (k = Call_GetError -> r = Ret_error errors /\ c' = c).
Proof.
  intros H errors grown.
  assert (Hgrow : forall e, e = errors \/ e = grown -> Z.lor errors e = e).
  { intros e [-> | ->]; subst grown.
    - apply Z.lor_diag.
    - now rewrite Z.lor_assoc, Z.lor_diag. }
  assert (Hsame : forall k0, Errors (hdma c') = errors ->
    (forall r0, arms k0 r0 = false) ->
    (forall r0, poll_failed k0 r0 = false) ->
    k0 <> Call_GetError -> k0 <> Call_IRQHandler ->
    (k0 <> Call_IRQHandler ->
       Errors (hdma c') =
         if arms k0 r then DMA_ERROR_NONE
         else if poll_failed k0 r then grown else errors) /\
    (k0 = Call_IRQHandler ->
       let callback cb s := snd (XPD_SAFE_CALLBACK user cb s) in
       let c1 :=
         if flag_set HT c
         then callback (HalfComplete (Callbacks (hdma c))) (pre_callback HT c)
         else c in
       let c2 :=
         if flag_set TC c1
         then callback (Complete (Callbacks (hdma c1))) (pre_callback TC c1)
         else c1 in
       let error_seen := USE_XPD_DMA_ERROR_DETECT && flag_set TE c2 in
       c' = (if error_seen
             then callback (Error (Callbacks (hdma c2))) (error_recorded c2)
             else c2) /\
       (forall f s, Errors (hdma (pre_callback f s)) = Errors (hdma s)) /\
       Errors (hdma (error_recorded c2)) =
         Z.lor (Errors (hdma c2)) DMA_ERROR_TRANSFER /\
       (callbacks_keep_Errors user ->
          Errors (hdma c') = if error_seen then grown else errors) /\
       (callback_frame user ->
          Errors (hdma c') =
            if USE_XPD_DMA_ERROR_DETECT && flag_set TE c
            then grown else errors)) /\
    (callbacks_keep_Errors user -> arms k0 r = false ->
       Z.lor errors (Errors (hdma c')) = Errors (hdma c')) /\
    (k0 = Call_GetError -> r = Ret_error errors /\ c' = c)).
  { intros k0 He Ha Hp Hg Hi. rewrite Ha, Hp.
    split; [ intros _; exact He | ].
    split; [ intros; contradiction | ].
    split; [ intros _ _; apply Hgrow; now left | intros; contradiction ]. }
  destruct k; unfold call, void, status, status_opt in H.
  - (* Init *)
    rewrite XPD_DMA_Init_run in H. injection H as <- <-.
    apply Hsame; [ reflexivity | reflexivity | reflexivity | discriminate
                 | discriminate ].
  - (* Deinit *)
    rewrite XPD_DMA_Deinit_run in H. injection H as <- <-.
    apply Hsame; [ reflexivity | reflexivity | reflexivity | discriminate
                 | discriminate ].
  - (* Enable *)
    injection H as <- <-.
    apply Hsame; [ | reflexivity | reflexivity | discriminate | discriminate ].
    apply (f_equal Errors (hdma_modify_CCR _ c)).
  - (* Disable *)
    injection H as <- <-.
    apply Hsame; [ | reflexivity | reflexivity | discriminate | discriminate ].
    apply (f_equal Errors (hdma_modify_CCR _ c)).
  - (* SetDirection *)
    injection H as <- <-.
    apply Hsame; [ | reflexivity | reflexivity | discriminate | discriminate ].
    apply (f_equal Errors (hdma_modify_CCR _ c)).
  - (* Start *)
    rewrite XPD_DMA_Start_cases in H.
    destruct (negb (PeriphAddress =? CPAR (Inst_regs c))
              && XPD_ReturnType_eqb (fst (XPD_DMA_GetStatus c)) XPD_BUSY);
      injection H as <- <-; cbn [arms poll_failed fst snd].
    + split; [ reflexivity | ]. split; [ discriminate | ].
      split; [ intros _ _; apply Hgrow; now left | discriminate ].
    + split; [ reflexivity | ]. split; [ discriminate | ].
      split; [ discriminate | discriminate ].
  - (* Start_IT *)
    injection H as <- <-.
    destruct (XPD_DMA_Start_IT_outcome USE_XPD_DMA_ERROR_DETECT
                PeriphAddress DataStream c)
      as [[-> He] | [-> ->]]; cbn [arms poll_failed].
    + split; [ intros _; exact He | ]. split; [ discriminate | ].
      split; [ discriminate | discriminate ].
    + split; [ reflexivity | ]. split; [ discriminate | ].
      split; [ intros _ _; apply Hgrow; now left | discriminate ].
  - (* Stop *)
    destruct (XPD_DMA_Stop XPD_NO_TIMEOUT hw fuel c) as [[s c1]|] eqn:E;
      [ | discriminate ].
    injection H as <- <-. apply hdma_XPD_DMA_Stop in E.
    apply Hsame; [ now rewrite E | reflexivity | reflexivity | discriminate
                 | discriminate ].
  - (* Stop_IT *)
    injection H as <- <-.
    apply Hsame; [ | reflexivity | reflexivity | discriminate | discriminate ].
    unfold XPD_DMA_Stop_IT. steps. reflexivity.
  - (* GetStatus *)
    rewrite GetStatus_unfold in H. injection H as <- <-.
    apply Hsame; [ reflexivity | reflexivity | reflexivity | discriminate
                 | discriminate ].
  - (* PollStatus *)
    destruct (XPD_DMA_PollStatus XPD_NO_TIMEOUT hw fuel Operation Timeout c)
      as [[s c1]|] eqn:E; [ | discriminate ].
    injection H as <- <-. apply Errors_PollStatus_exact in E.
    cbn [arms poll_failed].
    assert (Hp : Errors (hdma c1) =
                 if match s with XPD_ERROR => true | _ => false end
                 then grown else errors)
      by (rewrite E; now destruct s).
    split; [ intros _; exact Hp | ]. split; [ discriminate | ].
    split; [ | discriminate ].
    intros _ _. apply Hgrow. rewrite Hp. destruct s; auto.
  - (* GetError *)
    injection H as <- <-. cbn [arms poll_failed].
    split; [ reflexivity | ]. split; [ discriminate | ].
    split; [ intros _ _; apply Hgrow; now left | ]. intros _. now split.
  - (* IRQHandler *)
    injection H as <- <-. cbn [arms].
    split; [ intros Hne; now contradiction Hne | ].
    pose proof (XPD_DMA_IRQHandler_run USE_XPD_DMA_ERROR_DETECT user c)
      as Hrun.
    pose proof (Errors_IRQHandler_cases USE_XPD_DMA_ERROR_DETECT user c)
      as Hcases.
    cbv zeta in Hrun, Hcases.
    assert (Hkept : callbacks_keep_Errors user ->
              ~ exists fn s, Errors (hdma (user fn s)) <> Errors (hdma s)).
    { intros Hkeep (fn & s & Hne). apply Hne, Hkeep. }
    split.
    { intros _. cbv zeta.
      split; [ now rewrite Hrun | ].
      split; [ apply Errors_pre_callback | ].
      split; [ reflexivity | ].
      split.
      { intros Hkeep. destruct Hcases as [He | He]; [ exact He | ].
        now apply Hkept in He. }
      intros Hframe.
      apply (XPD_DMA_IRQHandler_Errors USE_XPD_DMA_ERROR_DETECT user Hframe). }
    split; [ | discriminate ].
    intros Hkeep _. destruct Hcases as [He | He]; [ | now apply Hkept in He ].
    apply Hgrow. rewrite He.
    match goal with |- context [if ?b then _ else _] => destruct b end; auto.
Qed.


(** * Further properties of the DMA driver *)

(** ** Enable, Disable and SetDirection *)

Lemma with_CCR_twice a b c : with_CCR a (with_CCR b c) = with_CCR a c.
Proof.
  unfold with_CCR. rewrite Inst_regs_set_Inst_regs. cbn [CNDTR CPAR CMAR].
  apply set_Inst_regs_twice.
Qed.

Lemma Inst_regs_with_CCR a c :
  Inst_regs (with_CCR a c) =
    mkChannel a (CNDTR (Inst_regs c)) (CPAR (Inst_regs c)) (CMAR (Inst_regs c)).
Proof. unfold with_CCR. apply Inst_regs_set_Inst_regs. Qed.

Lemma disabled_with_CCR c :
  disabled c = with_CCR (CLEAR_BIT (CCR (Inst_regs c)) DMA_CCR_EN) c.
Proof. reflexivity. Qed.

Lemma DMA_REG_BIT_assign_run f v c :
  DMA_REG_BIT_assign f v c =
    (tt, with_CCR (write_field (CCR_pos f) (CCR_width f) v (CCR (Inst_regs c))) c).
Proof. steps. unfold with_CCR. simpl_state. reflexivity. Qed.

Lemma XPD_DMA_Enable_run c :
  XPD_DMA_Enable c = (tt, with_CCR (SET_BIT (CCR (Inst_regs c)) DMA_CCR_EN) c).
Proof.
  unfold XPD_DMA_Enable. rewrite DMA_REG_BIT_assign_run.
  change (CCR_pos EN) with 0. change (CCR_width EN) with 1.
  now rewrite write_EN_1.
Qed.

Lemma CLEAR_SET_BIT_same reg m : CLEAR_BIT (SET_BIT reg m) m = CLEAR_BIT reg m.
Proof.
  unfold CLEAR_BIT, SET_BIT. apply Z.bits_inj'; intros i Hi.
  rewrite !Z.land_spec, Z.lor_spec, Z.lnot_spec by lia.
  now destruct (Z.testbit reg i), (Z.testbit m i).
Qed.

Lemma SET_CLEAR_BIT_same reg m : SET_BIT (CLEAR_BIT reg m) m = SET_BIT reg m.
Proof.
  unfold CLEAR_BIT, SET_BIT. apply Z.bits_inj'; intros i Hi.
  rewrite !Z.lor_spec, Z.land_spec, Z.lnot_spec by lia.
  now destruct (Z.testbit reg i), (Z.testbit m i).
Qed.

Lemma read_EN_SET reg : read_field 0 1 (SET_BIT reg DMA_CCR_EN) = 1.
Proof.
  rewrite read_field_bit by lia. unfold SET_BIT, DMA_CCR_EN.
  rewrite Z.lor_spec. change (Z.testbit 1 0) with true.
  now rewrite orb_true_r.
Qed.

Lemma read_EN_CLEAR reg : read_field 0 1 (CLEAR_BIT reg DMA_CCR_EN) = 0.
Proof.
  rewrite read_field_bit by lia. unfold CLEAR_BIT, DMA_CCR_EN.
  rewrite Z.land_spec, Z.lnot_spec by lia. change (Z.testbit 1 0) with true.
  now rewrite andb_false_r.
Qed.

(** A channel that XPD_DMA_GetStatus reports idle accepts every Start. *)
Lemma Start_when_idle P D c :
  fst (XPD_DMA_GetStatus c) = XPD_OK ->
  XPD_DMA_Start P D c = (XPD_OK, armed P D c).
Proof.
  intros Hidle. rewrite XPD_DMA_Start_cases, Hidle. cbn [XPD_ReturnType_eqb].
  now rewrite andb_false_r.
Qed.

(** X1. XPD_DMA_Enable sets the enable bit of the control register and
    XPD_DMA_Disable clears it; neither changes anything else.  Right after
    Enable, XPD_DMA_GetStatus reports BUSY exactly when CNDTR holds a
    positive count; right after Disable it reports OK whatever CNDTR
    holds, so that every Start is accepted.  Disable undoes Enable and
    Enable undoes Disable, up to the enable bit itself. *)
Theorem XPD_DMA_Enable_Disable_GetStatus (c : Ctx) :
  let ce := snd (XPD_DMA_Enable c) in
  let cd := snd (XPD_DMA_Disable c) in
  ce = with_CCR (SET_BIT (CCR (Inst_regs c)) DMA_CCR_EN) c /\
  cd = with_CCR (CLEAR_BIT (CCR (Inst_regs c)) DMA_CCR_EN) c /\
  fst (XPD_DMA_GetStatus ce) =
    (if CNDTR (Inst_regs c) >? 0 then XPD_BUSY else XPD_OK) /\
  fst (XPD_DMA_GetStatus cd) = XPD_OK /\
  (forall P D, XPD_DMA_Start P D cd = (XPD_OK, armed P D cd)) /\
  snd (XPD_DMA_Disable ce) = cd /\
  snd (XPD_DMA_Enable cd) = ce.
Proof.
  intros ce cd. subst ce cd.
  rewrite !XPD_DMA_Enable_run, !XPD_DMA_Disable_run. cbn [snd].
  rewrite !disabled_with_CCR.
  assert (Hidle : fst (XPD_DMA_GetStatus
            (with_CCR (CLEAR_BIT (CCR (Inst_regs c)) DMA_CCR_EN) c)) = XPD_OK).
  { rewrite GetStatus_unfold. cbn [fst]. rewrite Inst_regs_with_CCR.
    cbn [CCR]. now rewrite read_EN_CLEAR. }
  split; [ reflexivity | ]. split; [ reflexivity | ]. split.
  { rewrite GetStatus_unfold. cbn [fst]. rewrite Inst_regs_with_CCR.
    cbn [CCR CNDTR]. now rewrite read_EN_SET. }
  split; [ exact Hidle | ].
  split; [ intros P D; now apply Start_when_idle | ].
  rewrite !Inst_regs_with_CCR. cbn [CCR]. rewrite !with_CCR_twice.
  now rewrite CLEAR_SET_BIT_same, SET_CLEAR_BIT_same.
Qed.

(** X2. XPD_DMA_SetDirection stores the lowest bit of its argument in the
    DIR bit of the control register and changes no other bit and no other
    register.  So the third direction, memory to memory (2), cannot be
    selected with it: DIR is cleared and the MEM2MEM bit, which
    XPD_DMA_Init derives from the direction, stays as it was. *)
Theorem XPD_DMA_SetDirection_spec (Direction : Z) (c : Ctx) :
  let c' := snd (XPD_DMA_SetDirection Direction c) in
  c' = with_CCR (CCR (Inst_regs c')) c /\
  (forall i, Z.testbit (CCR (Inst_regs c')) i =
             if i =? CCR_pos DIR then Z.odd Direction
             else Z.testbit (CCR (Inst_regs c)) i) /\
  read_field (CCR_pos DIR) 1 (CCR (Inst_regs c')) = Direction mod 2 /\
  read_field (CCR_pos MEM2MEM) 1 (CCR (Inst_regs c')) =
    read_field (CCR_pos MEM2MEM) 1 (CCR (Inst_regs c)).
Proof.
  intros c'. subst c'. unfold XPD_DMA_SetDirection.
  rewrite DMA_REG_BIT_assign_run. cbn [snd].
  rewrite Inst_regs_with_CCR. cbn [CCR].
  change (CCR_pos DIR) with 4. change (CCR_width DIR) with 1.
  change (CCR_pos MEM2MEM) with 14.
  split; [ reflexivity | ]. split; [ | split ].
  - intros i. destruct (Z.ltb_spec i 0) as [Hneg | Hi].
    + rewrite !Z.testbit_neg_r by lia.
      now replace (i =? 4) with false by lia.
    + rewrite testbit_write_field by lia.
      destruct (Z.eqb_spec i 4) as [-> | Hne].
      * cbn. apply Z.bit0_odd.
      * now replace ((4 <=? i) && (i <? 4 + 1)) with false by lia.
  - rewrite read_write_field_same by lia.
    rewrite Z.land_ones by lia. reflexivity.
  - apply read_write_field_other; lia.
Qed.

(** ** Init and Deinit *)

Lemma land_ones_small v w : 0 <= w -> 0 <= v < 2 ^ w -> Z.land v (Z.ones w) = v.
Proof. intros Hw Hv. rewrite Z.land_ones by lia. now apply Z.mod_small. Qed.

Ltac read_configured :=
  unfold configured_CCR;
  cbn [CCR_pos CCR_width];
  repeat rewrite read_write_field_other by lia;
  rewrite read_write_field_same by lia.

Lemma testbit_configured_CCR cfg ccr i :
  i < 4 \/ 15 <= i ->
  Z.testbit (configured_CCR cfg ccr) i = Z.testbit ccr i.
Proof.
  intros Hi. destruct (Z.ltb_spec i 0) as [Hneg | Hnn].
  - now rewrite !Z.testbit_neg_r by lia.
  - unfold configured_CCR. cbn [CCR_pos CCR_width].
    repeat (rewrite testbit_write_field by lia;
            match goal with
            | |- context [if ?b then _ else _] =>
                replace b with false by lia
            end).
    reflexivity.
Qed.

(** X3. After XPD_DMA_Init with a configuration whose fields hold
    enumerators, in any combination (a circular memory-to-memory transfer
    included), each field of the control register reads back the value
    of the configuration: priority, direction (its low bit in DIR, its high
    bit in MEM2MEM), mode, and increment and data alignment of both ends.
    The enable bit, the three interrupt-enable bits and the bits above the
    fields are as before, so Init neither stops a running channel nor
    touches its interrupt sources; CNDTR and CPAR are zero, CMAR, the error
    state and the callbacks are untouched. *)
Theorem XPD_DMA_Init_configures (DMA2 : option Z) (cfg : DMA_InitType)
    (c : Ctx) :
  DMA_InitType_enumerators cfg = true ->
  let c' := snd (XPD_DMA_Init DMA2 cfg c) in
  let ccr' := CCR (Inst_regs c') in
  read_field (CCR_pos PL) (CCR_width PL) ccr' = Priority cfg /\
  read_field (CCR_pos DIR) (CCR_width DIR) ccr' = Direction cfg mod 2 /\
  read_field (CCR_pos MEM2MEM) (CCR_width MEM2MEM) ccr' = Direction cfg / 2 /\
  read_field (CCR_pos CIRC) (CCR_width CIRC) ccr' = Mode cfg /\
  read_field (CCR_pos PINC) (CCR_width PINC) ccr' = Increment (Peripheral cfg) /\
  read_field (CCR_pos PSIZE) (CCR_width PSIZE) ccr' =
    DataAlignment (Peripheral cfg) /\
  read_field (CCR_pos MINC) (CCR_width MINC) ccr' = Increment (Memory cfg) /\
  read_field (CCR_pos MSIZE) (CCR_width MSIZE) ccr' =
    DataAlignment (Memory cfg) /\
  (forall i, i < 4 \/ 15 <= i ->
     Z.testbit ccr' i = Z.testbit (CCR (Inst_regs c)) i) /\
  CNDTR (Inst_regs c') = 0 /\
  CPAR (Inst_regs c') = 0 /\
  CMAR (Inst_regs c') = CMAR (Inst_regs c) /\
  Inst (hdma c') = Inst (hdma c) /\
  Errors (hdma c') = Errors (hdma c) /\
  Callbacks (hdma c') = Callbacks (hdma c).
Proof.
  intros Hvalid c' ccr'. subst ccr' c'. rewrite XPD_DMA_Init_run. cbn [snd].
  unfold DMA_InitType_enumerators in Hvalid.
  repeat (apply andb_true_iff in Hvalid; destruct Hvalid as [Hvalid ?]).
  unfold initialised, Inst_regs.
  cbn [hdma world chan_regs Inst Errors Callbacks].
  rewrite lookup_total_insert_eq. cbn [CCR CNDTR CPAR CMAR].
  set (ccr := CCR (chan_regs (world c) !!! Inst (hdma c))).
  repeat match goal with |- _ /\ _ => split end;
    try reflexivity;
    try (read_configured; apply land_ones_small; lia).
  - read_configured. rewrite Z.land_ones by lia. reflexivity.
  - read_configured. rewrite Z.shiftr_div_pow2 by lia.
    apply land_ones_small; [ lia | ]. change (2 ^ 1) with 2.
    assert (0 <= Direction cfg / 2 <= 1); [ | lia ].
    split; [ apply Z.div_pos; lia | ].
    apply Z.div_le_upper_bound; lia.
  - intros i Hi. now apply testbit_configured_CCR.
Qed.

Lemma DMA_BASE_split inst :
  uint32 inst -> DMA_BASE inst = inst - Z.land inst 0xFF.
Proof.
  intros [Hlo Hhi]. unfold DMA_BASE.
  change 0xFF with (Z.ones 8). rewrite (Z.land_ones inst 8) by lia.
  assert (E : Z.land inst 0xFFFFFF00 = Z.shiftl (Z.shiftr inst 8) 8).
  { apply Z.bits_inj'; intros i Hi.
    rewrite Z.land_spec.
    change 0xFFFFFF00 with (Z.shiftl (Z.ones 24) 8).
    destruct (Z.ltb_spec i 8) as [Hlt | Hge].
    - rewrite !Z.shiftl_spec_low by lia. apply andb_false_r.
    - rewrite !Z.shiftl_spec by lia. rewrite Z.shiftr_spec by lia.
      replace (i - 8 + 8) with i by lia.
      rewrite Z.testbit_ones by lia.
      destruct (Z.ltb_spec (i - 8) 24) as [Hin | Hout].
      + replace (0 <=? i - 8) with true by lia. apply andb_true_r.
      + rewrite !andb_false_r. symmetry.
        destruct (Z.eq_dec inst 0) as [-> | Hne]; [ apply Z.bits_0 | ].
        apply Z.bits_above_log2; [ lia | ].
        apply Z.log2_lt_pow2; [ lia | ].
        apply Z.lt_le_trans with (2 ^ 32); [ lia | ].
        apply Z.pow_le_mono_r; lia. }
  rewrite E, Z.shiftl_mul_pow2, Z.shiftr_div_pow2 by lia.
  pose proof (Z.div_mod inst (2 ^ 8) ltac:(lia)). lia.
Qed.

(** X4. For the register block of channel n + 1 of a controller, which
    lies 8 + 20 n bytes above the controller's 256-byte aligned base,
    XPD_DMA_Init (through dma_calcBase) caches on the handle the address of
    the controller and the offset 4 n of the channel's flags: the channel
    address is recovered from the two, and the mask of each flag of the
    channel is the single bit 4 n + 1 (transfer complete), 4 n + 2 (half
    transfer) or 4 n + 3 (transfer error) of the status register. *)
Theorem XPD_DMA_Init_addressing (DMA2 : option Z) (cfg : DMA_InitType)
    (c : Ctx) (n : Z) :
  uint32 (Inst (hdma c)) ->
  0 <= n < 7 ->
  Z.land (Inst (hdma c)) 0xFF = 8 + 20 * n ->
  let c' := snd (XPD_DMA_Init DMA2 cfg c) in
  Base (hdma c') = Inst (hdma c) - (8 + 20 * n) /\
  ChannelOffset (hdma c') = 4 * n /\
  Base (hdma c') + 8 + 20 * (ChannelOffset (hdma c') / 4) = Inst (hdma c) /\
  hdma (snd (dma_calcBase c)) = hdma c' /\
  forall f, DMA_flag_mask f c' = 2 ^ (4 * n + DMA_flag_pos f).
Proof.
  intros Hu Hn Hlow c'. subst c'. rewrite XPD_DMA_Init_run. cbn [snd].
  unfold initialised. cbn [hdma Base ChannelOffset].
  rewrite DMA_BASE_split by assumption. rewrite Hlow.
  assert (Hnum : DMA_CHANNEL_NUMBER (Inst (hdma c)) = n).
  { unfold DMA_CHANNEL_NUMBER. rewrite Hlow.
    replace (8 + 20 * n - 8) with (n * 20) by lia.
    rewrite Z.mod_small by lia. apply Z.div_mul. lia. }
  rewrite Hnum.
  replace (n * 4 / 4) with n by (rewrite Z.div_mul; lia).
  split; [ reflexivity | ]. split; [ lia | ]. split; [ lia | ]. split.
  - unfold dma_calcBase. steps. cbn [snd].
    rewrite DMA_BASE_split by assumption. now rewrite Hlow, Hnum.
  - intros f. unfold DMA_flag_mask. cbn [hdma ChannelOffset].
    rewrite Z.shiftl_mul_pow2 by lia.
    replace (4 * n + DMA_flag_pos f) with (DMA_flag_pos f + n * 4) by lia.
    rewrite Z.pow_add_r by (destruct f; cbn; lia).
    now destruct f.
Qed.

Lemma list_insert_same {A : Type} `{Inhabited A} (l : list A) (i : nat) :
  (i < List.length l)%nat -> <[i := l !!! i]> l = l.
Proof.
  intros Hi. apply list_insert_id. now apply list_lookup_lookup_total_lt.
Qed.

(** X5. The table of clock users holds one bit per channel, not a count:
    initialising a channel a second time changes neither the table nor
    the clock gates, and one XPD_DMA_Deinit releases a channel however
    often it was initialised.  When the channel did not hold the clock
    before, Init, Init, Deinit leaves both tables exactly as they were;
    when nobody held the clock of the controller, the clock is off again
    afterwards. *)
Theorem XPD_DMA_Init_twice_Deinit_once (DMA2 : option Z)
    (cfg1 cfg2 : DMA_InitType) (c : Ctx) :
  clock_inv DMA2 (world c) ->
  is_channel (Inst (hdma c)) ->
  let bo := DMA_BASE_OFFSET DMA2 (Inst (hdma c)) in
  let c1 := snd (XPD_DMA_Init DMA2 cfg1 c) in
  let c2 := snd (XPD_DMA_Init DMA2 cfg2 c1) in
  let c3 := snd (XPD_DMA_Deinit DMA2 c2) in
  dma_users (world c2) = dma_users (world c1) /\
  dma_clock (world c2) = dma_clock (world c1) /\
  Z.testbit (dma_users (world c3) !!! bo)
            (DMA_CHANNEL_NUMBER (Inst (hdma c))) = false /\
  (Z.testbit (dma_users (world c) !!! bo)
             (DMA_CHANNEL_NUMBER (Inst (hdma c))) = false ->
     dma_users (world c3) = dma_users (world c) /\
     dma_clock (world c3) = dma_clock (world c)) /\
  (dma_users (world c) !!! bo = 0 -> dma_clock (world c3) !!! bo = false).
Proof.
  intros (Hlu & Hlc & Hinv) Hch bo c1 c2 c3. subst c3 c2 c1.
  rewrite !XPD_DMA_Init_run, !XPD_DMA_Deinit_run.
  unfold initialised, deinitialised.
  cbn beta zeta iota delta [snd world hdma Inst dma_users dma_clock].
  fold bo.
  pose proof (DMA_BASE_OFFSET_lt DMA2 (Inst (hdma c))) as Hlt. fold bo in Hlt.
  pose proof (DMA_CHANNEL_NUMBER_channel _ Hch) as Hn.
  destruct (Hinv bo Hlt) as [Hrange Hclk].
  set (n := DMA_CHANNEL_NUMBER (Inst (hdma c))) in *.
  set (u := dma_users (world c) !!! bo) in *.
  rewrite !list_insert_insert_eq.
  rewrite !list_lookup_total_insert_eq by (rewrite ?length_insert; lia).
  set (u1 := SET_BIT u (Z.shiftl 1 n) mod 2 ^ 8).
  assert (Hu2 : SET_BIT u1 (Z.shiftl 1 n) mod 2 ^ 8 = u1).
  { apply Z.bits_inj'; intros i Hi. subst u1. unfold SET_BIT.
    rewrite testbit_mod8, Z.lor_spec by lia.
    rewrite testbit_mod8, Z.lor_spec by lia.
    rewrite !testbit_shiftl_1 by lia.
    now destruct (i <? 8), (Z.testbit u i), (n =? i). }
  rewrite Hu2.
  set (u3 := CLEAR_BIT u1 (Z.shiftl 1 n) mod 2 ^ 8).
  assert (Hbits : forall i, 0 <= i ->
            Z.testbit u3 i = Z.testbit u i && negb (n =? i)).
  { intros i Hi. subst u3 u1. unfold CLEAR_BIT, SET_BIT.
    rewrite testbit_mod8, Z.land_spec, Z.lnot_spec by lia.
    rewrite testbit_mod8, Z.lor_spec by lia.
    rewrite !testbit_shiftl_1 by lia.
    destruct (Z.ltb_spec i 8) as [Hlo | Hhi]; cbn [andb].
    - now destruct (Z.testbit u i), (n =? i).
    - replace (Z.testbit u i) with false; [ reflexivity | ].
      symmetry. destruct (Z.eq_dec u 0) as [-> | Hne]; [ apply Z.bits_0 | ].
      apply Z.bits_above_log2; [ lia | ].
      apply Z.log2_lt_pow2; [ lia | ].
      apply Z.lt_le_trans with (2 ^ 8); [ lia | ].
      apply Z.pow_le_mono_r; lia. }
  split; [ reflexivity | ]. split; [ reflexivity | ]. split; [ | split ].
  - rewrite Hbits by lia. rewrite Z.eqb_refl. apply andb_false_r.
  - intros Hbit.
    assert (Hu3 : u3 = u).
    { apply Z.bits_inj'; intros i Hi. rewrite Hbits by lia.
      destruct (Z.eqb_spec n i) as [<- | Hne]; cbn [negb].
      - now rewrite Hbit.
      - apply andb_true_r. }
    rewrite Hu3. split.
    + subst u. apply list_insert_same. lia.
    + destruct (Z.eqb_spec u 0) as [Hz | Hnz].
      * replace false with (dma_clock (world c) !!! bo).
        -- apply list_insert_same. lia.
        -- destruct (dma_clock (world c) !!! bo); [ | reflexivity ].
           exfalso. now apply Hclk.
      * replace true with (dma_clock (world c) !!! bo).
        -- apply list_insert_same. lia.
        -- now apply Hclk.
  - intros Hu0.
    assert (Hu3 : u3 = 0).
    { apply Z.bits_inj'; intros i Hi. rewrite Hbits by lia.
      now rewrite Hu0, Z.bits_0. }
    rewrite Hu3. change (0 =? 0) with true. cbn iota.
    now rewrite list_lookup_total_insert_eq by (rewrite ?length_insert; lia).
Qed.

Lemma CLEAR_BIT_lor reg m m' :
  CLEAR_BIT (CLEAR_BIT reg m) m' = CLEAR_BIT reg (Z.lor m m').
Proof.
  unfold CLEAR_BIT. apply Z.bits_inj'; intros i Hi.
  rewrite !Z.land_spec, !Z.lnot_spec, Z.lor_spec by lia.
  now destruct (Z.testbit reg i), (Z.testbit m i), (Z.testbit m' i).
Qed.

Lemma READ_CLEAR_BIT_sub reg m m' :
  Z.land m' m = m' -> READ_BIT (CLEAR_BIT reg m) m' = 0.
Proof.
  intros Hsub. unfold READ_BIT, CLEAR_BIT. apply Z.bits_inj'; intros i Hi.
  rewrite !Z.land_spec, Z.lnot_spec, Z.bits_0 by lia.
  assert (Hb : Z.testbit (Z.land m' m) i = Z.testbit m' i) by now rewrite Hsub.
  rewrite Z.land_spec in Hb.
  destruct (Z.testbit reg i), (Z.testbit m i), (Z.testbit m' i);
    cbn in *; congruence.
Qed.

Lemma DMA_flag_mask_sub f c :
  Z.land (DMA_flag_mask f c) (DMA_flags_mask c) = DMA_flag_mask f c.
Proof.
  unfold DMA_flag_mask, DMA_flags_mask. rewrite <- Z.shiftl_land.
  now destruct f.
Qed.

(** X6. XPD_DMA_Deinit returns OK and leaves the four registers of the
    channel zero and the three flags of the channel clear; in the status
    register exactly the bits of these three flags are cleared, the flags
    of the other channels stay.  The handle is untouched: the error state
    that was accumulated survives.  Afterwards XPD_DMA_GetStatus reports
    OK and every Start is accepted. *)
Theorem XPD_DMA_Deinit_resets (DMA2 : option Z) (c : Ctx) :
  let c' := snd (XPD_DMA_Deinit DMA2 c) in
  fst (XPD_DMA_Deinit DMA2 c) = XPD_OK /\
  Inst_regs c' = mkChannel 0 0 0 0 /\
  hdma c' = hdma c /\
  ISR (Base_regs c') = CLEAR_BIT (ISR (Base_regs c)) (DMA_flags_mask c) /\
  (forall f, flag_set f c' = false) /\
  fst (XPD_DMA_GetStatus c') = XPD_OK /\
  (forall P D, XPD_DMA_Start P D c' = (XPD_OK, armed P D c')).
Proof.
  intros c'. subst c'. rewrite XPD_DMA_Deinit_run. cbn [fst snd].
  assert (Hisr : ISR (Base_regs (deinitialised DMA2 c)) =
                 CLEAR_BIT (ISR (Base_regs c)) (DMA_flags_mask c)).
  { unfold deinitialised, Base_regs at 1.
    cbn beta zeta iota delta [hdma world dma_regs].
    rewrite lookup_total_insert_eq. cbn [ISR].
    rewrite !CLEAR_BIT_lor. unfold DMA_flag_mask, DMA_flags_mask.
    now rewrite <- !Z.shiftl_lor. }
  assert (Hidle : fst (XPD_DMA_GetStatus (deinitialised DMA2 c)) = XPD_OK).
  { rewrite GetStatus_unfold. cbn [fst].
    unfold deinitialised, Inst_regs.
    cbn beta zeta iota delta [hdma world chan_regs].
    rewrite lookup_total_insert_eq. reflexivity. }
  split; [ reflexivity | ].
  split; [ | split; [ | split; [ | split; [ | split ] ] ] ].
  - unfold deinitialised, Inst_regs.
    cbn beta zeta iota delta [hdma world chan_regs].
    apply lookup_total_insert_eq.
  - reflexivity.
  - exact Hisr.
  - intros f. rewrite flag_set_eq, Hisr.
    rewrite (DMA_flag_mask_hdma f c (deinitialised DMA2 c)) by reflexivity.
    rewrite READ_CLEAR_BIT_sub by apply DMA_flag_mask_sub. reflexivity.
  - exact Hidle.
  - intros P D. now apply Start_when_idle.
Qed.

(** ** Start_IT, Stop_IT and Start *)

Lemma Inst_regs_armed P D c :
  Inst_regs (armed P D c) =
    mkChannel (SET_BIT (CCR (Inst_regs c)) DMA_CCR_EN) (length D) P (buffer D).
Proof. unfold armed. simpl_state. reflexivity. Qed.

Lemma testbit_DMA_IT_sources USE i :
  Z.testbit (DMA_IT_sources USE) i = (i =? 1) || (i =? 2) || (USE && (i =? 3)).
Proof.
  destruct (Z.ltb_spec i 0) as [Hneg | Hnn].
  - rewrite Z.testbit_neg_r by lia.
    replace (i =? 1) with false by lia. replace (i =? 2) with false by lia.
    replace (i =? 3) with false by lia. now rewrite andb_false_r.
  - destruct (Z.ltb_spec i 4) as [Hlt | Hge].
    + assert (Hc : i = 0 \/ i = 1 \/ i = 2 \/ i = 3) by lia.
      destruct Hc as [-> | [-> | [-> | ->]]]; now destruct USE.
    + replace (i =? 1) with false by lia. replace (i =? 2) with false by lia.
      replace (i =? 3) with false by lia. rewrite andb_false_r. cbn [orb].
      destruct USE;
        [ change (DMA_IT_sources true) with 14
        | change (DMA_IT_sources false) with 6 ];
        apply Z.bits_above_log2; cbn; lia.
Qed.

Lemma XPD_DMA_Start_IT_cases USE P D c :
  XPD_DMA_Start_IT USE P D c =
    if negb (P =? CPAR (Inst_regs c))
       && XPD_ReturnType_eqb (fst (XPD_DMA_GetStatus c)) XPD_BUSY
    then (XPD_BUSY, c)
    else (XPD_OK,
          with_CCR (SET_BIT (SET_BIT (CCR (Inst_regs c)) DMA_CCR_EN)
                            (DMA_IT_sources USE))
                   (armed P D c)).
Proof.
  unfold XPD_DMA_Start_IT.
  pose proof (XPD_DMA_Start_cases P D c) as Hs.
  destruct (negb (P =? CPAR (Inst_regs c))
            && XPD_ReturnType_eqb (fst (XPD_DMA_GetStatus c)) XPD_BUSY);
    rewrite (bind_run _ _ c _ _ Hs); cbn [XPD_ReturnType_eqb].
  - steps. reflexivity.
  - steps. unfold with_CCR, armed. simpl_state. reflexivity.
Qed.

(** X7. XPD_DMA_Start_IT returns what XPD_DMA_Start returns.  When Start
    armed the channel, Start_IT then sets the transfer-complete and the
    half-transfer interrupt enable bits of the control register, and the
    transfer-error enable bit only in a build with error detection; the
    channel is enabled.  When Start refused with BUSY, Start_IT changes
    nothing: the interrupt sources stay as they were. *)
Theorem XPD_DMA_Start_IT_spec (USE_XPD_DMA_ERROR_DETECT : bool)
    (PeriphAddress : Z) (DataStream : DataStreamType) (c : Ctx) :
  let r := XPD_DMA_Start PeriphAddress DataStream c in
  let r' := XPD_DMA_Start_IT USE_XPD_DMA_ERROR_DETECT PeriphAddress
                             DataStream c in
  let started := XPD_ReturnType_eqb (fst r) XPD_OK in
  fst r' = fst r /\
  snd r' =
    (if started
     then with_CCR (SET_BIT (CCR (Inst_regs (snd r)))
                            (DMA_IT_sources USE_XPD_DMA_ERROR_DETECT))
                   (snd r)
     else c) /\
  reads_enabled (snd r') = (started || reads_enabled c) /\
  IE_enabled TC (snd r') = (started || IE_enabled TC c) /\
  IE_enabled HT (snd r') = (started || IE_enabled HT c) /\
  IE_enabled TE (snd r') =
    ((started && USE_XPD_DMA_ERROR_DETECT) || IE_enabled TE c).
Proof.
  intros r r' started. subst started r' r.
  rewrite XPD_DMA_Start_IT_cases, XPD_DMA_Start_cases.
  destruct (negb (PeriphAddress =? CPAR (Inst_regs c))
            && XPD_ReturnType_eqb (fst (XPD_DMA_GetStatus c)) XPD_BUSY);
    cbn [fst snd XPD_ReturnType_eqb orb andb].
  - repeat split.
  - rewrite Inst_regs_armed. cbn [CCR].
    split; [ reflexivity | ]. split; [ reflexivity | ].
    unfold reads_enabled, IE_enabled. rewrite Inst_regs_with_CCR. cbn [CCR].
    unfold READ_BIT, SET_BIT, DMA_CCR_EN.
    change (CCR_pos (CCR_IE TC)) with 1. change (CCR_pos (CCR_IE HT)) with 2.
    change (CCR_pos (CCR_IE TE)) with 3.
    rewrite !Z.lor_spec, !testbit_DMA_IT_sources.
    cbn [Z.eqb Pos.eqb orb andb]. rewrite !orb_true_r.
    repeat split.
    + assert (Hbit : Z.testbit
                (Z.land (Z.lor (Z.lor (CCR (Inst_regs c)) 1)
                               (DMA_IT_sources USE_XPD_DMA_ERROR_DETECT)) 1) 0
              = true).
      { rewrite Z.land_spec, !Z.lor_spec. cbn. now rewrite orb_true_r. }
      apply negb_true_iff. apply Z.eqb_neq. intros H0. rewrite H0 in Hbit.
      discriminate.
    + rewrite andb_true_r.
      now destruct (Z.testbit (CCR (Inst_regs c)) 3), USE_XPD_DMA_ERROR_DETECT.
Qed.

Lemma XPD_DMA_Stop_IT_run USE c :
  XPD_DMA_Stop_IT USE c =
    (tt, with_CCR (CLEAR_BIT (CLEAR_BIT (CCR (Inst_regs c)) DMA_CCR_EN)
                             (DMA_IT_sources USE)) c).
Proof.
  unfold XPD_DMA_Stop_IT. steps.
  change (CCR_pos EN) with 0. change (CCR_width EN) with 1.
  rewrite write_EN_0. unfold with_CCR. simpl_state. reflexivity.
Qed.

Lemma CLEAR_BIT_EN_sources USE ccr i :
  0 <= i ->
  Z.testbit (CLEAR_BIT (CLEAR_BIT ccr DMA_CCR_EN) (DMA_IT_sources USE)) i =
    Z.testbit ccr i
    && negb ((i =? 0) || (i =? 1) || (i =? 2) || (USE && (i =? 3))).
Proof.
  intros Hi. unfold CLEAR_BIT, DMA_CCR_EN.
  rewrite !Z.land_spec, !Z.lnot_spec, testbit_DMA_IT_sources by lia.
  replace (Z.testbit 1 i) with (i =? 0).
  - now destruct (Z.testbit ccr i), (i =? 0), (i =? 1), (i =? 2),
      (USE && (i =? 3)).
  - destruct (Z.eqb_spec i 0) as [-> | Hne]; [ reflexivity | ].
    symmetry. apply (Z.bits_above_log2 1 i); cbn; lia.
Qed.

(** X8. XPD_DMA_Stop_IT clears the enable bit and the transfer-complete
    and half-transfer interrupt enable bits of the control register, and
    the transfer-error enable bit only in a build with error detection;
    the bits above them and every other register are untouched.  It does
    not wait and does not acknowledge anything: a flag that is pending
    stays pending.  Afterwards XPD_DMA_GetStatus reports OK and every
    Start is accepted. *)
Theorem XPD_DMA_Stop_IT_spec (USE_XPD_DMA_ERROR_DETECT : bool) (c : Ctx) :
  let c' := snd (XPD_DMA_Stop_IT USE_XPD_DMA_ERROR_DETECT c) in
  c' = with_CCR (CCR (Inst_regs c')) c /\
  reads_enabled c' = false /\
  IE_enabled TC c' = false /\
  IE_enabled HT c' = false /\
  IE_enabled TE c' = (IE_enabled TE c && negb USE_XPD_DMA_ERROR_DETECT) /\
  Z.shiftr (CCR (Inst_regs c')) 4 = Z.shiftr (CCR (Inst_regs c)) 4 /\
  (forall f, flag_set f c' = flag_set f c) /\
  fst (XPD_DMA_GetStatus c') = XPD_OK /\
  (forall P D, XPD_DMA_Start P D c' = (XPD_OK, armed P D c')).
Proof.
  intros c'.
  assert (Hrun : c' = with_CCR
            (CLEAR_BIT (CLEAR_BIT (CCR (Inst_regs c)) DMA_CCR_EN)
                       (DMA_IT_sources USE_XPD_DMA_ERROR_DETECT)) c)
    by (subst c'; now rewrite XPD_DMA_Stop_IT_run).
  assert (Hccr : CCR (Inst_regs c') =
            CLEAR_BIT (CLEAR_BIT (CCR (Inst_regs c)) DMA_CCR_EN)
                      (DMA_IT_sources USE_XPD_DMA_ERROR_DETECT)).
  { rewrite Hrun, Inst_regs_with_CCR. reflexivity. }
  assert (Hen : read_field 0 1 (CCR (Inst_regs c')) = 0).
  { rewrite read_field_bit, Hccr, CLEAR_BIT_EN_sources by lia.
    cbn [Z.eqb orb negb]. now rewrite andb_false_r. }
  assert (Hidle : fst (XPD_DMA_GetStatus c') = XPD_OK).
  { rewrite GetStatus_unfold. cbn [fst]. now rewrite Hen. }
  split; [ now rewrite Hccr, Hrun at 1 | ].
  split; [ | split; [ | split; [ | split; [ | split; [ | split; [ | split ] ] ] ] ] ].
  - unfold reads_enabled. rewrite Hccr.
    apply negb_false_iff. apply Z.eqb_eq. apply Z.bits_inj'; intros i Hi.
    unfold READ_BIT, DMA_CCR_EN.
    rewrite Z.land_spec, CLEAR_BIT_EN_sources, Z.bits_0 by lia.
    destruct (Z.eqb_spec i 0) as [-> | Hne].
    + cbn [orb negb]. now rewrite andb_false_r.
    + replace (Z.testbit 1 i) with false; [ apply andb_false_r | ].
      symmetry. apply (Z.bits_above_log2 1 i); cbn; lia.
  - unfold IE_enabled. rewrite Hccr, CLEAR_BIT_EN_sources by (cbn; lia).
    cbn. now rewrite andb_false_r.
  - unfold IE_enabled. rewrite Hccr, CLEAR_BIT_EN_sources by (cbn; lia).
    cbn. now rewrite andb_false_r.
  - unfold IE_enabled. rewrite Hccr, CLEAR_BIT_EN_sources by (cbn; lia).
    cbn [CCR_IE CCR_pos Z.eqb Pos.eqb orb]. now rewrite andb_true_r.
  - rewrite Hccr. apply Z.bits_inj'; intros i Hi.
    rewrite !Z.shiftr_spec, CLEAR_BIT_EN_sources by lia.
    replace (i + 4 =? 0) with false by lia.
    replace (i + 4 =? 1) with false by lia.
    replace (i + 4 =? 2) with false by lia.
    replace (i + 4 =? 3) with false by lia.
    rewrite andb_false_r. cbn [orb negb]. apply andb_true_r.
  - intros f. now rewrite Hrun.
  - exact Hidle.
  - intros P D. now apply Start_when_idle.
Qed.

(** X9. A transfer that was started holds the channel for its peripheral.
    After XPD_DMA_Start returned OK for a stream of positive length,
    XPD_DMA_GetStatus reports BUSY and a Start for another peripheral
    address is refused with BUSY and changes nothing, while a Start for
    the same peripheral address is accepted again.  A stream of length
    zero does not hold the channel: GetStatus reports OK and the Start of
    the other peripheral is accepted. *)
Theorem XPD_DMA_Start_holds_channel (P P' : Z) (D D' : DataStreamType)
    (c : Ctx) :
  fst (XPD_DMA_Start P D c) = XPD_OK ->
  P' <> P ->
  let c1 := snd (XPD_DMA_Start P D c) in
  fst (XPD_DMA_GetStatus c1) = (if length D >? 0 then XPD_BUSY else XPD_OK) /\
  XPD_DMA_Start P' D' c1 =
    (if length D >? 0 then (XPD_BUSY, c1) else (XPD_OK, armed P' D' c1)) /\
  XPD_DMA_Start P D' c1 = (XPD_OK, armed P D' c1).
Proof.
  intros Hok Hne c1.
  assert (Hc1 : c1 = armed P D c).
  { subst c1. rewrite XPD_DMA_Start_cases in *.
    destruct (negb (P =? CPAR (Inst_regs c))
              && XPD_ReturnType_eqb (fst (XPD_DMA_GetStatus c)) XPD_BUSY);
      [ discriminate | reflexivity ]. }
  clearbody c1. subst c1.
  assert (Hst : fst (XPD_DMA_GetStatus (armed P D c)) =
                (if length D >? 0 then XPD_BUSY else XPD_OK)).
  { rewrite GetStatus_unfold. cbn [fst]. rewrite Inst_regs_armed.
    cbn [CCR CNDTR]. rewrite read_EN_SET.
    change (negb (1 =? 0)) with true. reflexivity. }
  split; [ exact Hst | ].
  rewrite !XPD_DMA_Start_cases, Hst, Inst_regs_armed. cbn [CPAR].
  replace (P' =? P) with false by lia. rewrite Z.eqb_refl.
  cbn [negb andb]. split; [ | reflexivity ].
  now destruct (length D >? 0).
Qed.

(** ** The interrupt handler *)

Lemma IRQHandler_no_flags USE user c :
  flag_set HT c = false ->
  flag_set TC c = false ->
  USE && flag_set TE c = false ->
  XPD_DMA_IRQHandler USE user c = (tt, c).
Proof.
  intros Hht Htc Hte. rewrite IRQHandler_parts.
  rewrite (bind_run _ _ c tt c) by now rewrite sub_handler_run, Hht.
  rewrite (bind_run _ _ c tt c) by now rewrite sub_handler_run, Htc.
  rewrite run_when. destruct USE; [ | reflexivity ].
  cbn [andb] in Hte. now rewrite error_handler_run, Hte.
Qed.

(** X10. A spurious interrupt is harmless: when neither the half-transfer
    nor the transfer-complete flag of the channel is set, and in a build
    with error detection the transfer-error flag is not set either,
    XPD_DMA_IRQHandler leaves the whole state as it is and calls no
    callback, whatever the callbacks are.  In a build without error
    detection a pending transfer-error flag does not make the handler do
    anything. *)
Theorem XPD_DMA_IRQHandler_spurious (USE_XPD_DMA_ERROR_DETECT : bool)
    (user : Z -> Ctx -> Ctx) (c : Ctx) :
  flag_set HT c = false ->
  flag_set TC c = false ->
  USE_XPD_DMA_ERROR_DETECT && flag_set TE c = false ->
  XPD_DMA_IRQHandler USE_XPD_DMA_ERROR_DETECT user c = (tt, c) /\
  XPD_DMA_IRQHandler false user c = (tt, c).
Proof.
  intros Hht Htc Hte. split; now apply IRQHandler_no_flags.
Qed.

Lemma testbit_clear_if_set (b : bool) isr m i :
  b = negb (READ_BIT isr m =? 0) ->
  Z.testbit (if b then CLEAR_BIT isr m else isr) i =
    Z.testbit isr i && negb (Z.testbit m i).
Proof.
  intros Hb. destruct (Z.ltb_spec i 0) as [Hneg | Hi].
  { destruct b; now rewrite !Z.testbit_neg_r by lia. }
  destruct b.
  - unfold CLEAR_BIT. now rewrite Z.land_spec, Z.lnot_spec by lia.
  - symmetry in Hb. apply negb_false_iff in Hb. apply Z.eqb_eq in Hb.
    assert (Hz : Z.testbit (READ_BIT isr m) i = false)
      by (rewrite Hb; apply Z.bits_0).
    unfold READ_BIT in Hz. rewrite Z.land_spec in Hz.
    destruct (Z.testbit isr i), (Z.testbit m i); cbn in *; congruence.
Qed.

Section Acknowledge.

Variable USE_XPD_DMA_ERROR_DETECT : bool.
Variable user : Z -> Ctx -> Ctx.
Hypothesis user_frame : callback_frame user.

(** The registers and the handle after the interrupt handler. *)
Lemma XPD_DMA_IRQHandler_regs (c : Ctx) :
  let c' := snd (XPD_DMA_IRQHandler USE_XPD_DMA_ERROR_DETECT user c) in
  let te := USE_XPD_DMA_ERROR_DETECT && flag_set TE c in
  ChannelOffset (hdma c') = ChannelOffset (hdma c) /\
  ISR (Base_regs c') =
    (let i1 := if flag_set HT c
               then CLEAR_BIT (ISR (Base_regs c)) (DMA_flag_mask HT c)
               else ISR (Base_regs c) in
     let i2 := if flag_set TC c then CLEAR_BIT i1 (DMA_flag_mask TC c)
               else i1 in
     if te then CLEAR_BIT i2 (DMA_flag_mask TE c) else i2) /\
  CCR (Inst_regs c') =
    (let r1 := if flag_set HT c && negb (circular c)
               then write_field (CCR_pos (CCR_IE HT)) 1 0 (CCR (Inst_regs c))
               else CCR (Inst_regs c) in
     if flag_set TC c && negb (circular c)
     then write_field (CCR_pos (CCR_IE TC)) 1 0 r1 else r1).
Proof.
  intros c' te. subst c' te. rewrite IRQHandler_parts.
  rewrite (bind_run _ _ c tt (snd (sub_handler user HT HalfComplete c)))
    by (destruct (sub_handler user HT HalfComplete c) as [[] ?]; reflexivity).
  destruct (sub_handler_obs user user_frame HT HalfComplete c)
    as (Hh1 & Hi1 & Hc1 & _).
  set (c1 := snd (sub_handler user HT HalfComplete c)) in *. clearbody c1.
  rewrite (bind_run _ _ c1 tt (snd (sub_handler user TC Complete c1)))
    by (destruct (sub_handler user TC Complete c1) as [[] ?]; reflexivity).
  destruct (sub_handler_obs user user_frame TC Complete c1)
    as (Hh2 & Hi2 & Hc2 & _).
  set (c2 := snd (sub_handler user TC Complete c1)) in *. clearbody c2.
  assert (Htc1 : flag_set TC c1 = flag_set TC c).
  { rewrite !flag_set_eq, Hi1, (DMA_flag_mask_hdma TC c c1 Hh1).
    now apply flag_after_clear. }
  assert (Hcirc1 : circular c1 = circular c).
  { unfold circular. rewrite Hc1, testbit_after_disable by (cbn; lia).
    change (CCR_pos CIRC =? CCR_pos (CCR_IE HT)) with false.
    now rewrite andb_false_r, andb_true_r. }
  rewrite Htc1, Hcirc1, (DMA_flag_mask_hdma TC c c1 Hh1) in *.
  rewrite Hh1 in Hh2.
  destruct (error_part_obs USE_XPD_DMA_ERROR_DETECT user user_frame c2)
    as (Ho3 & _ & Hi3 & Hc3 & _).
  set (c3 := snd (when USE_XPD_DMA_ERROR_DETECT (error_handler user) c2)) in *.
  clearbody c3.
  assert (Hmask2 : forall f, DMA_flag_mask f c2 = DMA_flag_mask f c).
  { intros f. now apply DMA_flag_mask_hdma. }
  assert (Hte2 : flag_set TE c2 = flag_set TE c).
  { rewrite !flag_set_eq, Hi2, Hi1, Hmask2.
    rewrite flag_after_clear by congruence.
    now apply flag_after_clear. }
  rewrite Hte2, Hmask2 in *.
  cbv zeta. rewrite Ho3, Hi3, Hc3, Hi2, Hc2, Hi1, Hc1, Hh2.
  repeat split.
Qed.

(** The status register after the handler, bit by bit. *)
Lemma XPD_DMA_IRQHandler_ISR (c : Ctx) i :
  Z.testbit
    (ISR (Base_regs (snd (XPD_DMA_IRQHandler USE_XPD_DMA_ERROR_DETECT user c))))
    i =
  Z.testbit (ISR (Base_regs c)) i
  && negb (Z.testbit (DMA_flag_mask HT c) i
           || Z.testbit (DMA_flag_mask TC c) i
           || (USE_XPD_DMA_ERROR_DETECT && Z.testbit (DMA_flag_mask TE c) i)).
Proof.
  destruct (XPD_DMA_IRQHandler_regs c) as (_ & Hi & _).
  cbv zeta in Hi. rewrite Hi.
  set (i1 := if flag_set HT c
             then CLEAR_BIT (ISR (Base_regs c)) (DMA_flag_mask HT c)
             else ISR (Base_regs c)).
  set (i2 := if flag_set TC c then CLEAR_BIT i1 (DMA_flag_mask TC c)
             else i1).
  assert (H1 : Z.testbit i1 i =
               Z.testbit (ISR (Base_regs c)) i
               && negb (Z.testbit (DMA_flag_mask HT c) i))
    by (apply testbit_clear_if_set, flag_set_eq).
  assert (H2 : Z.testbit i2 i =
               Z.testbit i1 i && negb (Z.testbit (DMA_flag_mask TC c) i)).
  { apply testbit_clear_if_set. rewrite flag_set_eq. subst i1.
    symmetry. apply flag_after_clear. congruence. }
  destruct USE_XPD_DMA_ERROR_DETECT; cbn [andb].
  - rewrite (testbit_clear_if_set (flag_set TE c) i2 (DMA_flag_mask TE c) i).
    + rewrite H2, H1.
      now destruct (Z.testbit (ISR (Base_regs c)) i),
        (Z.testbit (DMA_flag_mask HT c) i),
        (Z.testbit (DMA_flag_mask TC c) i),
        (Z.testbit (DMA_flag_mask TE c) i).
    + rewrite flag_set_eq. subst i2 i1. symmetry.
      rewrite flag_after_clear by congruence.
      apply flag_after_clear. congruence.
  - rewrite H2, H1, orb_false_r.
    now destruct (Z.testbit (ISR (Base_regs c)) i),
      (Z.testbit (DMA_flag_mask HT c) i),
      (Z.testbit (DMA_flag_mask TC c) i).
Qed.

(** The transfer-error flag after the handler. *)
Lemma XPD_DMA_IRQHandler_TE (c : Ctx) :
  flag_set TE (snd (XPD_DMA_IRQHandler USE_XPD_DMA_ERROR_DETECT user c)) =
    flag_set TE c && negb USE_XPD_DMA_ERROR_DETECT.
Proof.
  destruct (XPD_DMA_IRQHandler_regs c) as (Ho & _ & _). cbv zeta in Ho.
  pose proof (XPD_DMA_IRQHandler_ISR c) as Hisr.
  set (c' := snd (XPD_DMA_IRQHandler USE_XPD_DMA_ERROR_DETECT user c)) in *.
  clearbody c'.
  rewrite !flag_set_eq. unfold DMA_flag_mask at 1. rewrite Ho.
  fold (DMA_flag_mask TE c).
  destruct USE_XPD_DMA_ERROR_DETECT; cbn [andb negb] in *.
  - rewrite andb_false_r. apply negb_false_iff. apply Z.eqb_eq.
    apply Z.bits_inj'; intros i _. unfold READ_BIT.
    rewrite Z.land_spec, Hisr, Z.bits_0.
    destruct (Z.testbit (DMA_flag_mask TE c) i);
      now rewrite ?orb_true_r, ?andb_false_r.
  - rewrite andb_true_r. f_equal. f_equal. unfold READ_BIT.
    apply Z.bits_inj'; intros i _. rewrite !Z.land_spec, Hisr.
    assert (Hd1 : Z.testbit (Z.land (DMA_flag_mask HT c)
                                    (DMA_flag_mask TE c)) i = false)
      by (rewrite DMA_flag_mask_disjoint by congruence; apply Z.bits_0).
    assert (Hd2 : Z.testbit (Z.land (DMA_flag_mask TC c)
                                    (DMA_flag_mask TE c)) i = false)
      by (rewrite DMA_flag_mask_disjoint by congruence; apply Z.bits_0).
    rewrite Z.land_spec in Hd1, Hd2.
    destruct (Z.testbit (ISR (Base_regs c)) i),
      (Z.testbit (DMA_flag_mask HT c) i),
      (Z.testbit (DMA_flag_mask TC c) i),
      (Z.testbit (DMA_flag_mask TE c) i); cbn in *; congruence.
Qed.

(** X11. XPD_DMA_IRQHandler acknowledges the flags of its own channel and
    nothing else: in the status register exactly the bits of the channel's
    half-transfer and transfer-complete flag, and with error detection of
    its transfer-error flag, are cleared; every other bit, so every flag of
    another channel, is as before.  Without error detection a pending
    transfer-error flag stays pending.  In the control register only the
    half-transfer and the transfer-complete interrupt enable bits can
    change (they are cleared for a flag that was set on a channel that is
    not circular): the handler never disables the channel and never
    disables the transfer-error interrupt.  User callbacks are taken not
    to touch the handle, the flags and the control register. *)
Theorem XPD_DMA_IRQHandler_acknowledges (c : Ctx) :
  let c' := snd (XPD_DMA_IRQHandler USE_XPD_DMA_ERROR_DETECT user c) in
  (forall i,
     Z.testbit (ISR (Base_regs c')) i =
       Z.testbit (ISR (Base_regs c)) i
       && negb (Z.testbit (DMA_flag_mask HT c) i
                || Z.testbit (DMA_flag_mask TC c) i
                || (USE_XPD_DMA_ERROR_DETECT
                    && Z.testbit (DMA_flag_mask TE c) i))) /\
  flag_set TE c' = (flag_set TE c && negb USE_XPD_DMA_ERROR_DETECT) /\
  (forall i,
     Z.testbit (CCR (Inst_regs c')) i =
       Z.testbit (CCR (Inst_regs c)) i
       && negb (negb (circular c)
                && ((flag_set HT c && (i =? CCR_pos HTIE))
                    || (flag_set TC c && (i =? CCR_pos TCIE))))) /\
  reads_enabled c' = reads_enabled c /\
  IE_enabled TE c' = IE_enabled TE c.
Proof.
  intros c'.
  destruct (XPD_DMA_IRQHandler_regs c) as (_ & _ & Hc). fold c' in Hc.
  cbv zeta in Hc.
  assert (Hccr : forall i,
     Z.testbit (CCR (Inst_regs c')) i =
       Z.testbit (CCR (Inst_regs c)) i
       && negb (negb (circular c)
                && ((flag_set HT c && (i =? CCR_pos HTIE))
                    || (flag_set TC c && (i =? CCR_pos TCIE))))).
  { intros i. destruct (Z.ltb_spec i 0) as [Hneg | Hnn].
    { now rewrite !Z.testbit_neg_r by lia. }
    rewrite Hc, !testbit_after_disable by lia.
    change (CCR_pos (CCR_IE HT)) with (CCR_pos HTIE).
    change (CCR_pos (CCR_IE TC)) with (CCR_pos TCIE).
    now destruct (Z.testbit (CCR (Inst_regs c)) i), (circular c),
      (flag_set HT c), (flag_set TC c), (i =? CCR_pos HTIE),
      (i =? CCR_pos TCIE). }
  split; [ exact (XPD_DMA_IRQHandler_ISR c) | ].
  split; [ exact (XPD_DMA_IRQHandler_TE c) | ].
  split; [ exact Hccr | split ].
  - unfold reads_enabled. f_equal. f_equal. unfold READ_BIT, DMA_CCR_EN.
    apply Z.bits_inj'; intros i Hi0. rewrite !Z.land_spec, Hccr.
    destruct (Z.eqb_spec i 0) as [-> | Hne].
    + cbn [CCR_pos Z.eqb]. now rewrite !andb_false_r, andb_true_r.
    + replace (Z.testbit 1 i) with false; [ now rewrite !andb_false_r | ].
      symmetry. apply (Z.bits_above_log2 1 i); cbn; lia.
  - unfold IE_enabled. rewrite Hccr. cbn [CCR_IE CCR_pos Z.eqb Pos.eqb].
    now rewrite !andb_false_r, andb_true_r.
Qed.

(** X12. XPD_DMA_IRQHandler handles an event once: when it is run again
    right after it returned, with no activity of the hardware in between,
    it finds nothing to do, leaves the state as it is and calls no
    callback a second time.  User callbacks are taken not to touch the
    handle, the flags and the control register. *)
Theorem XPD_DMA_IRQHandler_idempotent (c : Ctx) :
  let c' := snd (XPD_DMA_IRQHandler USE_XPD_DMA_ERROR_DETECT user c) in
  XPD_DMA_IRQHandler USE_XPD_DMA_ERROR_DETECT user c' = (tt, c').
Proof.
  intros c'.
  destruct (XPD_DMA_IRQHandler_obs USE_XPD_DMA_ERROR_DETECT user user_frame c)
    as (Hht & Htc & _).
  pose proof (XPD_DMA_IRQHandler_TE c) as Hte.
  fold c' in Hht, Htc, Hte.
  apply IRQHandler_no_flags; try assumption.
  rewrite Hte. now destruct USE_XPD_DMA_ERROR_DETECT, (flag_set TE c).
Qed.

End Acknowledge.

(** ** Polling *)

Section PollingMore.

Variable XPD_NO_TIMEOUT : Z.
Variable hw : World -> World.

(** What ended the loop of a poll, and in which round. *)
Lemma PollStatus_loop_sound fuel Operation Timeout tickstart :
  forall c res c1,
  PollStatus_loop XPD_NO_TIMEOUT hw fuel Operation Timeout tickstart c
  = Some (res, c1) ->
  exists n : nat,
    (n < fuel)%nat /\
    (forall k, (k < n)%nat ->
       quiet XPD_NO_TIMEOUT Operation Timeout tickstart (round hw k c)) /\
    match res with
    | None =>
        flag_set (awaited Operation) (round hw n c) = true /\
        c1 = round hw n c
    | Some XPD_ERROR =>
        flag_set (awaited Operation) (round hw n c) = false /\
        flag_set TE (round hw n c) = true /\
        c1 = error_recorded (round hw n c)
    | Some XPD_TIMEOUT =>
        flag_set (awaited Operation) (round hw n c) = false /\
        flag_set TE (round hw n c) = false /\
        timed_out XPD_NO_TIMEOUT Timeout tickstart (round hw n c) = true /\
        c1 = round hw n c
    | Some _ => False
    end.
Proof.
  induction fuel as [|fuel IH]; intros c res c1 H; [ discriminate | ].
  rewrite PollStatus_loop_S in H.
  destruct (flag_set (awaited Operation) c) eqn:Ea.
  { injection H as <- <-. exists 0%nat. split; [ lia | ].
    split; [ intros k Hk; lia | ]. now split. }
  destruct (flag_set TE c) eqn:Ee.
  { injection H as <- <-. exists 0%nat. split; [ lia | ].
    split; [ intros k Hk; lia | ]. now repeat split. }
  destruct (timed_out XPD_NO_TIMEOUT Timeout tickstart c) eqn:Et.
  { injection H as <- <-. exists 0%nat. split; [ lia | ].
    split; [ intros k Hk; lia | ]. now repeat split. }
  apply IH in H. destruct H as (n & Hn & Hq & Hres).
  exists (S n). split; [ lia | ]. split.
  - intros [|k] Hk; [ now repeat split | ].
    rewrite round_S. apply Hq. lia.
  - now rewrite round_S.
Qed.

(** X13. Every result of XPD_DMA_PollStatus has its cause.  When the call
    returns, there is a round of its loop before which every round found
    no awaited flag, no error flag and no timeout, and in that round: for
    OK the awaited flag was set, and the state returned is that round's
    with the flags of the operation cleared; for ERROR the awaited flag
    was clear and the error flag set, and the state returned has the
    error recorded; for TIMEOUT both flags were clear, the timeout is not
    XPD_NO_TIMEOUT and more ticks than Timeout had elapsed, and the state
    returned is that round's.  BUSY is never returned, and with
    XPD_NO_TIMEOUT as the timeout TIMEOUT is never returned.  Beyond what
    the hardware did, the call changed nothing but the acknowledged flags
    and the error state: the registers of the channel are those of that
    round, so on an error or a timeout the channel is left running. *)
Theorem XPD_DMA_PollStatus_sound (fuel : nat) (Operation : DMA_OperationType)
    (Timeout : Z) (c : Ctx) (r : XPD_ReturnType) (c' : Ctx) :
  XPD_DMA_PollStatus XPD_NO_TIMEOUT hw fuel Operation Timeout c
  = Some (r, c') ->
  exists n : nat,
    (n < fuel)%nat /\
    (forall k, (k < n)%nat ->
       quiet XPD_NO_TIMEOUT Operation Timeout (msTick (world c))
             (round hw k c)) /\
    let cn := round hw n c in
    match r with
    | XPD_OK =>
        flag_set (awaited Operation) cn = true /\
        c' = poll_done Operation cn
    | XPD_ERROR =>
        flag_set (awaited Operation) cn = false /\
        flag_set TE cn = true /\
        c' = error_recorded cn
    | XPD_TIMEOUT =>
        flag_set (awaited Operation) cn = false /\
        flag_set TE cn = false /\
        Timeout <> XPD_NO_TIMEOUT /\
        Timeout < elapsed (msTick (world cn)) (msTick (world c)) /\
        c' = cn
    | XPD_BUSY => False
    end /\
    Inst_regs c' = Inst_regs cn.
Proof.
  intros H.
  destruct fuel as [|fuel].
  { unfold XPD_DMA_PollStatus in H. cbn in H. discriminate. }
  rewrite (XPD_DMA_PollStatus_decisive XPD_NO_TIMEOUT hw 0 (S fuel))
    in H by (lia || (intros k Hk; lia)).
  change (round hw 0 c) with c in H.
  replace (S (S fuel - 1)) with (S fuel) in H by lia.
  destruct (PollStatus_loop XPD_NO_TIMEOUT hw (S fuel) Operation Timeout
              (msTick (world c)) c) as [[res c1]|] eqn:E; [ | discriminate ].
  apply PollStatus_loop_sound in E. destruct E as (n & Hn & Hq & Hres).
  exists n. split; [ exact Hn | ]. split; [ exact Hq | ]. cbv zeta.
  destruct res as [result|].
  - injection H as <- <-. destruct result; try contradiction.
    + destruct Hres as (Ha & He & ->). now repeat split.
    + destruct Hres as (Ha & He & Ht & ->).
      unfold timed_out in Ht. apply andb_true_iff in Ht.
      repeat split; try assumption; lia.
  - injection H as <- <-. destruct Hres as (Ha & ->). now repeat split.
Qed.

Lemma PollStatus_loop_bounded Operation Timeout tickstart n :
  forall fuel c,
  (n < fuel)%nat ->
  timed_out XPD_NO_TIMEOUT Timeout tickstart (round hw n c) = true ->
  exists res c1,
    PollStatus_loop XPD_NO_TIMEOUT hw fuel Operation Timeout tickstart c
    = Some (res, c1).
Proof.
  induction n as [|n IH]; intros [|fuel] c Hfuel Ht; try lia;
    rewrite PollStatus_loop_S;
    destruct (flag_set (awaited Operation) c); eauto;
    destruct (flag_set TE c); eauto.
  - change (round hw 0 c) with c in Ht. rewrite Ht. eauto.
  - destruct (timed_out XPD_NO_TIMEOUT Timeout tickstart c); eauto.
    apply IH; [ lia | ]. now rewrite <- round_S.
Qed.

(** X14. XPD_DMA_PollStatus with a finite timeout does not wait past the
    expiry of the timeout: if in round n of the loop more ticks than
    Timeout have elapsed since the call began (the difference taken on
    32-bit unsigned values, as the code takes it), the call returns within
    n + 1 rounds, whatever the flags do. *)
Theorem XPD_DMA_PollStatus_bounded (n fuel : nat)
    (Operation : DMA_OperationType) (Timeout : Z) (c : Ctx) :
  Timeout <> XPD_NO_TIMEOUT ->
  Timeout < elapsed (msTick (world (round hw n c))) (msTick (world c)) ->
  (n < fuel)%nat ->
  exists r c',
    XPD_DMA_PollStatus XPD_NO_TIMEOUT hw fuel Operation Timeout c
    = Some (r, c').
Proof.
  intros Hfin Hlate Hfuel.
  destruct fuel as [|fuel]; [ lia | ].
  rewrite (XPD_DMA_PollStatus_decisive XPD_NO_TIMEOUT hw 0 (S fuel))
    by (lia || (intros k Hk; lia)).
  change (round hw 0 c) with c.
  replace (S (S fuel - 1)) with (S fuel) by lia.
  destruct (PollStatus_loop_bounded Operation Timeout (msTick (world c)) n
              (S fuel) c Hfuel) as (res & c1 & ->).
  - unfold timed_out. apply andb_true_iff. split; lia.
  - destruct res; eauto.
Qed.

End PollingMore.
Section Ticking.

Variable XPD_NO_TIMEOUT : Z.
Variable hw : World -> World.
Variable D : Z.
Hypothesis hw_ticks : tick_runs hw D.

Lemma elapsed_env_step tickstart c :
  elapsed (msTick (world c)) tickstart + D < 2 ^ 32 ->
  elapsed (msTick (world c)) tickstart
  < elapsed (msTick (world (env_step hw c))) tickstart.
Proof.
  unfold elapsed, env_step. cbn [world]. intros Hroom.
  pose proof (hw_ticks (world c)) as Hd.
  set (a := msTick (world c)) in *. set (a' := msTick (hw (world c))) in *.
  replace (a' - tickstart) with ((a - tickstart) + (a' - a)) by lia.
  rewrite Z.add_mod by lia.
  pose proof (Z.mod_pos_bound (a - tickstart) (2 ^ 32) ltac:(lia)).
  rewrite (Z.mod_small (_ + _)) by lia. lia.
Qed.

(** By round [k] either the timeout has expired in some round, or at least
    [k] ticks have elapsed. *)
Lemma expiry_round Timeout c (k : nat) :
  0 <= Timeout -> Timeout + D < 2 ^ 32 ->
  (exists n, (n <= k)%nat /\
     Timeout < elapsed (msTick (world (round hw n c))) (msTick (world c))) \/
  Z.of_nat k <= elapsed (msTick (world (round hw k c))) (msTick (world c)).
Proof.
  intros HT Hroom. induction k as [|k IH].
  - right. change (round hw 0 c) with c. unfold elapsed.
    rewrite Z.sub_diag, Z.mod_0_l by lia. lia.
  - destruct IH as [(n & Hn & Hlate) | Hk].
    + left. exists n. split; [ lia | exact Hlate ].
    + destruct (Z.ltb_spec Timeout
                  (elapsed (msTick (world (round hw k c))) (msTick (world c))))
        as [Hlate | Hearly].
      * left. exists k. split; [ lia | exact Hlate ].
      * right.
        pose proof (elapsed_env_step (msTick (world c)) (round hw k c)
                      ltac:(lia)) as Hstep.
        change (env_step hw (round hw k c)) with (round hw (S k) c) in Hstep.
        lia.
Qed.

(** X15. While the tick runs, a poll with a finite timeout ends.  If
    between two rounds of the loop the tick counter, read as a 32-bit
    unsigned value, advances by at least one and at most D, and Timeout
    + D is below 2^32, then XPD_DMA_PollStatus with a timeout other than
    XPD_NO_TIMEOUT returns within Timeout + 2 rounds, whatever the flags
    do; the tick counter may wrap around during the wait. *)
Theorem XPD_DMA_PollStatus_terminates (fuel : nat)
    (Operation : DMA_OperationType) (Timeout : Z) (c : Ctx) :
  Timeout <> XPD_NO_TIMEOUT ->
  0 <= Timeout ->
  Timeout + D < 2 ^ 32 ->
  Timeout + 1 < Z.of_nat fuel ->
  exists r c',
    XPD_DMA_PollStatus XPD_NO_TIMEOUT hw fuel Operation Timeout c
    = Some (r, c').
Proof.
  intros Hfin HT Hroom Hfuel.
  assert (Hret : forall n, (n < fuel)%nat ->
            Timeout < elapsed (msTick (world (round hw n c)))
                              (msTick (world c)) ->
            exists r c',
              XPD_DMA_PollStatus XPD_NO_TIMEOUT hw fuel Operation Timeout c
              = Some (r, c')).
  { intros n Hn Hlate. destruct fuel as [|fuel']; [ lia | ].
    rewrite (XPD_DMA_PollStatus_decisive XPD_NO_TIMEOUT hw 0 (S fuel'))
      by (lia || (intros k Hk; lia)).
    change (round hw 0 c) with c.
    replace (S (S fuel' - 1)) with (S fuel') by lia.
    destruct (PollStatus_loop_bounded XPD_NO_TIMEOUT hw Operation Timeout
                (msTick (world c)) n (S fuel') c Hn) as (res & c1 & ->).
    - unfold timed_out. apply andb_true_iff. split; lia.
    - destruct res; eauto. }
  destruct (expiry_round Timeout c (Z.to_nat (Timeout + 1)) HT Hroom)
    as [(n & Hn & Hlate) | Hk].
  - apply (Hret n); [ lia | exact Hlate ].
  - apply (Hret (Z.to_nat (Timeout + 1))); lia.
Qed.

End Ticking.

(** ** The calls stay on their channel *)

Lemma elsewhere_refl c : elsewhere_unchanged c c.
Proof. now repeat split. Qed.

Lemma elsewhere_with_CCR ccr c : elsewhere_unchanged c (with_CCR ccr c).
Proof.
  unfold elsewhere_unchanged, with_CCR, set_Inst_regs, set_chan_regs.
  cbn [world hdma chan_regs dma_regs msTick critical calls].
  repeat split. intros a Ha. now rewrite lookup_insert_ne.
Qed.

Lemma elsewhere_armed P D c : elsewhere_unchanged c (armed P D c).
Proof.
  unfold elsewhere_unchanged, armed, set_chan_regs.
  cbn [world hdma chan_regs dma_regs msTick critical calls].
  repeat split. intros a Ha. now rewrite lookup_insert_ne.
Qed.

Lemma elsewhere_with_CCR_armed ccr P D c :
  elsewhere_unchanged c (with_CCR ccr (armed P D c)).
Proof.
  unfold elsewhere_unchanged, with_CCR, set_Inst_regs, armed, set_chan_regs.
  cbn [world hdma chan_regs dma_regs msTick critical calls Inst].
  repeat split. intros a Ha. now rewrite !lookup_insert_ne.
Qed.

Lemma elsewhere_initialised DMA2 cfg c :
  elsewhere_unchanged c (initialised DMA2 cfg c).
Proof.
  unfold elsewhere_unchanged, initialised.
  cbn [world hdma chan_regs dma_regs msTick critical calls].
  repeat split. intros a Ha. now rewrite lookup_insert_ne.
Qed.

Lemma elsewhere_deinitialised DMA2 c :
  elsewhere_unchanged c (deinitialised DMA2 c).
Proof.
  unfold elsewhere_unchanged, deinitialised.
  cbn beta zeta iota delta [world hdma chan_regs dma_regs msTick critical calls].
  repeat split.
  - intros a Ha. now rewrite lookup_insert_ne.
  - intros b Hb. now rewrite lookup_insert_ne.
Qed.

(** X16. The calls that neither wait nor call back (Init, Deinit, Enable,
    Disable, SetDirection, Start, Start_IT, Stop_IT, GetStatus, GetError)
    stay on the channel of their handle: the register blocks of every
    other channel and of every other controller, the tick and the call
    log are as before, the handle still names the same channel and the
    same callbacks, and the critical section of Start is left again.  Of
    the clock tables only the entries of the channel's own controller can
    change, and only Init and Deinit change them; only Init recomputes the
    cached controller address and flag offset: every other of these calls,
    Deinit among them, leaves both as they were. *)
Theorem register_calls_stay_on_channel (DMA2 : option Z)
    (USE_XPD_DMA_ERROR_DETECT : bool) (XPD_NO_TIMEOUT : Z)
    (hw : World -> World) (user : Z -> Ctx -> Ctx) (fuel : nat)
    (k : DMA_Call) (c : Ctx) (r : DMA_Return) (c' : Ctx) :
  register_call k = true ->
  call DMA2 USE_XPD_DMA_ERROR_DETECT XPD_NO_TIMEOUT hw user fuel k c
  = Some (r, c') ->
  elsewhere_unchanged c c' /\
  Inst (hdma c') = Inst (hdma c) /\
  Callbacks (hdma c') = Callbacks (hdma c) /\
  (forall bo : nat, bo <> DMA_BASE_OFFSET DMA2 (Inst (hdma c)) ->
     dma_users (world c') !! bo = dma_users (world c) !! bo /\
     dma_clock (world c') !! bo = dma_clock (world c) !! bo) /\
  (clock_call k = false ->
     dma_users (world c') = dma_users (world c) /\
     dma_clock (world c') = dma_clock (world c) /\
     Base (hdma c') = Base (hdma c) /\
     ChannelOffset (hdma c') = ChannelOffset (hdma c)) /\
  (addressing_call k = false ->
     Base (hdma c') = Base (hdma c) /\
     ChannelOffset (hdma c') = ChannelOffset (hdma c)).
Proof.
  intros Hk H.
  destruct k; try discriminate Hk; unfold call, void, status in H;
    cbn [clock_call addressing_call].
  - (* Init *)
    rewrite XPD_DMA_Init_run in H. injection H as <- <-.
    split; [ apply elsewhere_initialised | ].
    unfold initialised. cbn [hdma world Inst Callbacks dma_users dma_clock].
    repeat split; try discriminate.
    + now rewrite list_lookup_insert_ne.
    + now rewrite list_lookup_insert_ne.
  - (* Deinit *)
    rewrite XPD_DMA_Deinit_run in H. injection H as <- <-.
    split; [ apply elsewhere_deinitialised | ].
    unfold deinitialised.
    cbn beta zeta iota delta [hdma world Inst Callbacks dma_users dma_clock].
    repeat split; try discriminate.
    + now rewrite list_lookup_insert_ne.
    + match goal with |- context [if ?b then _ else _] => destruct b end;
        [ now rewrite list_lookup_insert_ne | reflexivity ].
  - (* Enable *)
    rewrite XPD_DMA_Enable_run in H. injection H as <- <-.
    split; [ apply elsewhere_with_CCR | now repeat split ].
  - (* Disable *)
    rewrite XPD_DMA_Disable_run, disabled_with_CCR in H. injection H as <- <-.
    split; [ apply elsewhere_with_CCR | now repeat split ].
  - (* SetDirection *)
    unfold XPD_DMA_SetDirection in H. rewrite DMA_REG_BIT_assign_run in H.
    injection H as <- <-.
    split; [ apply elsewhere_with_CCR | now repeat split ].
  - (* Start *)
    rewrite XPD_DMA_Start_cases in H.
    destruct (negb (PeriphAddress =? CPAR (Inst_regs c))
              && XPD_ReturnType_eqb (fst (XPD_DMA_GetStatus c)) XPD_BUSY);
      injection H as <- <-.
    + split; [ apply elsewhere_refl | now repeat split ].
    + split; [ apply elsewhere_armed | now repeat split ].
  - (* Start_IT *)
    rewrite XPD_DMA_Start_IT_cases in H.
    destruct (negb (PeriphAddress =? CPAR (Inst_regs c))
              && XPD_ReturnType_eqb (fst (XPD_DMA_GetStatus c)) XPD_BUSY);
      injection H as <- <-.
    + split; [ apply elsewhere_refl | now repeat split ].
    + split; [ apply elsewhere_with_CCR_armed | now repeat split ].
  - (* Stop_IT *)
    rewrite XPD_DMA_Stop_IT_run in H. injection H as <- <-.
    split; [ apply elsewhere_with_CCR | now repeat split ].
  - (* GetStatus *)
    rewrite GetStatus_unfold in H. injection H as <- <-.
    split; [ apply elsewhere_refl | now repeat split ].
  - (* GetError *)
    injection H as <- <-.
    split; [ apply elsewhere_refl | now repeat split ].
Qed.

(** * Properties of the EXTI line configuration *)

Lemma ulLineBit_small n : 0 <= n < 32 -> ulLineBit n = 2 ^ n.
Proof.
  intros Hn. unfold ulLineBit. rewrite Z.shiftl_1_l.
  apply Z.mod_small. split; [ apply Z.pow_nonneg; lia | ].
  apply Z.pow_lt_mono_r; lia.
Qed.

Lemma testbit_assign_mask (b : bool) reg n i :
  0 <= n < 32 ->
  Z.testbit (if b then SET_BIT reg (ulLineBit n)
             else CLEAR_BIT reg (ulLineBit n)) i =
    if i =? n then b else Z.testbit reg i.
Proof.
  intros Hn. rewrite ulLineBit_small by assumption.
  destruct (Z.ltb_spec i 0) as [Hneg | Hi].
  { replace (i =? n) with false by lia.
    destruct b; now rewrite !Z.testbit_neg_r by lia. }
  unfold SET_BIT, CLEAR_BIT.
  destruct b; rewrite ?Z.lor_spec, ?Z.land_spec, ?Z.lnot_spec by lia;
    rewrite Z.pow2_bits_eqb by lia; rewrite (Z.eqb_sym n i);
    destruct (i =? n), (Z.testbit reg i); reflexivity.
Qed.

Lemma testbit_BB_store n v reg i :
  0 <= n ->
  Z.testbit (BB_store n v reg) i =
    if i =? n then Z.odd v else Z.testbit reg i.
Proof.
  intros Hn. destruct (Z.ltb_spec i 0) as [Hneg | Hi].
  { replace (i =? n) with false by lia.
    now rewrite !Z.testbit_neg_r by lia. }
  unfold BB_store. rewrite testbit_write_field by lia.
  destruct (Z.eqb_spec i n) as [-> | Hne].
  - replace ((n <=? n) && (n <? n + 1)) with true by lia.
    rewrite Z.sub_diag. apply Z.bit0_odd.
  - now replace ((n <=? i) && (i <? n + 1)) with false by lia.
Qed.

Lemma land_1_odd v : negb (Z.land v 1 =? 0) = Z.odd v.
Proof.
  change 1 with (Z.ones 1). rewrite Z.land_ones by lia.
  change (2 ^ 1) with 2. rewrite Zmod_odd. now destruct (Z.odd v).
Qed.

Lemma land_2_odd v : negb (Z.land v 2 =? 0) = Z.odd (Z.shiftr v 1).
Proof.
  rewrite <- Z.bit0_odd, Z.shiftr_spec by lia. rewrite Z.add_0_l.
  destruct (Z.testbit v 1) eqn:E.
  - apply negb_true_iff. apply Z.eqb_neq. intros H0.
    assert (Hb : Z.testbit (Z.land v 2) 1 = true)
      by (rewrite Z.land_spec, E; reflexivity).
    rewrite H0 in Hb. discriminate.
  - apply negb_false_iff. apply Z.eqb_eq. apply Z.bits_inj'; intros i Hi.
    rewrite Z.land_spec, Z.bits_0.
    destruct (Z.eq_dec i 1) as [-> | Hne].
    + now rewrite E.
    + replace (Z.testbit 2 i) with false; [ apply andb_false_r | ].
      symmetry. change 2 with (2 ^ 1). rewrite Z.pow2_bits_eqb by lia. lia.
Qed.

(** Two blocks whose registers agree bit by bit are the same block. *)
Lemma EXTI_ext e1 e2 :
  (forall b r i, Z.testbit (EXTI_reg b r e1) i = Z.testbit (EXTI_reg b r e2) i) ->
  e1 = e2.
Proof.
  intros H. destruct e1 as [a1 a2 a3 a4 a5 a6 a7 a8].
  destruct e2 as [b1 b2 b3 b4 b5 b6 b7 b8].
  assert (Hr : forall b r,
            EXTI_reg b r (mkEXTI a1 a2 a3 a4 a5 a6 a7 a8) =
            EXTI_reg b r (mkEXTI b1 b2 b3 b4 b5 b6 b7 b8))
    by (intros b r; apply Z.bits_inj'; intros i _; apply H).
  pose proof (Hr false R_IMR). pose proof (Hr false R_EMR).
  pose proof (Hr false R_RTSR). pose proof (Hr false R_FTSR).
  pose proof (Hr true R_IMR). pose proof (Hr true R_EMR).
  pose proof (Hr true R_RTSR). pose proof (Hr true R_FTSR).
  cbn in *. congruence.
Qed.

Lemma mod_32_bank2 n : 32 <= n < 64 -> n mod 32 = n - 32.
Proof.
  intros Hn. rewrite <- (Z.mod_small (n - 32) 32) by lia.
  rewrite <- Zminus_mod_idemp_r, Z.mod_same by lia. now rewrite Z.sub_0_r.
Qed.

Ltac EXTI_regs :=
  cbn [EXTI_reg IMR1 EMR1 RTSR1 FTSR1 IMR2 EMR2 RTSR2 FTSR2 Bool.eqb andb
       EXTI_line_bit line_IT line_EVENT line_RISING line_FALLING].

Lemma EXTI_vInit_mask_assigned IT EV RI FA ucLine pxConfig e :
  0 <= ucLine < 64 ->
  EXTI_assigned (32 <=? ucLine) (ucLine mod 32)
    (EXTI_requested IT EV RI FA pxConfig) e
    (EXTI_vInit_mask IT EV RI FA ucLine pxConfig e).
Proof.
  intros Hl b r i. unfold EXTI_vInit_mask, EXTI_requested.
  destruct (Z.ltb_spec ucLine 32) as [Hlo | Hhi].
  - replace (32 <=? ucLine) with false by lia.
    rewrite Z.mod_small by lia.
    destruct b, r; EXTI_regs; try reflexivity; apply testbit_assign_mask; lia.
  - replace (32 <=? ucLine) with true by lia.
    rewrite mod_32_bank2 by lia.
    destruct b, r; EXTI_regs; try reflexivity; apply testbit_assign_mask; lia.
Qed.

Lemma EXTI_vInit_BB_assigned ucLine pxConfig e :
  0 <= ucLine < 64 ->
  EXTI_assigned (32 <=? ucLine) (ucLine mod 32)
    (EXTI_requested 1 2 1 2 pxConfig) e (EXTI_vInit_BB ucLine pxConfig e).
Proof.
  intros Hl b r i. unfold EXTI_vInit_BB, EXTI_requested.
  rewrite !land_1_odd, !land_2_odd.
  destruct (Z.ltb_spec ucLine 32) as [Hlo | Hhi].
  - replace (32 <=? ucLine) with false by lia.
    rewrite Z.mod_small by lia.
    destruct b, r; EXTI_regs; try reflexivity; apply testbit_BB_store; lia.
  - replace (32 <=? ucLine) with true by lia.
    rewrite mod_32_bank2 by lia.
    rewrite (Z.mod_small (ucLine - 32)) by lia.
    destruct b, r; EXTI_regs; try reflexivity; apply testbit_BB_store; lia.
Qed.

Lemma EXTI_vDeinit_mask_assigned ucLine e :
  0 <= ucLine < 64 ->
  EXTI_assigned (32 <=? ucLine) (ucLine mod 32) EXTI_line_off e
    (EXTI_vDeinit_mask ucLine e).
Proof.
  intros Hl b r i. unfold EXTI_vDeinit_mask, EXTI_line_off.
  destruct (Z.ltb_spec ucLine 32) as [Hlo | Hhi].
  - replace (32 <=? ucLine) with false by lia.
    rewrite Z.mod_small by lia.
    destruct b, r; EXTI_regs; try reflexivity;
      apply (testbit_assign_mask false); lia.
  - replace (32 <=? ucLine) with true by lia.
    rewrite mod_32_bank2 by lia.
    destruct b, r; EXTI_regs; try reflexivity;
      apply (testbit_assign_mask false); lia.
Qed.

Lemma EXTI_vDeinit_BB_assigned ucLine e :
  0 <= ucLine < 64 ->
  EXTI_assigned (32 <=? ucLine) (ucLine mod 32) EXTI_line_off e
    (EXTI_vDeinit_BB ucLine e).
Proof.
  intros Hl b r i. unfold EXTI_vDeinit_BB, EXTI_line_off.
  destruct (Z.ltb_spec ucLine 32) as [Hlo | Hhi].
  - replace (32 <=? ucLine) with false by lia.
    rewrite Z.mod_small by lia.
    destruct b, r; EXTI_regs; try reflexivity;
      apply (testbit_BB_store _ 0); lia.
  - replace (32 <=? ucLine) with true by lia.
    rewrite mod_32_bank2 by lia.
    rewrite (Z.mod_small (ucLine - 32)) by lia.
    destruct b, r; EXTI_regs; try reflexivity;
      apply (testbit_BB_store _ 0); lia.
Qed.

(** What a line reads after an assignment. *)
Lemma EXTI_line_assigned bank2 n l e e' ucLine :
  EXTI_assigned bank2 n l e e' ->
  0 <= ucLine < 64 ->
  EXTI_line ucLine e' =
    if Bool.eqb (32 <=? ucLine) bank2 && (ucLine mod 32 =? n) then l
    else EXTI_line ucLine e.
Proof.
  intros Ha Hl. unfold EXTI_line.
  destruct (Z.ltb_spec ucLine 32) as [Hlo | Hhi].
  - replace (32 <=? ucLine) with false by lia.
    rewrite Z.mod_small by lia.
    pose proof (Ha false R_IMR ucLine) as H1.
    pose proof (Ha false R_EMR ucLine) as H2.
    pose proof (Ha false R_RTSR ucLine) as H3.
    pose proof (Ha false R_FTSR ucLine) as H4.
    cbn [EXTI_reg] in *. rewrite H1, H2, H3, H4.
    destruct (Bool.eqb false bank2 && (ucLine =? n)); [ | reflexivity ].
    now destruct l.
  - replace (32 <=? ucLine) with true by lia.
    rewrite mod_32_bank2 by lia.
    pose proof (Ha true R_IMR (ucLine - 32)) as H1.
    pose proof (Ha true R_EMR (ucLine - 32)) as H2.
    pose proof (Ha true R_RTSR (ucLine - 32)) as H3.
    pose proof (Ha true R_FTSR (ucLine - 32)) as H4.
    cbn [EXTI_reg] in *. rewrite H1, H2, H3, H4.
    destruct (Bool.eqb true bank2 && (ucLine - 32 =? n)); [ | reflexivity ].
    now destruct l.
Qed.

Lemma EXTI_line_other a b :
  0 <= a < 64 -> 0 <= b < 64 -> a <> b ->
  Bool.eqb (32 <=? a) (32 <=? b) && (a mod 32 =? b mod 32) = false.
Proof.
  intros Ha Hb Hne.
  destruct (Z.leb_spec 32 a), (Z.leb_spec 32 b); cbn [Bool.eqb andb];
    try reflexivity;
    rewrite ?mod_32_bank2, ?(Z.mod_small a), ?(Z.mod_small b) by lia; lia.
Qed.

Section EXTI_Facts.

Variable RCC_APB2ENR_EXTITEN : bool.
Variable EXTI_BB : bool.
Variable REACTION_IT REACTION_EVENT : Z.
Variable EDGE_RISING EDGE_FALLING : Z.

Lemma EXTI_vInit_assigned ucLine pxConfig s :
  0 <= ucLine < 64 ->
  EXTI_assigned (32 <=? ucLine) (ucLine mod 32)
    (EXTI_stored EXTI_BB REACTION_IT REACTION_EVENT EDGE_RISING EDGE_FALLING
                 pxConfig)
    (EXTI s)
    (EXTI (EXTI_vInit RCC_APB2ENR_EXTITEN EXTI_BB REACTION_IT REACTION_EVENT
                      EDGE_RISING EDGE_FALLING ucLine pxConfig s)).
Proof.
  intros Hl. unfold EXTI_vInit, EXTI_stored. cbn [EXTI].
  replace (EXTI (if RCC_APB2ENR_EXTITEN then RCC_vClockEnable_EXTI s else s))
    with (EXTI s) by now destruct RCC_APB2ENR_EXTITEN.
  destruct EXTI_BB.
  - now apply EXTI_vInit_BB_assigned.
  - now apply EXTI_vInit_mask_assigned.
Qed.

Lemma EXTI_vDeinit_assigned ucLine s :
  0 <= ucLine < 64 ->
  EXTI_assigned (32 <=? ucLine) (ucLine mod 32) EXTI_line_off (EXTI s)
    (EXTI (EXTI_vDeinit EXTI_BB ucLine s)).
Proof.
  intros Hl. unfold EXTI_vDeinit. cbn [EXTI]. destruct EXTI_BB.
  - now apply EXTI_vDeinit_BB_assigned.
  - now apply EXTI_vDeinit_mask_assigned.
Qed.

(** X17. For a line below 64, EXTI_vInit makes the line read what the
    setup structure asks for (interrupt, event, rising edge, falling edge)
    and leaves every other line as it was: in the four registers of the
    line's bank exactly the bit of the line is assigned, and no bit of the
    other bank is touched.  The clock of the block is switched on in a
    build that has one, and left alone otherwise.  What is stored for a
    setup structure is bit 0 and bit 1 of its fields in the bit-band build,
    and the test of its fields against the enumerators in the other
    build. *)
Theorem EXTI_vInit_configures_line (ucLine : Z) (pxConfig : EXTI_InitType)
    (s : EXTI_State) :
  0 <= ucLine < 64 ->
  let stored := EXTI_stored EXTI_BB REACTION_IT REACTION_EVENT EDGE_RISING
                            EDGE_FALLING pxConfig in
  let s' := EXTI_vInit RCC_APB2ENR_EXTITEN EXTI_BB REACTION_IT REACTION_EVENT
                       EDGE_RISING EDGE_FALLING ucLine pxConfig s in
  EXTI_line ucLine (EXTI s') = stored /\
  (forall l, 0 <= l < 64 -> l <> ucLine ->
     EXTI_line l (EXTI s') = EXTI_line l (EXTI s)) /\
  EXTI_assigned (32 <=? ucLine) (ucLine mod 32) stored (EXTI s) (EXTI s') /\
  EXTI_clock s' = RCC_APB2ENR_EXTITEN || EXTI_clock s.
Proof.
  intros Hl stored s'.
  pose proof (EXTI_vInit_assigned ucLine pxConfig s Hl) as Ha.
  fold s' stored in Ha.
  split; [ | split; [ | split ] ].
  - rewrite (EXTI_line_assigned _ _ _ _ _ ucLine Ha Hl).
    now rewrite eqb_reflx, Z.eqb_refl.
  - intros l Hl' Hne. rewrite (EXTI_line_assigned _ _ _ _ _ l Ha Hl').
    now rewrite EXTI_line_other by assumption.
  - exact Ha.
  - subst s'. unfold EXTI_vInit. cbn [EXTI_clock].
    now destruct RCC_APB2ENR_EXTITEN.
Qed.

(** X18. For a line below 64, EXTI_vDeinit switches the line off
    (no interrupt, no event, no edge) and leaves every other line and the
    clock of the block as they were; the registers it leaves are those
    that EXTI_vInit leaves for a setup structure that asks for nothing.
    EXTI_vDeinit after EXTI_vInit of a line that was off before restores
    the registers of the block exactly. *)
Theorem EXTI_vDeinit_restores_line (ucLine : Z) (pxConfig : EXTI_InitType)
    (s : EXTI_State) :
  0 <= ucLine < 64 ->
  let s' := EXTI_vDeinit EXTI_BB ucLine s in
  EXTI_line ucLine (EXTI s') = EXTI_line_off /\
  (forall l, 0 <= l < 64 -> l <> ucLine ->
     EXTI_line l (EXTI s') = EXTI_line l (EXTI s)) /\
  EXTI_clock s' = EXTI_clock s /\
  EXTI s' =
    EXTI (EXTI_vInit RCC_APB2ENR_EXTITEN EXTI_BB REACTION_IT REACTION_EVENT
                     EDGE_RISING EDGE_FALLING ucLine (mkEXTI_Init 0 0) s) /\
  (EXTI_line ucLine (EXTI s) = EXTI_line_off ->
   EXTI (EXTI_vDeinit EXTI_BB ucLine
           (EXTI_vInit RCC_APB2ENR_EXTITEN EXTI_BB REACTION_IT REACTION_EVENT
                       EDGE_RISING EDGE_FALLING ucLine pxConfig s))
   = EXTI s).
Proof.
  intros Hl s'.
  pose proof (EXTI_vDeinit_assigned ucLine s Hl) as Ha. fold s' in Ha.
  split; [ | split; [ | split; [ | split ] ] ].
  - rewrite (EXTI_line_assigned _ _ _ _ _ ucLine Ha Hl).
    now rewrite eqb_reflx, Z.eqb_refl.
  - intros l Hl' Hne. rewrite (EXTI_line_assigned _ _ _ _ _ l Ha Hl').
    now rewrite EXTI_line_other by assumption.
  - reflexivity.
  - apply EXTI_ext. intros b r i. rewrite Ha.
    rewrite (EXTI_vInit_assigned ucLine (mkEXTI_Init 0 0) s Hl).
    unfold EXTI_stored, EXTI_requested, EXTI_line_off. cbn [Reaction Edge].
    rewrite !Z.land_0_l. now destruct EXTI_BB.
  - intros Hoff. apply EXTI_ext. intros b r i.
    rewrite (EXTI_vDeinit_assigned ucLine _ Hl).
    rewrite (EXTI_vInit_assigned ucLine pxConfig s Hl).
    destruct (Bool.eqb b (32 <=? ucLine) && (i =? ucLine mod 32)) eqn:E;
      [ | reflexivity ].
    apply andb_true_iff in E. destruct E as [Eb Ei].
    apply eqb_prop in Eb. apply Z.eqb_eq in Ei. subst b i.
    unfold EXTI_line in Hoff.
    destruct (Z.ltb_spec ucLine 32) as [Hlo | Hhi].
    + replace (32 <=? ucLine) with false by lia.
      rewrite Z.mod_small by lia. unfold EXTI_line_off in *.
      injection Hoff as H1 H2 H3 H4.
      destruct r; cbn [EXTI_reg EXTI_line_bit line_IT line_EVENT line_RISING
                       line_FALLING]; congruence.
    + replace (32 <=? ucLine) with true by lia.
      rewrite mod_32_bank2 by lia. unfold EXTI_line_off in *.
      injection Hoff as H1 H2 H3 H4.
      destruct r; cbn [EXTI_reg EXTI_line_bit line_IT line_EVENT line_RISING
                       line_FALLING]; congruence.
Qed.

(** X19. The lines below 64 are configured independently of each other:
    two calls of EXTI_vInit for different lines give the same state in
    either order, and of two calls for the same line the later one
    decides, the earlier one leaving no trace. *)
Theorem EXTI_vInit_lines_independent (a b : Z) (ca cb : EXTI_InitType)
    (s : EXTI_State) :
  0 <= a < 64 -> 0 <= b < 64 ->
  let init := EXTI_vInit RCC_APB2ENR_EXTITEN EXTI_BB REACTION_IT
                         REACTION_EVENT EDGE_RISING EDGE_FALLING in
  (a <> b -> init a ca (init b cb s) = init b cb (init a ca s)) /\
  init a ca (init a cb s) = init a ca s.
Proof.
  intros Ha Hb init.
  assert (Hclock : forall l c s0,
            EXTI_clock (init l c s0) = RCC_APB2ENR_EXTITEN || EXTI_clock s0).
  { intros l c s0. subst init. unfold EXTI_vInit. cbn [EXTI_clock].
    now destruct RCC_APB2ENR_EXTITEN. }
  assert (Hstate : forall s1 s2 : EXTI_State,
            EXTI s1 = EXTI s2 -> EXTI_clock s1 = EXTI_clock s2 -> s1 = s2).
  { intros [e1 k1] [e2 k2]. cbn. congruence. }
  split.
  - intros Hne. apply Hstate.
    + apply EXTI_ext. intros bk r i. subst init.
      rewrite (EXTI_vInit_assigned a ca _ Ha), (EXTI_vInit_assigned b cb _ Hb).
      rewrite (EXTI_vInit_assigned b cb _ Hb), (EXTI_vInit_assigned a ca _ Ha).
      pose proof (EXTI_line_other a b Ha Hb Hne) as Hd.
      destruct (Bool.eqb bk (32 <=? a)) eqn:Ea,
               (Bool.eqb bk (32 <=? b)) eqn:Eb;
        cbn [andb]; try reflexivity.
      apply eqb_prop in Ea. apply eqb_prop in Eb.
      rewrite <- Ea, <- Eb, eqb_reflx in Hd. cbn [andb] in Hd.
      destruct (Z.eqb_spec i (a mod 32)), (Z.eqb_spec i (b mod 32));
        try reflexivity. lia.
    + rewrite !Hclock. now destruct RCC_APB2ENR_EXTITEN, (EXTI_clock s).
  - apply Hstate.
    + apply EXTI_ext. intros bk r i. subst init.
      rewrite (EXTI_vInit_assigned a ca _ Ha), (EXTI_vInit_assigned a cb _ Ha).
      rewrite (EXTI_vInit_assigned a ca _ Ha).
      now destruct (Bool.eqb bk (32 <=? a) && (i =? a mod 32)).
    + rewrite !Hclock. now destruct RCC_APB2ENR_EXTITEN, (EXTI_clock s).
Qed.

(** X20. The two builds of the driver agree: for a line below 64 the
    bit-band branch of EXTI_vInit leaves the state that the mask branch
    leaves when the enumerators are interrupt 1, event 2, rising edge 1
    and falling edge 2, whatever the enumerators of the bit-band build
    are; and the two branches of EXTI_vDeinit leave the same state. *)
Theorem EXTI_build_variants_agree (ucLine : Z) (pxConfig : EXTI_InitType)
    (s : EXTI_State) :
  0 <= ucLine < 64 ->
  EXTI_vInit RCC_APB2ENR_EXTITEN true REACTION_IT REACTION_EVENT EDGE_RISING
             EDGE_FALLING ucLine pxConfig s
  = EXTI_vInit RCC_APB2ENR_EXTITEN false 1 2 1 2 ucLine pxConfig s /\
  EXTI_vDeinit true ucLine s = EXTI_vDeinit false ucLine s.
Proof.
  intros Hl. split.
  - unfold EXTI_vInit. f_equal. apply EXTI_ext. intros b r i.
    rewrite (EXTI_vInit_BB_assigned ucLine pxConfig _ Hl).
    now rewrite (EXTI_vInit_mask_assigned 1 2 1 2 ucLine pxConfig _ Hl).
  - unfold EXTI_vDeinit. f_equal. apply EXTI_ext. intros b r i.
    rewrite (EXTI_vDeinit_BB_assigned ucLine _ Hl).
    now rewrite (EXTI_vDeinit_mask_assigned ucLine _ Hl).
Qed.

End EXTI_Facts.

(** * The theorems at work on the example inputs *)

(** A busy channel: enabled, five items left, serving the peripheral at
    0x40013804. *)
Lemma XPD_DMA_GetStatus_spec_witness :
  fst (XPD_DMA_GetStatus (example_state 1 5 0x40013804 0)) = XPD_BUSY.
Proof.
  assert (H : uint32 (CNDTR (Inst_regs (example_state 1 5 0x40013804 0))))
    by (vm_compute; split; [ discriminate | reflexivity ]).
  apply (proj1 (proj2 (XPD_DMA_GetStatus_spec _ H))).
  split; [ reflexivity | vm_compute; discriminate ].
Defined.

Lemma XPD_DMA_Start_busy_witness :
  XPD_DMA_Start 0x40004404 (mkDataStream 0x20000000 16)
                (example_state 1 5 0x40013804 0)
  = (XPD_BUSY, example_state 1 5 0x40013804 0).
Proof.
  apply XPD_DMA_Start_busy; vm_compute; [ discriminate | reflexivity ].
Defined.

(** The same busy channel, started again for the peripheral it serves:
    the first store clears the enable bit, the last one sets it. *)
Lemma XPD_DMA_Start_same_address_witness :
  fst (XPD_DMA_Start 0x40013804 (mkDataStream 0x20000000 16)
                     (example_state 1 5 0x40013804 0)) = XPD_OK /\
  CNDTR (Inst_regs (snd (XPD_DMA_Start 0x40013804 (mkDataStream 0x20000000 16)
                                       (example_state 1 5 0x40013804 0))))
  = 16 /\
  snd (snd (XPD_DMA_Start_steps unseen seen 0x40013804
              (mkDataStream 0x20000000 16)
              (example_state 1 5 0x40013804 0, [])))
  = [Store L_CCR 0; Store L_CPAR 0x40013804; Store L_CNDTR 16;
     Store L_CMAR 0x20000000; Store L_Errors 0; Store L_CCR 1].
Proof.
  assert (H : 0x40013804 = CPAR (Inst_regs (example_state 1 5 0x40013804 0)))
    by (vm_compute; reflexivity).
  pose proof (XPD_DMA_Start_same_address
                (example_state 1 5 0x40013804 0) 0x40013804
                (mkDataStream 0x20000000 16) H) as W.
  cbv zeta in W.
  destruct W as (Hok & _ & _ & _ & Hlen & _ & _ & _ & Hsteps & _).
  split; [ exact Hok | ]. split; [ exact Hlen | ].
  rewrite Hsteps. vm_compute. reflexivity.
Defined.

(** Half and full completion pending at once on a one-shot channel whose
    two completion interrupts are enabled. *)
Lemma XPD_DMA_IRQHandler_dispatch_witness :
  IE_enabled HT
    (snd (XPD_DMA_IRQHandler true idle_callbacks both_pending)) = false /\
  IE_enabled TC
    (snd (XPD_DMA_IRQHandler true idle_callbacks both_pending)) = false /\
  exists rest,
    calls (world (snd (XPD_DMA_IRQHandler true idle_callbacks both_pending)))
    = [] ++ [0x08000201; 0x08000101] ++ rest.
Proof.
  assert (Hframe : callback_frame idle_callbacks)
    by (intros fn c; repeat split).
  pose proof (XPD_DMA_IRQHandler_dispatch true idle_callbacks both_pending)
    as W.
  cbv zeta in W. destruct W as (_ & _ & _ & W).
  destruct (W Hframe) as (_ & _ & _ & _ & _ & _ & Wboth).
  destruct Wboth as (Hht & Htc & Hcalls); try (vm_compute; reflexivity).
  split; [ exact Hht | ]. split; [ exact Htc | ].
  apply Hcalls; vm_compute; discriminate.
Defined.

(** The same state with callbacks that do not keep to themselves.  Both
    flags are set on a channel that is not circular and both callback
    slots are filled; when the half-complete callback acknowledges the
    transfer-complete flag, the complete callback is never called and the
    transfer-complete interrupt stays enabled; when the complete callback
    starts the next transfer, both interrupt sources end enabled. *)
Lemma XPD_DMA_IRQHandler_dispatch_counterexample :
  flag_set HT both_pending = true /\
  flag_set TC both_pending = true /\
  circular both_pending = false /\
  HalfComplete (Callbacks (hdma both_pending)) = 0x08000201 /\
  Complete (Callbacks (hdma both_pending)) = 0x08000101 /\
  calls (world (snd (XPD_DMA_IRQHandler true acknowledging both_pending)))
  = [0x08000201] /\
  IE_enabled TC (snd (XPD_DMA_IRQHandler true acknowledging both_pending))
  = true /\
  calls (world (snd (XPD_DMA_IRQHandler true restarting both_pending)))
  = [0x08000201; 0x08000101] /\
  IE_enabled HT (snd (XPD_DMA_IRQHandler true restarting both_pending))
  = true /\
  IE_enabled TC (snd (XPD_DMA_IRQHandler true restarting both_pending))
  = true /\
  ~ (forall (user : Z -> Ctx -> Ctx) (c : Ctx),
       let c' := snd (XPD_DMA_IRQHandler true user c) in
       let cbs := Callbacks (hdma c) in
       flag_set HT c = true -> flag_set TC c = true -> circular c = false ->
       IE_enabled HT c' = false /\
       IE_enabled TC c' = false /\
       (HalfComplete cbs <> 0 -> Complete cbs <> 0 ->
          exists rest,
            calls (world c') =
              calls (world c) ++ [HalfComplete cbs; Complete cbs] ++ rest)).
Proof.
  repeat (split; [ vm_compute; reflexivity | ]).
  intros H. specialize (H acknowledging both_pending). cbv zeta in H.
  destruct H as (_ & Htc & _); try (vm_compute; reflexivity).
  vm_compute in Htc. discriminate.
Qed.

(** Channel 1 initialised out of reset; then channels 1 and 2 initialised
    out of reset, channel 1 deinitialised, channel 2 deinitialised. *)
Lemma clock_gate_invariant_witness :
  (dma_clock
     (world (snd (XPD_DMA_Init (Some DMA2_BASE) byte_transfer
                    (mkCtx example_handle reset_world)))) !!! 0%nat = true <->
   0 < clock_holders
         (dma_users
            (world (snd (XPD_DMA_Init (Some DMA2_BASE) byte_transfer
                           (mkCtx example_handle reset_world)))) !!! 0%nat)) /\
  (let c1 := snd (XPD_DMA_Init (Some DMA2_BASE) byte_transfer
                    (mkCtx example_handle reset_world)) in
   let c2 := snd (XPD_DMA_Init (Some DMA2_BASE) byte_transfer
                    (mkCtx second_handle (world c1))) in
   let c3 := snd (XPD_DMA_Deinit (Some DMA2_BASE)
                    (mkCtx (hdma c1) (world c2))) in
   let c4 := snd (XPD_DMA_Deinit (Some DMA2_BASE)
                    (mkCtx (hdma c2) (world c3))) in
   dma_clock (world c3) !!! 0%nat = true /\
   dma_clock (world c4) !!! 0%nat = false).
Proof.
  assert (Hch1 : is_channel (Inst example_handle))
    by (exists 0; split; [ lia | reflexivity ]).
  assert (Hch2 : is_channel (Inst second_handle))
    by (exists 1; split; [ lia | reflexivity ]).
  assert (Hreset : reachable (Some DMA2_BASE) reset_world)
    by (apply reach_reset; reflexivity).
  assert (Hreach : reachable (Some DMA2_BASE)
            (world (snd (XPD_DMA_Init (Some DMA2_BASE) byte_transfer
                           (mkCtx example_handle reset_world)))))
    by (apply reach_Init; assumption).
  split.
  - apply (proj1 (clock_gate_invariant _ _ Hreach) 0%nat). cbn. lia.
  - pose proof (proj1 (proj2 (clock_gate_invariant _ _ Hreset))
                  example_handle second_handle byte_transfer byte_transfer
                  Hch1 Hch2) as W.
    cbv zeta in W. destruct W as (Hon & Hoff).
    + reflexivity.
    + vm_compute. discriminate.
    + cbv zeta. split; [ exact Hon | ]. apply Hoff. reflexivity.
Defined.

(** The hardware reports a transfer error after the first round. *)
Lemma XPD_DMA_PollStatus_outcomes_witness :
  exists c',
    XPD_DMA_PollStatus 0xFFFFFFFF faulting 2 DMA_OPERATION_TRANSFER 100
                       (example_state 1 5 0x40013804 0)
    = Some (XPD_ERROR, c') /\
    Errors (hdma c')
    = Z.lor (Errors (hdma (example_state 1 5 0x40013804 0)))
            DMA_ERROR_TRANSFER /\
    flag_set TE c' = false.
Proof.
  assert (Hfuel : (1 < 2)%nat) by lia.
  assert (Hquiet : forall k, (k < 1)%nat ->
            quiet 0xFFFFFFFF DMA_OPERATION_TRANSFER 100
                  (msTick (world (example_state 1 5 0x40013804 0)))
                  (round faulting k (example_state 1 5 0x40013804 0))).
  { intros k Hk. destruct k as [|k]; [ | lia ].
    repeat split; vm_compute; reflexivity. }
  pose proof (XPD_DMA_PollStatus_outcomes 0xFFFFFFFF faulting 1 2
                DMA_OPERATION_TRANSFER 100 (example_state 1 5 0x40013804 0)
                Hfuel Hquiet) as W.
  cbv zeta in W. destruct W as (Werr & _).
  apply Werr; vm_compute; reflexivity.
Defined.

(** The awaited flag and the error flag are both set on entry. *)
Lemma XPD_DMA_PollStatus_flag_first_witness :
  XPD_DMA_PollStatus 0xFFFFFFFF (ticking 1) 1 DMA_OPERATION_TRANSFER 100
                     (example_state 1 0 0x40013804 10)
  = Some (XPD_OK,
          poll_done DMA_OPERATION_TRANSFER (example_state 1 0 0x40013804 10)) /\
  flag_set TE (poll_done DMA_OPERATION_TRANSFER
                         (example_state 1 0 0x40013804 10))
  = flag_set TE (example_state 1 0 0x40013804 10).
Proof.
  assert (H : flag_set (awaited DMA_OPERATION_TRANSFER)
                       (example_state 1 0 0x40013804 10) = true)
    by (vm_compute; reflexivity).
  pose proof (XPD_DMA_PollStatus_flag_first 0xFFFFFFFF (ticking 1) 0
                DMA_OPERATION_TRANSFER 100 _ H) as W.
  destruct W as (Hrun & _ & Hte & _).
  split; [ exact Hrun | exact Hte ].
Defined.

(** Stop of a channel that the hardware holds enabled while 600 ms pass
    per round. *)
Lemma XPD_DMA_Stop_spec_witness :
  XPD_DMA_Stop 0xFFFFFFFF stuck 3 (example_state 1 5 0x40013804 0)
  = Some (XPD_TIMEOUT,
          round stuck 2 (stopping stuck (example_state 1 5 0x40013804 0))).
Proof.
  pose proof (XPD_DMA_Stop_spec 0xFFFFFFFF stuck
                (example_state 1 5 0x40013804 0)) as W.
  destruct W as (_ & _ & Wwait & _).
  assert (Hfuel : (2 < 3)%nat) by lia.
  assert (Hwaiting : forall k, (k < 2)%nat ->
            waiting 0xFFFFFFFF (fun c' => CCR (Inst_regs c')) DMA_CCR_EN 0
                    DMA_ABORT_TIMEOUT
                    (msTick (world (stopping stuck
                                      (example_state 1 5 0x40013804 0))))
                    (round stuck k
                       (stopping stuck (example_state 1 5 0x40013804 0)))).
  { intros k Hk. destruct k as [|[|k]]; [ | | lia ];
      split; vm_compute; reflexivity. }
  specialize (Wwait 2%nat 3%nat Hfuel Hwaiting). cbv zeta in Wwait.
  destruct Wwait as (_ & Wtimeout).
  apply Wtimeout; vm_compute; (reflexivity || discriminate).
Defined.

(** A poll during which the hardware reports a transfer error records
    the error on a handle whose error state was NONE; Start for the
    latched address then resets the recorded error; an interrupt dispatch
    with the transfer-error flag pending records the error as well. *)
Lemma Errors_accumulate_witness :
  let c0 := example_state 1 5 0x40013804 0 in
  let c1 := error_recorded (round faulting 1 c0) in
  let c2 := armed 0x40013804 (mkDataStream 0x20000000 16) c1 in
  let c3 := example_state 1 5 0x40013804 8 in
  Errors (hdma c0) = DMA_ERROR_NONE /\
  call (Some DMA2_BASE) true 0xFFFFFFFF faulting idle_callbacks 2
       (Call_PollStatus DMA_OPERATION_TRANSFER 100) c0
  = Some (Ret_status XPD_ERROR, c1) /\
  Errors (hdma c1) = DMA_ERROR_TRANSFER /\
  call (Some DMA2_BASE) true 0xFFFFFFFF faulting idle_callbacks 2
       (Call_Start 0x40013804 (mkDataStream 0x20000000 16)) c1
  = Some (Ret_status XPD_OK, c2) /\
  Errors (hdma c2) = DMA_ERROR_NONE /\
  Errors (hdma c3) = DMA_ERROR_NONE /\
  Errors (hdma (snd (XPD_DMA_IRQHandler true idle_callbacks c3)))
  = DMA_ERROR_TRANSFER.
Proof.
  intros c0 c1 c2 c3.
  assert (Hpoll :
    call (Some DMA2_BASE) true 0xFFFFFFFF faulting idle_callbacks 2
         (Call_PollStatus DMA_OPERATION_TRANSFER 100) c0
    = Some (Ret_status XPD_ERROR, c1)) by (vm_compute; reflexivity).
  assert (Hstart :
    call (Some DMA2_BASE) true 0xFFFFFFFF faulting idle_callbacks 2
         (Call_Start 0x40013804 (mkDataStream 0x20000000 16)) c1
    = Some (Ret_status XPD_OK, c2)) by (vm_compute; reflexivity).
  assert (Hirq :
    call (Some DMA2_BASE) true 0xFFFFFFFF faulting idle_callbacks 2
         Call_IRQHandler c3
    = Some (Ret_void, snd (XPD_DMA_IRQHandler true idle_callbacks c3)))
    by reflexivity.
  assert (Hframe : callback_frame idle_callbacks)
    by (intros fn c; repeat split).
  pose proof (Errors_accumulate _ _ _ _ _ _ _ _ _ _ Hpoll) as Wpoll.
  pose proof (Errors_accumulate _ _ _ _ _ _ _ _ _ _ Hstart) as Wstart.
  pose proof (Errors_accumulate _ _ _ _ _ _ _ _ _ _ Hirq) as Wirq.
  cbv zeta in Wpoll, Wstart, Wirq.
  destruct Wpoll as (Wpoll & _). destruct Wstart as (Wstart & _).
  destruct Wirq as (_ & Wirq & _).
  destruct (Wirq eq_refl) as (_ & _ & _ & _ & Wpassive).
  split; [ reflexivity | ]. split; [ exact Hpoll | ].
  split; [ rewrite Wpoll by discriminate; vm_compute; reflexivity | ].
  split; [ exact Hstart | ].
  split; [ rewrite Wstart by discriminate; reflexivity | ].
  split; [ reflexivity | ].
  rewrite (Wpassive Hframe). vm_compute. reflexivity.
Defined.

(** A handle with a transfer error on record and the transfer-error flag
    pending again, and an error callback that resets the error state: the
    interrupt dispatch, which is no Start, leaves the bitmask at NONE. *)
Lemma Errors_accumulate_counterexample :
  Errors (hdma error_pending) = DMA_ERROR_TRANSFER /\
  call (Some DMA2_BASE) true 0xFFFFFFFF (ticking 1) dismissing 1
       Call_IRQHandler error_pending
  = Some (Ret_void, snd (XPD_DMA_IRQHandler true dismissing error_pending)) /\
  calls (world (snd (XPD_DMA_IRQHandler true dismissing error_pending)))
  = [0x08000301] /\
  Errors (hdma (snd (XPD_DMA_IRQHandler true dismissing error_pending)))
  = DMA_ERROR_NONE /\
  ~ (forall (user : Z -> Ctx -> Ctx) (k : DMA_Call) (c : Ctx)
            (r : DMA_Return) (c' : Ctx),
       call (Some DMA2_BASE) true 0xFFFFFFFF (ticking 1) user 1 k c
       = Some (r, c') ->
       arms k r = false ->
       Z.lor (Errors (hdma c)) (Errors (hdma c')) = Errors (hdma c')).
Proof.
  repeat (split; [ vm_compute; reflexivity | ]).
  intros H.
  specialize (H dismissing Call_IRQHandler error_pending Ret_void
                (snd (XPD_DMA_IRQHandler true dismissing error_pending))
                eq_refl eq_refl).
  vm_compute in H. discriminate.
Qed.

(** * The further properties at work on the example inputs *)

(** Channel 1 initialised for a circular memory-to-memory transfer while
    it is enabled: the direction reads back in DIR and MEM2MEM, the mode in
    CIRC, and the channel is still enabled. *)
Lemma XPD_DMA_Init_configures_witness :
  let c' := snd (XPD_DMA_Init (Some DMA2_BASE) circular_memory_to_memory
                   (example_state 1 0 0 0)) in
  read_field (CCR_pos DIR) (CCR_width DIR) (CCR (Inst_regs c')) = 0 /\
  read_field (CCR_pos MEM2MEM) (CCR_width MEM2MEM) (CCR (Inst_regs c')) = 1 /\
  read_field (CCR_pos CIRC) (CCR_width CIRC) (CCR (Inst_regs c')) = 1 /\
  Z.testbit (CCR (Inst_regs c')) 0 = true.
Proof.
  assert (Hvalid : DMA_InitType_enumerators circular_memory_to_memory = true)
    by reflexivity.
  pose proof (XPD_DMA_Init_configures (Some DMA2_BASE)
                circular_memory_to_memory (example_state 1 0 0 0) Hvalid) as W.
  cbv zeta in W.
  destruct W as (_ & Hdir & Hm2m & Hcirc & _ & _ & _ & _ & Hkeep & _).
  cbv zeta. split; [ exact Hdir | ]. split; [ exact Hm2m | ].
  split; [ exact Hcirc | ].
  rewrite (Hkeep 0) by (left; lia). vm_compute. reflexivity.
Defined.

(** Channel 2 of the first controller: its flags sit four bits up. *)
Lemma XPD_DMA_Init_addressing_witness :
  let c' := snd (XPD_DMA_Init (Some DMA2_BASE) byte_transfer
                   (mkCtx second_handle reset_world)) in
  Base (hdma c') = DMA1_BASE /\
  ChannelOffset (hdma c') = 4 /\
  DMA_flag_mask TC c' = 32.
Proof.
  assert (Hu : uint32 (Inst (hdma (mkCtx second_handle reset_world))))
    by (vm_compute; split; [ discriminate | reflexivity ]).
  assert (Hn : 0 <= 1 < 7) by lia.
  assert (Hlow : Z.land (Inst (hdma (mkCtx second_handle reset_world))) 0xFF
                 = 8 + 20 * 1) by reflexivity.
  pose proof (XPD_DMA_Init_addressing (Some DMA2_BASE) byte_transfer
                (mkCtx second_handle reset_world) 1 Hu Hn Hlow) as W.
  cbv zeta in W. destruct W as (Hb & Ho & _ & _ & Hm).
  cbv zeta. split; [ rewrite Hb; reflexivity | ].
  split; [ exact Ho | rewrite Hm; reflexivity ].
Defined.

(** Channel 1 initialised twice out of reset and deinitialised once: the
    clock of the first controller is off. *)
Lemma XPD_DMA_Init_twice_Deinit_once_witness :
  let c := mkCtx example_handle reset_world in
  let c1 := snd (XPD_DMA_Init (Some DMA2_BASE) byte_transfer c) in
  let c2 := snd (XPD_DMA_Init (Some DMA2_BASE) word_transfer c1) in
  dma_clock (world (snd (XPD_DMA_Deinit (Some DMA2_BASE) c2))) !!! 0%nat
  = false.
Proof.
  assert (Hinv : clock_inv (Some DMA2_BASE)
                   (world (mkCtx example_handle reset_world)))
    by (apply clock_inv_reset; reflexivity).
  assert (Hch : is_channel (Inst (hdma (mkCtx example_handle reset_world))))
    by (exists 0; split; [ lia | reflexivity ]).
  pose proof (XPD_DMA_Init_twice_Deinit_once (Some DMA2_BASE) byte_transfer
                word_transfer _ Hinv Hch) as W.
  cbv zeta in W. destruct W as (_ & _ & _ & _ & Hoff).
  cbv zeta. apply Hoff. reflexivity.
Defined.

(** A transfer of 16 items for one peripheral keeps another peripheral
    off the channel. *)
Lemma XPD_DMA_Start_holds_channel_witness :
  let c1 := snd (XPD_DMA_Start 0x40013804 (mkDataStream 0x20000000 16)
                   (example_state 0 0 0 0)) in
  XPD_DMA_Start 0x40004404 (mkDataStream 0x20000100 8) c1 = (XPD_BUSY, c1).
Proof.
  assert (Hok : fst (XPD_DMA_Start 0x40013804 (mkDataStream 0x20000000 16)
                       (example_state 0 0 0 0)) = XPD_OK)
    by (vm_compute; reflexivity).
  assert (Hne : 0x40004404 <> 0x40013804) by discriminate.
  pose proof (XPD_DMA_Start_holds_channel 0x40013804 0x40004404
                (mkDataStream 0x20000000 16) (mkDataStream 0x20000100 8)
                (example_state 0 0 0 0) Hok Hne) as W.
  cbv zeta in W. destruct W as (_ & Hbusy & _). exact Hbusy.
Defined.

(** An interrupt of channel 1 with no flag of the channel set. *)
Lemma XPD_DMA_IRQHandler_spurious_witness :
  XPD_DMA_IRQHandler true idle_callbacks (example_state 0x0F 5 0x40013804 0)
  = (tt, example_state 0x0F 5 0x40013804 0).
Proof.
  apply (proj1 (XPD_DMA_IRQHandler_spurious true idle_callbacks
                  (example_state 0x0F 5 0x40013804 0)
                  eq_refl eq_refl eq_refl)).
Defined.

(** All flags of channel 1 and of channel 2 pending: the handler of
    channel 1 leaves the flags of channel 2 and keeps the channel and its
    error interrupt enabled. *)
Lemma XPD_DMA_IRQHandler_acknowledges_witness :
  let c := example_state 0x0F 5 0x40013804 0xEE in
  let c' := snd (XPD_DMA_IRQHandler true idle_callbacks c) in
  Z.testbit (ISR (Base_regs c')) 5 = true /\
  reads_enabled c' = true /\
  IE_enabled TE c' = true.
Proof.
  assert (Hframe : callback_frame idle_callbacks)
    by (intros fn c; repeat split).
  pose proof (XPD_DMA_IRQHandler_acknowledges true idle_callbacks Hframe
                (example_state 0x0F 5 0x40013804 0xEE)) as W.
  cbv zeta in W. destruct W as (Hisr & _ & _ & Hen & Hte).
  cbv zeta. split; [ rewrite Hisr; vm_compute; reflexivity | ].
  split; [ rewrite Hen | rewrite Hte ]; vm_compute; reflexivity.
Defined.

(** The handler run twice on a channel with all its flags pending. *)
Lemma XPD_DMA_IRQHandler_idempotent_witness :
  let c' := snd (XPD_DMA_IRQHandler true idle_callbacks
                   (example_state 0x0F 5 0x40013804 0x0E)) in
  XPD_DMA_IRQHandler true idle_callbacks c' = (tt, c').
Proof.
  assert (Hframe : callback_frame idle_callbacks)
    by (intros fn c; repeat split).
  exact (XPD_DMA_IRQHandler_idempotent true idle_callbacks Hframe
           (example_state 0x0F 5 0x40013804 0x0E)).
Defined.

(** A poll that ends with ERROR on hardware that reports a transfer error
    after the first round: some round saw the error flag. *)
Lemma XPD_DMA_PollStatus_sound_witness :
  exists n : nat,
    (n < 3)%nat /\
    flag_set TE (round faulting n (example_state 1 5 0x40013804 0)) = true.
Proof.
  assert (Hrun :
    XPD_DMA_PollStatus 0xFFFFFFFF faulting 3 DMA_OPERATION_TRANSFER 100
                       (example_state 1 5 0x40013804 0)
    = Some (XPD_ERROR,
            error_recorded (round faulting 1 (example_state 1 5 0x40013804 0))))
    by (vm_compute; reflexivity).
  pose proof (XPD_DMA_PollStatus_sound 0xFFFFFFFF faulting 3
                DMA_OPERATION_TRANSFER 100 _ _ _ Hrun) as W.
  destruct W as (n & Hn & _ & Hres). cbv zeta in Hres.
  destruct Hres as ((_ & Hte & _) & _).
  exists n. split; assumption.
Defined.

(** A poll with a timeout of 1000 ms while 600 ms pass per round. *)
Lemma XPD_DMA_PollStatus_bounded_witness :
  exists r c',
    XPD_DMA_PollStatus 0xFFFFFFFF (ticking 600) 3 DMA_OPERATION_TRANSFER 1000
                       (example_state 1 5 0x40013804 0)
    = Some (r, c').
Proof.
  apply (XPD_DMA_PollStatus_bounded 0xFFFFFFFF (ticking 600) 2 3
           DMA_OPERATION_TRANSFER 1000 (example_state 1 5 0x40013804 0)).
  - discriminate.
  - vm_compute. reflexivity.
  - lia.
Defined.

(** A poll with a timeout of 2 ms while the tick advances by one per
    round. *)
Lemma XPD_DMA_PollStatus_terminates_witness :
  exists r c',
    XPD_DMA_PollStatus 0xFFFFFFFF (ticking 1) 4 DMA_OPERATION_HALFTRANSFER 2
                       (example_state 1 5 0x40013804 0)
    = Some (r, c').
Proof.
  assert (Hticks : tick_runs (ticking 1) 1).
  { intros w. unfold ticking. cbn [msTick].
    replace (msTick w + 1 - msTick w) with 1 by lia.
    vm_compute. split; discriminate. }
  apply (XPD_DMA_PollStatus_terminates 0xFFFFFFFF (ticking 1) 1 Hticks 4
           DMA_OPERATION_HALFTRANSFER 2 (example_state 1 5 0x40013804 0)).
  - discriminate.
  - lia.
  - vm_compute. reflexivity.
  - vm_compute. reflexivity.
Defined.

(** Deinit of channel 1: the rest of the machine is as before, and the
    handle keeps the addressing that Init cached. *)
Lemma register_calls_stay_on_channel_witness :
  let c := example_state 1 5 0x40013804 6 in
  let c' := snd (XPD_DMA_Deinit (Some DMA2_BASE) c) in
  elsewhere_unchanged c c' /\
  Base (hdma c') = Base (hdma c) /\
  ChannelOffset (hdma c') = ChannelOffset (hdma c).
Proof.
  assert (Hk : register_call Call_Deinit = true) by reflexivity.
  assert (Hcall :
    call (Some DMA2_BASE) true 0xFFFFFFFF (ticking 1) idle_callbacks 0
         Call_Deinit (example_state 1 5 0x40013804 6)
    = Some (Ret_status XPD_OK,
            snd (XPD_DMA_Deinit (Some DMA2_BASE)
                   (example_state 1 5 0x40013804 6))))
    by (vm_compute; reflexivity).
  pose proof (register_calls_stay_on_channel _ _ _ _ _ _ _ _ _ _ Hk Hcall)
    as W.
  destruct W as (Helse & _ & _ & _ & _ & Haddr).
  cbv zeta. split; [ exact Helse | ]. apply Haddr. reflexivity.
Defined.

(** Line 5 set up for an interrupt on both edges. *)
Lemma EXTI_vInit_configures_line_witness :
  EXTI_line 5 (EXTI (EXTI_vInit false false 1 2 1 2 5 interrupt_on_both_edges
                                EXTI_reset))
  = mkLine true false true true.
Proof.
  assert (Hl : 0 <= 5 < 64) by lia.
  pose proof (EXTI_vInit_configures_line false false 1 2 1 2 5
                interrupt_on_both_edges EXTI_reset Hl) as W.
  cbv zeta in W. destruct W as (Hline & _). exact Hline.
Defined.

(** Line 37, of the second bank, set up and torn down again. *)
Lemma EXTI_vDeinit_restores_line_witness :
  EXTI (EXTI_vDeinit false 37
          (EXTI_vInit false false 1 2 1 2 37 interrupt_on_both_edges
                      EXTI_reset))
  = EXTI EXTI_reset.
Proof.
  assert (Hl : 0 <= 37 < 64) by lia.
  pose proof (EXTI_vDeinit_restores_line false false 1 2 1 2 37
                interrupt_on_both_edges EXTI_reset Hl) as W.
  cbv zeta in W. destruct W as (_ & _ & _ & _ & Hback).
  apply Hback. reflexivity.
Defined.

(** Lines 5 and 37 set up in either order. *)
Lemma EXTI_vInit_lines_independent_witness :
  EXTI_vInit true true 1 2 1 2 5 interrupt_on_both_edges
    (EXTI_vInit true true 1 2 1 2 37 (mkEXTI_Init 2 1) EXTI_reset)
  = EXTI_vInit true true 1 2 1 2 37 (mkEXTI_Init 2 1)
      (EXTI_vInit true true 1 2 1 2 5 interrupt_on_both_edges EXTI_reset).
Proof.
  assert (Ha : 0 <= 5 < 64) by lia.
  assert (Hb : 0 <= 37 < 64) by lia.
  pose proof (EXTI_vInit_lines_independent true true 1 2 1 2 5 37
                interrupt_on_both_edges (mkEXTI_Init 2 1) EXTI_reset Ha Hb)
    as W.
  cbv zeta in W. destruct W as (Hcomm & _). apply Hcomm. discriminate.
Defined.

(** Line 40 set up by the bit-band build and by the mask build. *)
Lemma EXTI_build_variants_agree_witness :
  EXTI_vInit false true 1 2 1 2 40 interrupt_on_both_edges EXTI_reset
  = EXTI_vInit false false 1 2 1 2 40 interrupt_on_both_edges EXTI_reset.
Proof.
  assert (Hl : 0 <= 40 < 64) by lia.
  exact (proj1 (EXTI_build_variants_agree false 1 2 1 2 40
                  interrupt_on_both_edges EXTI_reset Hl)).
Defined.
